(** * Cloud file storage: upload intake, content scanner, share links

    A shallow embedding of the server side of the repository
    (src/lib/*.ts and the route handlers under src/app/api) together
    with the properties the specification states about it.

    Conventions of the embedding.
    - A JavaScript string is the list of its UTF-16 code units
      ([jsstring]); [js] turns an ASCII literal into such a list.
    - A JavaScript number that holds a byte count, a counter or a
      millisecond timestamp is a [Z]; all of them are integers far below
      2^53, where the arithmetic of the source is exact.  The one number
      a request can push beyond that range, the duration the share route
      parses, only passes the range check of [Date] when the products
      computed from it are below 2^53 as well.
    - A Buffer is a [list byte].
    - A MongoDB collection is a finite map from the document's [_id] to
      the document; the object store is a finite map from keys to objects.
    - Handlers run in a state-and-exception monad over [World].  The
      world carries two oracles: which of the coming calls into the
      database, the bucket and the image library are rejected, and by how
      much the clock has moved on at each of its coming readings.
    - What the handlers take from libraries (token verification, password
      hashes, image processing, URL signing, regular expressions) is a
      parameter, the class [Externals]; the salted hash of a share
      link's password is the class [Bcrypt]. *)

From Stdlib Require Import ZArith NArith String Ascii DecimalString DecimalZ List.
From Stdlib.Strings Require Import Byte.
From stdpp Require Import base option list gmap sorting.

Local Open Scope Z_scope.

#[global] Instance byte_eq_decision : EqDecision byte := Byte.byte_eq_dec.

(** ** JavaScript strings *)

Definition jsstring := list N.

Definition js (s : string) : jsstring :=
  map N_of_ascii (list_ascii_of_string s).

(** [String(n)] for an integer [n]. *)
Definition decimal (z : Z) : jsstring :=
  js (NilZero.string_of_int (Z.to_int z)).

Arguments js : simpl never.
Arguments decimal : simpl never.

(** Array.prototype.join *)
Fixpoint join (sep : jsstring) (parts : list jsstring) : jsstring :=
  match parts with
  | [] => []
  | [p] => p
  | p :: rest => p ++ sep ++ join sep rest
  end.

(** Array.prototype.includes on an array of strings. *)
Definition includes (l : list jsstring) (x : jsstring) : bool :=
  existsb (fun e => bool_decide (e = x)) l.

(** The lower-case mapping of one code unit, as
    String.prototype.toLowerCase applies it.  Covered: ASCII, Latin-1,
    and the two code units beyond Latin-1 whose lower-case form contains
    an ASCII letter: U+0130 (capital I with dot above), which becomes the
    two units U+0069 U+0307, and U+212A (Kelvin sign), which becomes k.
    Any other unit is left in place: its lower-case form is one non-ASCII
    unit, which no comparison of this program tells from the original. *)
Definition lowerUnit (c : N) : list N :=
  if ((65 <=? c) && (c <=? 90))%N then [(c + 32)%N]
  else if ((192 <=? c) && (c <=? 222) && negb (c =? 215))%N then [(c + 32)%N]
  else if (c =? 304)%N then [105%N; 775%N]
  else if (c =? 8490)%N then [107%N]
  else [c].

Definition toLowerCase (s : jsstring) : jsstring := flat_map lowerUnit s.

(** [s.lastIndexOf(c)] for a one-unit search string: the index of the
    last occurrence, or -1. *)
Fixpoint lastIndexOfFrom (c : N) (s : jsstring) (i acc : Z) : Z :=
  match s with
  | [] => acc
  | x :: r => lastIndexOfFrom c r (i + 1) (if (x =? c)%N then i else acc)
  end.

Definition lastIndexOf (c : N) (s : jsstring) : Z := lastIndexOfFrom c s 0 (-1).

(** [s.substring(start)]: a negative start counts as 0, one beyond the
    end gives the empty string. *)
Definition substring (s : jsstring) (start : Z) : jsstring :=
  drop (Z.to_nat (Z.max 0 start)) s.

Definition startsWith (s p : jsstring) : bool :=
  bool_decide (take (length p) s = p).

Definition endsWith (s p : jsstring) : bool :=
  bool_decide (drop (length s - length p)%nat s = p) && (length p <=? length s)%nat.

(** [s.replace(pat, rep)] for a string pattern: the first occurrence only. *)
Fixpoint replaceFirst (pat rep s : jsstring) : jsstring :=
  if startsWith s pat then rep ++ drop (length pat) s
  else match s with
       | [] => []
       | c :: r => c :: replaceFirst pat rep r
       end.

(** [s.split(sep)] for a one-unit separator. *)
Fixpoint splitOn (sep : N) (s : jsstring) : list jsstring :=
  match s with
  | [] => [[]]
  | c :: r =>
      if (c =? sep)%N then [] :: splitOn sep r
      else match splitOn sep r with
           | [] => [[c]]
           | p :: ps => (c :: p) :: ps
           end
  end.

Definition DOT : N := 46.
Definition SLASH : N := 47.

(** ** src/lib/virus-scanner.ts *)

Inductive ScanResult := clean | infected | error.

Module virusScanner.

Definition dangerousExtensions : list jsstring :=
    Eval vm_compute in
      map js [".exe"; ".bat"; ".cmd"; ".scr"; ".pif"; ".com"; ".vbs"; ".js";
              ".jar"; ".msi"; ".deb"; ".rpm"]%string.

Definition safeImageExtensions : list jsstring :=
    Eval vm_compute in
      map js [".jpg"; ".jpeg"; ".png"; ".gif"; ".bmp"; ".webp"; ".svg"; ".ico"]%string.

Definition safeDocumentExtensions : list jsstring :=
    Eval vm_compute in
      map js [".pdf"; ".doc"; ".docx"; ".xls"; ".xlsx"; ".ppt"; ".pptx"; ".txt";
              ".rtf"]%string.

Definition safeMediaExtensions : list jsstring :=
    Eval vm_compute in
      map js [".mp3"; ".mp4"; ".avi"; ".mov"; ".wmv"; ".wav"; ".ogg"; ".flac"]%string.

Definition allSafeExtensions : list jsstring :=
    safeImageExtensions ++ safeDocumentExtensions ++ safeMediaExtensions.

  (** PE and ELF executable headers. *)
Definition PE : list byte := [x4d; x5a].
Definition ELF : list byte := [x7f; x45; x4c; x46].

Definition executableSignatures : list (list byte) := [PE; ELF].
Definition suspiciousSignatures : list (list byte) := [PE; ELF].

  (** The inner loop of containsSignature, entered at index [j] with [n]
      iterations left: [buffer[i + j] !== signature[j]] breaks with
      [match = false]. *)
Fixpoint matchFrom (buffer signature : list byte) (i j n : nat) : bool :=
    match n with
    | O => true
    | S n' =>
        if bool_decide (buffer !! (i + j)%nat = signature !! j)
        then matchFrom buffer signature i (S j) n'
        else false
    end.

Definition matchAt (buffer signature : list byte) (i : nat) : bool :=
    matchFrom buffer signature i 0 (length signature).

  (** The outer loop, entered at offset [i] with [n] iterations left; it
      returns at the first offset that matches. *)
Fixpoint searchFrom (buffer signature : list byte) (i n : nat) : option nat :=
    match n with
    | O => None
    | S n' =>
        if matchAt buffer signature i then Some i
        else searchFrom buffer signature (S i) n'
    end.

  (** [for (let i = 0; i <= buffer.length - signature.length; i++)] *)
Definition firstHit (buffer signature : list byte) : option nat :=
    searchFrom buffer signature 0
      (Z.to_nat (Z.of_nat (length buffer) - Z.of_nat (length signature) + 1)).

Definition containsSignature (buffer signature : list byte) : bool :=
    match firstHit buffer signature with Some _ => true | None => false end.

Definition fileExtension (fileName : jsstring) : jsstring :=
    substring (toLowerCase fileName) (lastIndexOf DOT fileName).

Definition scanBuffer (buffer : list byte) (fileName : jsstring) : ScanResult :=
    if includes dangerousExtensions (fileExtension fileName) then infected
    else if includes allSafeExtensions (fileExtension fileName) then
      if existsb (containsSignature buffer) executableSignatures
      then infected else clean
    else
      if existsb (containsSignature buffer) suspiciousSignatures
      then infected else clean.

End virusScanner.

(** ** src/lib/file-validator.ts *)

(** A part of the multipart form: what the handler reads of a [File]. *)
Module File.
Record t := {
    name : jsstring;
    type : jsstring;
    size : Z;
    content : list byte;   (* the bytes arrayBuffer() yields *)
  }.
End File.

Record ValidationResult := {
  isValid : bool;
  errors : list jsstring;
}.

(** [files.reduce((sum, file) => sum + file.size, 0)] *)
Definition totalSize (files : list File.t) : Z :=
  fold_left (fun sum file => sum + File.size file) files 0.

Module fileValidator.

Definition MAX_FILE_SIZE : Z := 100 * 1024 * 1024.

Definition ALLOWED_TYPES : list jsstring :=
    Eval vm_compute in
      map js ["image/jpeg"; "image/png"; "image/gif"; "image/webp";
              "video/mp4"; "video/webm"; "video/quicktime";
              "audio/mp3"; "audio/wav"; "audio/ogg";
              "application/pdf"; "application/msword";
              "application/vnd.openxmlformats-officedocument.wordprocessingml.document";
              "application/vnd.ms-excel";
              "application/vnd.openxmlformats-officedocument.spreadsheetml.sheet";
              "text/plain"; "text/csv"; "application/zip";
              "application/x-rar-compressed"]%string.

  (** The patterns [/\.exe$/i] and the like: with the [i] flag and no [u]
      flag a pattern letter matches its two ASCII cases only. *)
Definition dangerousPatterns : list jsstring :=
    Eval vm_compute in map js [".exe"; ".bat"; ".cmd"; ".scr"]%string.

Definition asciiLower (c : N) : N :=
    if ((65 <=? c) && (c <=? 90))%N then (c + 32)%N else c.

Definition test (pattern : jsstring) (s : jsstring) : bool :=
    (length pattern <=? length s)%nat
    && bool_decide (map asciiLower (drop (length s - length pattern)%nat s) = pattern).

Definition pushIf (c : bool) (e : jsstring) (errs : list jsstring) : list jsstring :=
    if c then errs ++ [e] else errs.

Definition validateFile (file : File.t) : ValidationResult :=
    let errs := [] in
    let errs := pushIf (MAX_FILE_SIZE <? File.size file)
                  (js "File size exceeds " ++ decimal (MAX_FILE_SIZE / (1024 * 1024))
                   ++ js "MB limit") errs in
    let errs := pushIf (negb (includes ALLOWED_TYPES (File.type file)))
                  (js "File type " ++ File.type file ++ js " is not allowed") errs in
    let errs := pushIf (255 <? Z.of_nat (length (File.name file)))
                  (js "File name is too long (max 255 characters)") errs in
    let errs := pushIf (existsb (fun pattern => test pattern (File.name file)) dangerousPatterns)
                  (js "File type is not allowed for security reasons") errs in
    {| isValid := bool_decide (length errs = 0%nat); errors := errs |}.

  (** The body of [files.forEach((file, index) => ...)], from [index] on. *)
Fixpoint forEachFile (files : list File.t) (index : Z) (allErrors : list jsstring)
    : list jsstring :=
    match files with
    | [] => allErrors
    | file :: rest =>
        let result := validateFile file in
        forEachFile rest (index + 1)
          (if isValid result then allErrors
           else allErrors ++ [js "File " ++ decimal (index + 1) ++ js " (" ++ File.name file
                              ++ js "): " ++ join (js ", ") (errors result)])
    end.

Definition validateBatch (files : list File.t) : ValidationResult :=
    let allErrors :=
      pushIf (500 * 1024 * 1024 <? totalSize files)
        (js "Total batch size exceeds 500MB limit") [] in
    let allErrors := forEachFile files 0 allErrors in
    {| isValid := bool_decide (length allErrors = 0%nat); errors := allErrors |}.

End fileValidator.

(** ** src/lib/database.ts: documents *)

(** An ObjectId, and the string the driver prints for it (the database
    prints 24 hexadecimal digits; the model prints the decimal digits). *)
Definition ObjectId := N.

Definition oidString (id : ObjectId) : jsstring := decimal (Z.of_N id).

Module User.
Record t := {
    email : jsstring;
    name : jsstring;
    passwordHash : jsstring;
    storageUsed : Z;
    storageLimit : Z;
    createdAt : Z;
    updatedAt : Z;
    isActive : bool;
    lastLoginAt : option Z;
    emailVerified : bool;
  }.

  (** [$set: { storageUsed, updatedAt }] *)
Definition setStorageUsed (v now : Z) (u : t) : t :=
    {| email := email u; name := name u; passwordHash := passwordHash u;
       storageUsed := v; storageLimit := storageLimit u;
       createdAt := createdAt u; updatedAt := now; isActive := isActive u;
       lastLoginAt := lastLoginAt u; emailVerified := emailVerified u |}.
End User.

Module VirusScanStatus.
Inductive t := pending | clean | infected | error.
End VirusScanStatus.

Module Metadata.
Record t := {
    size : option Z;
    width : option Z;
    height : option Z;
    format : option jsstring;
    thumbnailS3Key : option jsstring;
    thumbnailUrl : option jsstring;
  }.
End Metadata.

Module ShareSettings.
Record t := {
    shareId : jsstring;
    password : option jsstring;
    expiresAt : option Z;
    allowDownload : bool;
    allowPreview : bool;
  }.
End ShareSettings.

Module FileRecord.
Record t := {
    userId : ObjectId;
    name : jsstring;
    originalName : jsstring;
    size : Z;
    type : jsstring;
    s3Key : jsstring;
    s3Location : jsstring;
    uploadedAt : Z;
    lastModified : Z;
    lastAccessedAt : option Z;
    isShared : bool;
    shareSettings : option ShareSettings.t;
    metadata : Metadata.t;
    virusScanStatus : VirusScanStatus.t;
    tags : list jsstring;
    isDeleted : bool;
    deletedAt : option Z;
  }.

  (** [$set: { isDeleted: true, deletedAt }] *)
Definition setDeleted (now : Z) (f : t) : t :=
    {| userId := userId f; name := name f; originalName := originalName f;
       size := size f; type := type f; s3Key := s3Key f;
       s3Location := s3Location f; uploadedAt := uploadedAt f;
       lastModified := lastModified f; lastAccessedAt := lastAccessedAt f;
       isShared := isShared f; shareSettings := shareSettings f;
       metadata := metadata f; virusScanStatus := virusScanStatus f;
       tags := tags f; isDeleted := true; deletedAt := Some now |}.
End FileRecord.

Module AccessEntry.
Record t := {
    timestamp : Z;
    ipAddress : option jsstring;
    userAgent : option jsstring;
  }.
End AccessEntry.

Module ShareLink.
Record t := {
    fileId : ObjectId;
    userId : ObjectId;
    password : option jsstring;
    expiresAt : option Z;
    allowDownload : bool;
    allowPreview : bool;
    accessCount : Z;
    lastAccessedAt : option Z;
    createdAt : Z;
    updatedAt : Z;
    isActive : bool;
    accessLog : list AccessEntry.t;
  }.

  (** [$inc: { accessCount: 1 }, $set: { lastAccessedAt, updatedAt },
      $push: { accessLog }] *)
Definition recordAccess (accessed updated logged : Z) (ip agent : option jsstring)
      (l : t) : t :=
    {| fileId := fileId l; userId := userId l; password := password l;
       expiresAt := expiresAt l; allowDownload := allowDownload l;
       allowPreview := allowPreview l; accessCount := accessCount l + 1;
       lastAccessedAt := Some accessed; createdAt := createdAt l;
       updatedAt := updated; isActive := isActive l;
       accessLog := accessLog l ++
         [{| AccessEntry.timestamp := logged; AccessEntry.ipAddress := ip;
             AccessEntry.userAgent := agent |}] |}.
End ShareLink.

(** ** The world a handler runs in *)

Module S3Object.
Record t := {
    Body : list byte;
    ContentType : jsstring;
    Metadata : list (jsstring * jsstring);
  }.
End S3Object.

(** What persists between requests: the three collections, the bucket,
    and the background scans waiting on their timer. *)
Record Store := {
  users : gmap ObjectId User.t;
  files : gmap ObjectId FileRecord.t;
  shareLinks : gmap ObjectId ShareLink.t;
  bucket : gmap jsstring S3Object.t;
  timers : list (ObjectId * jsstring);
}.

(** Besides the store, the world holds the wall clock and two oracles:
    by how many milliseconds the clock has moved on at each of its coming
    readings, and which of the coming gateway calls are rejected. *)
Record World := {
  store : Store;
  now : Z;
  ticks : list N;
  faults : list bool;
}.

Inductive Outcome (A : Type) :=
| Returned (a : A)
| Threw (message : jsstring).
Arguments Returned {A} a.
Arguments Threw {A} message.

Definition M (A : Type) : Type := World -> Outcome A * World.

#[global] Instance M_ret : MRet M := fun A a w => (Returned a, w).

#[global] Instance M_bind : MBind M := fun A B k m w =>
  match m w with
  | (Returned a, w') => k a w'
  | (Threw e, w') => (Threw e, w')
  end.

Definition throw {A} (message : jsstring) : M A := fun w => (Threw message, w).

(** [try { body } catch (error) { handler }] *)
Definition tryCatch {A} (body : M A) (handler : jsstring -> M A) : M A := fun w =>
  match body w with
  | (Returned a, w') => (Returned a, w')
  | (Threw e, w') => handler e w'
  end.

Definition getStore : M Store := fun w => (Returned (store w), w).

Definition setStore (s : Store) : M unit := fun w =>
  (Returned tt, {| store := s; now := now w; ticks := ticks w; faults := faults w |}).

(** [Date.now()], [new Date()]: the clock as it stands at this reading.
    With no tick left the clock stands still. *)
Definition DateNow : M Z := fun w =>
  match ticks w with
  | [] => (Returned (now w), w)
  | d :: rest =>
      let t := now w + Z.of_N d in
      (Returned t, {| store := store w; now := t; ticks := rest; faults := faults w |})
  end.

(** An awaited call into the database, the bucket, the signer or the
    image library: it may be rejected.  With no fault left to read the call
    goes through. *)
Definition gateway (service : jsstring) : M unit := fun w =>
  match faults w with
  | [] => (Returned tt, w)
  | fault :: rest =>
      let w' := {| store := store w; now := now w; ticks := ticks w;
                   faults := rest |} in
      if fault then (Threw (service ++ js " failed"), w')
      else (Returned tt, w')
  end.

Definition withUsers (m : gmap ObjectId User.t) (s : Store) : Store :=
  {| users := m; files := files s; shareLinks := shareLinks s;
     bucket := bucket s; timers := timers s |}.

Definition withFiles (m : gmap ObjectId FileRecord.t) (s : Store) : Store :=
  {| users := users s; files := m; shareLinks := shareLinks s;
     bucket := bucket s; timers := timers s |}.

Definition withShareLinks (m : gmap ObjectId ShareLink.t) (s : Store) : Store :=
  {| users := users s; files := files s; shareLinks := m;
     bucket := bucket s; timers := timers s |}.

Definition withBucket (m : gmap jsstring S3Object.t) (s : Store) : Store :=
  {| users := users s; files := files s; shareLinks := shareLinks s;
     bucket := m; timers := timers s |}.

Definition withTimers (l : list (ObjectId * jsstring)) (s : Store) : Store :=
  {| users := users s; files := files s; shareLinks := shareLinks s;
     bucket := bucket s; timers := l |}.

(** ** What the handlers take from libraries and configuration *)

Module JWTPayload.
Record t := {
    userId : ObjectId;
    email : jsstring;
    exp : Z;
  }.
End JWTPayload.

Module SharpOutput.
Record t := {
    width : option Z;
    height : option Z;
    format : option jsstring;
    thumbnail : list byte;   (* resize(300, 300).jpeg({ quality: 80 }) *)
  }.
End SharpOutput.

Class Externals := {
  (** jose's jwtVerify under the server's secret; [None] when it rejects *)
  jwtVerify : jsstring -> option JWTPayload.t;
  (** bcryptjs compare(password, hash) *)
  bcryptCompare : jsstring -> jsstring -> bool;
  (** sharp on a buffer; [None] when it rejects the input *)
  sharp : list byte -> option SharpOutput.t;
  (** getSignedUrl for GetObject on a key, with its expiry in seconds *)
  getSignedUrl : jsstring -> Z -> jsstring;
  (** the Location S3 reports for an uploaded key *)
  objectLocation : jsstring -> jsstring;
  (** a pattern compiled with option i; [None] for an ill-formed pattern *)
  regExp : jsstring -> option (jsstring -> bool);
  (** Date.prototype.toISOString *)
  toISOString : Z -> jsstring;
}.

(** The truth value of an optional string: undefined and the empty string
    are falsy. *)
Definition truthy (s : option jsstring) : bool :=
  match s with
  | Some (_ :: _) => true
  | _ => false
  end.


(** ** src/lib/s3.ts *)

Module S3UploadResult.
Record t := {
    key : jsstring;
    location : jsstring;
  }.
End S3UploadResult.

Module s3Operations.

Definition uploadFile (file : list byte) (key contentType : jsstring)
      (metadata : list (jsstring * jsstring)) `{Externals} : M S3UploadResult.t :=
    tryCatch
      (gateway (js "S3 upload");;
       s ← getStore;
       setStore (withBucket
         (<[key := {| S3Object.Body := file; S3Object.ContentType := contentType;
                      S3Object.Metadata := metadata |}]> (bucket s)) s);;
       mret {| S3UploadResult.key := key;
               S3UploadResult.location := objectLocation key |})
      (fun error => throw (js "Failed to upload file to S3: " ++ error)).

Definition getDownloadUrl (key : jsstring) (expiresIn : Z) `{Externals} : M jsstring :=
    tryCatch
      (gateway (js "S3 presign");;
       mret (getSignedUrl key expiresIn))
      (fun error => throw (js "Failed to generate download URL: " ++ error)).

Definition deleteFile (key : jsstring) : M bool :=
    tryCatch
      (gateway (js "S3 delete");;
       s ← getStore;
       setStore (withBucket (delete key (bucket s)) s);;
       mret true)
      (fun error => throw (js "Failed to delete file from S3: " ++ error)).

End s3Operations.

Inductive KeyKind := fileKey | thumbnailKey.

(** The class [[a-zA-Z0-9.-]]. *)
Definition keyUnit (c : N) : bool :=
  ((97 <=? c) && (c <=? 122) || (65 <=? c) && (c <=? 90)
   || (48 <=? c) && (c <=? 57) || (c =? 46) || (c =? 45))%N.

(** [fileName.replace(/[^a-zA-Z0-9.-]/g, "_")] *)
Definition sanitizeFileName (fileName : jsstring) : jsstring :=
  map (fun c => if keyUnit c then c else 95%N) fileName.

(** The key generateS3Key builds when the clock reads [timestamp]. *)
Definition s3KeyAt (timestamp : Z) (userId fileName : jsstring) (fileType : KeyKind)
  : jsstring :=
  let prefix := match fileType with thumbnailKey => js "thumbnails" | fileKey => js "files" end in
  prefix ++ js "/" ++ userId ++ js "/" ++ decimal timestamp ++ js "-"
  ++ sanitizeFileName fileName.

Definition generateS3Key (userId fileName : jsstring) (fileType : KeyKind) : M jsstring :=
  timestamp ← DateNow;
  mret (s3KeyAt timestamp userId fileName fileType).

(** [parts[i]] printed in a template: a missing part prints undefined. *)
Definition part (parts : list jsstring) (i : nat) : jsstring :=
  default (js "undefined") (parts !! i).

Definition getThumbnailKey (originalKey : jsstring) : jsstring :=
  let parts := splitOn SLASH originalKey in
  let fileName := part parts (length parts - 1) in
  let userId := part parts 1 in
  js "thumbnails/" ++ userId ++ js "/thumb-" ++ fileName.

(** ** src/lib/file-processor.ts *)

Module ProcessedFile.
Record t := {
    buffer : list byte;
    width : option Z;
    height : option Z;
    format : option jsstring;
    size : Z;
    thumbnailBuffer : option (list byte);
    thumbnailKey : option jsstring;
  }.
End ProcessedFile.

Module UploadedProcessed.
Record t := {
    s3Key : jsstring;
    s3Location : jsstring;
    thumbnailUrl : option jsstring;
  }.
End UploadedProcessed.

Module fileProcessor.

Definition processImage (buffer : list byte) (userId fileName : jsstring)
      `{Externals} : M ProcessedFile.t :=
    tryCatch
      (gateway (js "sharp");;
       match sharp buffer with
       | None => throw (js "Input buffer contains unsupported image format")
       | Some image =>
           key ← generateS3Key userId fileName fileKey;
           let thumbnailKey := getThumbnailKey key in
           mret {| ProcessedFile.buffer := buffer;
                   ProcessedFile.width := SharpOutput.width image;
                   ProcessedFile.height := SharpOutput.height image;
                   ProcessedFile.format := SharpOutput.format image;
                   ProcessedFile.size := Z.of_nat (length buffer);
                   ProcessedFile.thumbnailBuffer := Some (SharpOutput.thumbnail image);
                   ProcessedFile.thumbnailKey := Some thumbnailKey |}
       end)
      (fun error => throw (js "Failed to process image: " ++ error)).

Definition processVideo (buffer : list byte) (userId fileName : jsstring)
    : M ProcessedFile.t :=
    tryCatch
      (key ← generateS3Key userId fileName fileKey;
       let thumbnailKey := getThumbnailKey key in
       mret {| ProcessedFile.buffer := buffer;
               ProcessedFile.width := None;
               ProcessedFile.height := None;
               ProcessedFile.format := None;
               ProcessedFile.size := Z.of_nat (length buffer);
               ProcessedFile.thumbnailBuffer := None;
               ProcessedFile.thumbnailKey := Some thumbnailKey |})
      (fun error => throw (js "Failed to process video: " ++ error)).

Definition uploadProcessedFile (processedFile : ProcessedFile.t)
      (userId fileName contentType : jsstring) `{Externals} : M UploadedProcessed.t :=
    tryCatch
      (s3Key ← generateS3Key userId fileName fileKey;
       processedAt ← DateNow;
       uploadResult ← s3Operations.uploadFile (ProcessedFile.buffer processedFile) s3Key
         contentType
         [(js "userId", userId); (js "originalName", fileName);
          (js "processedAt", toISOString processedAt)];
       thumbnailUrl ←
         match ProcessedFile.thumbnailBuffer processedFile,
               ProcessedFile.thumbnailKey processedFile with
         | Some thumbnailBuffer, Some (c :: k) =>
             s3Operations.uploadFile thumbnailBuffer (c :: k) (js "image/jpeg")
               [(js "userId", userId); (js "originalFile", s3Key);
                (js "type", js "thumbnail")];;
             url ← s3Operations.getDownloadUrl (c :: k) 86400;
             mret (Some url)
         | _, _ => mret None
         end;
       mret {| UploadedProcessed.s3Key := S3UploadResult.key uploadResult;
               UploadedProcessed.s3Location := S3UploadResult.location uploadResult;
               UploadedProcessed.thumbnailUrl := thumbnailUrl |})
      (fun error => throw (js "Failed to upload processed file: " ++ error)).

Definition needsProcessing (contentType : jsstring) : bool :=
    startsWith contentType (js "image/") || startsWith contentType (js "video/").

Definition getProcessor (contentType : jsstring) `{Externals}
    : option (list byte -> jsstring -> jsstring -> M ProcessedFile.t) :=
    if startsWith contentType (js "image/") then Some (fun b u f => processImage b u f)
    else if startsWith contentType (js "video/") then Some processVideo
    else None.

End fileProcessor.

(** ** src/lib/database.ts: operations *)

Module db.

Module users.

Definition findById (id : ObjectId) : M (option User.t) :=
      gateway (js "users.findOne");;
      s ← getStore;
      mret (match users s !! id with
            | Some user => if User.isActive user then Some user else None
            | None => None
            end).

Definition updateStorageUsed (userId : ObjectId) (storageUsed : Z) : M unit :=
      updatedAt ← DateNow;
      gateway (js "users.updateOne");;
      s ← getStore;
      setStore (withUsers (alter (User.setStorageUsed storageUsed updatedAt) userId (users s)) s).

End users.

Module files.

Definition document : Type := ObjectId * FileRecord.t.

    (** [cursor.skip(n)]: the driver rejects a negative count. *)
Definition skipDocs (skip : option Z) (l : list document) : M (list document) :=
      match skip with
      | Some n => if n =? 0 then mret l
                  else if n <? 0 then throw (js "skip must be non-negative")
                  else mret (drop (Z.to_nat n) l)
      | None => mret l
      end.

    (** [cursor.limit(n)]: 0 is no limit, a negative count limits to its
        absolute value. *)
Definition limitDocs (limit : Z) (l : list document) : list document :=
      if limit =? 0 then l else take (Z.abs_nat limit) l.

    (** [sort({ uploadedAt: -1 })] *)
Definition newerOrSame (a b : document) : Prop :=
      FileRecord.uploadedAt b.2 <= FileRecord.uploadedAt a.2.

#[global] Instance newerOrSame_dec a b : Decision (newerOrSame a b) :=
      Z_le_dec _ _.

Definition newestFirst (l : list document) : list document :=
      merge_sort newerOrSame l.

Definition findByUserId (userId : ObjectId) (limit skip : option Z)
      : M (list document) :=
      gateway (js "files.find");;
      s ← getStore;
      let found := filter (fun d : document =>
                     FileRecord.userId d.2 = userId /\ FileRecord.isDeleted d.2 = false)
                     (map_to_list (files s)) in
      skipped ← skipDocs skip (newestFirst found);
      mret (limitDocs (default 0 limit) skipped).

Definition findById (id : ObjectId) : M (option document) :=
      gateway (js "files.findOne");;
      s ← getStore;
      mret (match files s !! id with
            | Some file => if FileRecord.isDeleted file then None else Some (id, file)
            | None => None
            end).

Definition findByS3Key (s3Key : jsstring) : M (option document) :=
      gateway (js "files.findOne");;
      s ← getStore;
      mret (snd <$> list_find (fun d : document =>
                      FileRecord.s3Key d.2 = s3Key /\ FileRecord.isDeleted d.2 = false)
                      (map_to_list (files s))).

    (** The fields the caller gives to create. *)
Record fileData := {
      userId : ObjectId;
      name : jsstring;
      originalName : jsstring;
      size : Z;
      type : jsstring;
      s3Key : jsstring;
      s3Location : jsstring;
      isShared : bool;
      metadata : Metadata.t;
      virusScanStatus : VirusScanStatus.t;
      tags : list jsstring;
    }.

    (** The document create inserts when the clock reads [now]. *)
Definition newFile (data : fileData) (now : Z) : FileRecord.t :=
      {| FileRecord.userId := userId data; FileRecord.name := name data;
         FileRecord.originalName := originalName data; FileRecord.size := size data;
         FileRecord.type := type data; FileRecord.s3Key := s3Key data;
         FileRecord.s3Location := s3Location data;
         FileRecord.uploadedAt := now; FileRecord.lastModified := now;
         FileRecord.lastAccessedAt := None;
         FileRecord.isShared := isShared data; FileRecord.shareSettings := None;
         FileRecord.metadata := metadata data;
         FileRecord.virusScanStatus := virusScanStatus data;
         FileRecord.tags := tags data;
         FileRecord.isDeleted := false; FileRecord.deletedAt := None |}.

Definition create (data : fileData) : M document :=
      now ← DateNow;
      let file := newFile data now in
      gateway (js "files.insertOne");;
      s ← getStore;
      let insertedId := fresh (dom (files s)) in
      setStore (withFiles (<[insertedId := file]> (files s)) s);;
      mret (insertedId, file).

Definition delete (id : ObjectId) : M bool :=
      deletedAt ← DateNow;
      gateway (js "files.updateOne");;
      s ← getStore;
      setStore (withFiles (alter (FileRecord.setDeleted deletedAt) id (files s)) s);;
      mret (bool_decide (is_Some (files s !! id))).

Definition search (userId : ObjectId) (query : jsstring) (limit : Z) `{Externals}
      : M (list document) :=
      match regExp query with
      | None => throw (js "Invalid regular expression")
      | Some matches =>
          gateway (js "files.find");;
          s ← getStore;
          let found := filter (fun d : document =>
                         FileRecord.userId d.2 = userId
                         /\ FileRecord.isDeleted d.2 = false
                         /\ (matches (FileRecord.name d.2) = true
                             \/ existsb matches (FileRecord.tags d.2) = true))
                         (map_to_list (files s)) in
          mret (limitDocs limit (newestFirst found))
      end.

End files.

Module shareLinks.

Definition document : Type := ObjectId * ShareLink.t.

Definition findById (id : ObjectId) : M (option document) :=
      gateway (js "shareLinks.findOne");;
      s ← getStore;
      mret (match shareLinks s !! id with
            | Some link => if ShareLink.isActive link then Some (id, link) else None
            | None => None
            end).

Definition incrementAccess (id : ObjectId) (ipAddress userAgent : option jsstring)
      : M unit :=
      accessed ← DateNow;
      updated ← DateNow;
      logged ← DateNow;
      gateway (js "shareLinks.updateOne");;
      s ← getStore;
      setStore (withShareLinks
        (alter (ShareLink.recordAccess accessed updated logged ipAddress userAgent) id
           (shareLinks s)) s).

End shareLinks.

End db.

(** [virusScanner.scheduleBackgroundScan]: the scan is left on a timer and
    runs after the response. *)
Definition scheduleBackgroundScan (fileId : ObjectId) (s3Key : jsstring) : M unit :=
  s ← getStore;
  setStore (withTimers (timers s ++ [(fileId, s3Key)]) s).

(** [auth.verifyToken] *)
Definition verifyToken (token : jsstring) `{Externals} : option JWTPayload.t :=
  jwtVerify token.

(** ** Responses *)

Inductive Response (Body : Type) :=
| Rejected (status : Z) (error : jsstring) (details : option (list jsstring))
| Ok (body : Body).
Arguments Rejected {Body} status error details.
Arguments Ok {Body} body.

(** [a || b] on optional strings. *)
Definition orElse (a b : option jsstring) : option jsstring :=
  if truthy a then a else b.

(** [request.headers.get("authorization")?.replace("Bearer ", "")] *)
Definition bearer (authorization : option jsstring) : option jsstring :=
  replaceFirst (js "Bearer ") [] <$> authorization.

(** ** src/app/api/files/upload/route.ts *)

Module UploadedFile.
Record t := {
    id : ObjectId;
    name : jsstring;
    size : Z;
    type : jsstring;
    uploadedAt : Z;
    downloadUrl : jsstring;
    thumbnailUrl : option jsstring;
    isShared : bool;
    virusScanStatus : VirusScanStatus.t;
  }.
End UploadedFile.

Module BlockedFile.
Record t := {
    name : jsstring;
    reason : jsstring;
    size : Z;
  }.
End BlockedFile.

Module UploadSummary.
Record t := {
    files : list UploadedFile.t;
    uploadedCount : Z;
    blockedCount : Z;
    blockedFiles : list BlockedFile.t;
    totalSize : Z;
    message : jsstring;
  }.
End UploadSummary.

Module UploadRoute.

Record Request := {
    cookie : option jsstring;          (* the auth-token cookie *)
    authorization : option jsstring;   (* the authorization header *)
    files : list File.t;               (* formData.getAll("files") *)
  }.

  (** The three variables the loop updates. *)
Record Progress := {
    uploadedFiles : list UploadedFile.t;
    blockedFiles : list BlockedFile.t;
    totalUploadedSize : Z;
  }.

  (** [uploadedFiles = []], [blockedFiles = []], [totalUploadedSize = 0] *)
Definition initial : Progress :=
    {| uploadedFiles := []; blockedFiles := []; totalUploadedSize := 0 |}.

  (** Where a file went, and what is known of it. *)
Record Placed := {
    s3Key : jsstring;
    s3Location : jsstring;
    thumbnailUrl : option jsstring;
    metadata : Metadata.t;
  }.

Definition plainMetadata (file : File.t) : Metadata.t :=
    {| Metadata.size := Some (File.size file); Metadata.width := None;
       Metadata.height := None; Metadata.format := None;
       Metadata.thumbnailS3Key := None; Metadata.thumbnailUrl := None |}.

  (** Direct upload, for files that are not processed. *)
Definition directUpload (payload : JWTPayload.t) (file : File.t) `{Externals}
    : M Placed :=
    s3Key ← generateS3Key (oidString (JWTPayload.userId payload)) (File.name file) fileKey;
    uploadResult ← s3Operations.uploadFile (File.content file) s3Key (File.type file)
      [(js "userId", oidString (JWTPayload.userId payload));
       (js "originalName", File.name file)];
    mret {| s3Key := s3Key; s3Location := S3UploadResult.location uploadResult;
            thumbnailUrl := None; metadata := plainMetadata file |}.

Definition processedUpload (payload : JWTPayload.t) (file : File.t)
      (processor : list byte -> jsstring -> jsstring -> M ProcessedFile.t)
      `{Externals} : M Placed :=
    processedFile ← processor (File.content file)
      (oidString (JWTPayload.userId payload)) (File.name file);
    uploadResult ← fileProcessor.uploadProcessedFile processedFile
      (oidString (JWTPayload.userId payload)) (File.name file) (File.type file);
    mret {| s3Key := UploadedProcessed.s3Key uploadResult;
            s3Location := UploadedProcessed.s3Location uploadResult;
            thumbnailUrl := UploadedProcessed.thumbnailUrl uploadResult;
            metadata :=
              {| Metadata.size := Some (ProcessedFile.size processedFile);
                 Metadata.width := ProcessedFile.width processedFile;
                 Metadata.height := ProcessedFile.height processedFile;
                 Metadata.format := ProcessedFile.format processedFile;
                 Metadata.thumbnailS3Key := None; Metadata.thumbnailUrl := None |} |}.

Definition blockedEntry (file : File.t) (reason : jsstring) : BlockedFile.t :=
    {| BlockedFile.name := File.name file; BlockedFile.reason := reason;
       BlockedFile.size := File.size file |}.

Definition pushBlocked (entry : BlockedFile.t) (p : Progress) : Progress :=
    {| uploadedFiles := uploadedFiles p; blockedFiles := blockedFiles p ++ [entry];
       totalUploadedSize := totalUploadedSize p |}.

Definition pushUploaded (entry : UploadedFile.t) (size : Z) (p : Progress) : Progress :=
    {| uploadedFiles := uploadedFiles p ++ [entry]; blockedFiles := blockedFiles p;
       totalUploadedSize := totalUploadedSize p + size |}.

  (** Lines 86-119: process the file if it is an image or a video, upload
      it directly otherwise. *)
Definition placeFile (payload : JWTPayload.t) (file : File.t) `{Externals} : M Placed :=
    if fileProcessor.needsProcessing (File.type file) then
      match fileProcessor.getProcessor (File.type file) with
      | Some processor => processedUpload payload file processor
      | None => directUpload payload file
      end
    else directUpload payload file.

  (** The argument of [db.files.create]. *)
Definition fileData (payload : JWTPayload.t) (file : File.t) (scanResult : ScanResult)
      (placed : Placed) : db.files.fileData :=
    {| db.files.userId := JWTPayload.userId payload;
       db.files.name := File.name file;
       db.files.originalName := File.name file;
       db.files.size := File.size file;
       db.files.type := File.type file;
       db.files.s3Key := s3Key placed;
       db.files.s3Location := s3Location placed;
       db.files.isShared := false;
       db.files.metadata :=
         {| Metadata.size := Metadata.size (metadata placed);
            Metadata.width := Metadata.width (metadata placed);
            Metadata.height := Metadata.height (metadata placed);
            Metadata.format := Metadata.format (metadata placed);
            Metadata.thumbnailS3Key :=
              if truthy (thumbnailUrl placed)
              then Some (replaceFirst (js "files/") (js "thumbnails/thumb-")
                           (s3Key placed))
              else None;
            Metadata.thumbnailUrl := thumbnailUrl placed |};
       db.files.virusScanStatus :=
         match scanResult with
         | clean => VirusScanStatus.clean
         | _ => VirusScanStatus.pending
         end;
       db.files.tags := [] |}.

  (** The entry pushed on [uploadedFiles]. *)
Definition uploadedEntry (fileRecord : db.files.document) (placed : Placed)
    : UploadedFile.t :=
    {| UploadedFile.id := fileRecord.1;
       UploadedFile.name := FileRecord.name fileRecord.2;
       UploadedFile.size := FileRecord.size fileRecord.2;
       UploadedFile.type := FileRecord.type fileRecord.2;
       UploadedFile.uploadedAt := FileRecord.uploadedAt fileRecord.2;
       UploadedFile.downloadUrl :=
         js "/api/files/" ++ oidString fileRecord.1 ++ js "/download";
       UploadedFile.thumbnailUrl := thumbnailUrl placed;
       UploadedFile.isShared := FileRecord.isShared fileRecord.2;
       UploadedFile.virusScanStatus := FileRecord.virusScanStatus fileRecord.2 |}.

  (** The body of the [try] inside the loop. *)
Definition tryBlock (payload : JWTPayload.t) (file : File.t) (p : Progress)
      `{Externals} : M Progress :=
    let buffer := File.content file in
    let scanResult := virusScanner.scanBuffer buffer (File.name file) in
    match scanResult with
    | infected => mret (pushBlocked (blockedEntry file (js "Virus/malware detected")) p)
    | _ =>
        placed ← placeFile payload file;
        fileRecord ← db.files.create (fileData payload file scanResult placed);
        match scanResult with
        | clean => scheduleBackgroundScan fileRecord.1 (s3Key placed)
        | _ => mret tt
        end;;
        mret (pushUploaded (uploadedEntry fileRecord placed) (File.size file) p)
    end.

  (** One turn of [for (const file of files)]. *)
Definition iteration (payload : JWTPayload.t) (p : Progress) (file : File.t)
      `{Externals} : M Progress :=
    tryCatch (tryBlock payload file p)
      (fun error => mret (pushBlocked (blockedEntry file (js "Upload error")) p)).

Fixpoint forOf (payload : JWTPayload.t) (files : list File.t) (p : Progress)
      `{Externals} : M Progress :=
    match files with
    | [] => mret p
    | file :: rest => p' ← iteration payload p file; forOf payload rest p'
    end.

Definition summary (files : list File.t) (p : Progress) : UploadSummary.t :=
    let uploaded := Z.of_nat (length (uploadedFiles p)) in
    let blocked := Z.of_nat (length (blockedFiles p)) in
    {| UploadSummary.files := uploadedFiles p;
       UploadSummary.uploadedCount := uploaded;
       UploadSummary.blockedCount := blocked;
       UploadSummary.blockedFiles := blockedFiles p;
       UploadSummary.totalSize := totalUploadedSize p;
       UploadSummary.message :=
         if uploaded =? Z.of_nat (length files)
         then js "Successfully uploaded " ++ decimal uploaded ++ js " files"
         else js "Successfully uploaded " ++ decimal uploaded ++ js " of "
              ++ decimal (Z.of_nat (length files)) ++ js " files. "
              ++ decimal blocked ++ js " files were blocked." |}.

Definition POST (request : Request) `{Externals} : M (Response UploadSummary.t) :=
    tryCatch
      (match orElse (cookie request) (bearer (authorization request)) with
       | Some (c :: t) =>
           match verifyToken (c :: t) with
           | None => mret (Rejected 401 (js "Invalid token") None)
           | Some payload =>
               user ← db.users.findById (JWTPayload.userId payload);
               match user with
               | None => mret (Rejected 404 (js "User not found") None)
               | Some user =>
                   if (length (files request) =? 0)%nat
                   then mret (Rejected 400 (js "No files provided") None)
                   else
                     let validation := fileValidator.validateBatch (files request) in
                     if negb (isValid validation)
                     then mret (Rejected 400 (js "File validation failed")
                                  (Some (errors validation)))
                     else
                       let totalSize := totalSize (files request) in
                       if User.storageLimit user <? User.storageUsed user + totalSize
                       then mret (Rejected 413 (js "Storage limit exceeded")
                              (Some [js "Total size: " ++ decimal totalSize ++ js " bytes";
                                     js "Available: "
                                     ++ decimal (User.storageLimit user - User.storageUsed user)
                                     ++ js " bytes"]))
                       else
                         p ← forOf payload (files request) initial;
                         db.users.updateStorageUsed (JWTPayload.userId payload)
                           (User.storageUsed user + totalUploadedSize p);;
                         mret (Ok (summary (files request) p))
               end
           end
       | _ => mret (Rejected 401 (js "Unauthorized") None)
       end)
      (fun error => mret (Rejected 500 (js "Internal server error") None)).

End UploadRoute.

(** ** The owner's download: GET /api/files/{id}/download *)

Module DownloadInfo.
Record t := {
    downloadUrl : jsstring;
    fileName : jsstring;
    size : Z;
    type : jsstring;
    expiresIn : Z;
  }.
End DownloadInfo.

Module FileDownloadRoute.

Record Request := {
    cookie : option jsstring;
    authorization : option jsstring;
    queryToken : option jsstring;     (* searchParams.get("token") *)
    id : ObjectId;                    (* params.id *)
  }.

Definition GET (request : Request) `{Externals} : M (Response DownloadInfo.t) :=
    tryCatch
      (match orElse (orElse (cookie request) (bearer (authorization request)))
               (queryToken request) with
       | Some (c :: t) =>
           match verifyToken (c :: t) with
           | None => mret (Rejected 401 (js "Invalid token") None)
           | Some payload =>
               file ← db.files.findById (id request);
               match file with
               | None => mret (Rejected 404 (js "File not found") None)
               | Some file =>
                   if negb (bool_decide (FileRecord.userId file.2 = JWTPayload.userId payload))
                   then mret (Rejected 403 (js "Access denied") None)
                   else
                     match FileRecord.virusScanStatus file.2 with
                     | VirusScanStatus.infected =>
                         mret (Rejected 403
                                 (js "File is infected and cannot be downloaded") None)
                     | _ =>
                         downloadUrl ← s3Operations.getDownloadUrl
                                         (FileRecord.s3Key file.2) 3600;
                         mret (Ok {| DownloadInfo.downloadUrl := downloadUrl;
                                     DownloadInfo.fileName := FileRecord.name file.2;
                                     DownloadInfo.size := FileRecord.size file.2;
                                     DownloadInfo.type := FileRecord.type file.2;
                                     DownloadInfo.expiresIn := 3600 |})
                     end
               end
           end
       | _ => mret (Rejected 401 (js "Unauthorized") None)
       end)
      (fun error => mret (Rejected 500 (js "Internal server error") None)).

End FileDownloadRoute.

(** ** The owner's view of one file: GET /api/files/{id} *)

Module FileRoute.

Record Request := {
    cookie : option jsstring;
    authorization : option jsstring;
    id : ObjectId;
  }.

Definition GET (request : Request) `{Externals} : M (Response db.files.document) :=
    tryCatch
      (match orElse (cookie request) (bearer (authorization request)) with
       | Some (c :: t) =>
           match verifyToken (c :: t) with
           | None => mret (Rejected 401 (js "Invalid token") None)
           | Some payload =>
               file ← db.files.findById (id request);
               match file with
               | None => mret (Rejected 404 (js "File not found") None)
               | Some file =>
                   if negb (bool_decide (FileRecord.userId file.2 = JWTPayload.userId payload))
                   then mret (Rejected 403 (js "Access denied") None)
                   else mret (Ok file)
               end
           end
       | _ => mret (Rejected 401 (js "Unauthorized") None)
       end)
      (fun error => mret (Rejected 500 (js "Internal server error") None)).

End FileRoute.

(** ** The share link routes under /api/shared/{shareId} *)

Module SharedFile.
Record t := {
    id : ObjectId;
    name : jsstring;
    size : Z;
    type : jsstring;
    uploadedAt : Z;
    allowDownload : bool;
    allowPreview : bool;
    requiresPassword : bool;
    expiresAt : option Z;
    virusScanStatus : VirusScanStatus.t;
  }.
End SharedFile.

Module ShareRequest.
Record t := {
    shareId : ObjectId;               (* params.shareId *)
    password : option jsstring;       (* the password of the JSON body *)
  }.
End ShareRequest.

(** [shareLink.expiresAt && new Date(shareLink.expiresAt) < new Date()] *)
Definition expired (link : ShareLink.t) : M bool :=
  match ShareLink.expiresAt link with
  | None => mret false
  | Some expiresAt => today ← DateNow; mret (expiresAt <? today)
  end.

Module SharedRoute.

  (** resolve *)
Definition GET (shareId : ObjectId) : M (Response SharedFile.t) :=
    tryCatch
      (shareLink ← db.shareLinks.findById shareId;
       match shareLink with
       | None => mret (Rejected 404 (js "Share link not found") None)
       | Some shareLink =>
           isExpired ← expired shareLink.2;
           if (isExpired : bool) then mret (Rejected 410 (js "Share link has expired") None)
           else
             file ← db.files.findById (ShareLink.fileId shareLink.2);
             match file with
             | None => mret (Rejected 404 (js "File not found") None)
             | Some file =>
                 mret (Ok {| SharedFile.id := file.1;
                             SharedFile.name := FileRecord.name file.2;
                             SharedFile.size := FileRecord.size file.2;
                             SharedFile.type := FileRecord.type file.2;
                             SharedFile.uploadedAt := FileRecord.uploadedAt file.2;
                             SharedFile.allowDownload := ShareLink.allowDownload shareLink.2;
                             SharedFile.allowPreview := ShareLink.allowPreview shareLink.2;
                             SharedFile.requiresPassword :=
                               truthy (ShareLink.password shareLink.2);
                             SharedFile.expiresAt := ShareLink.expiresAt shareLink.2;
                             SharedFile.virusScanStatus :=
                               FileRecord.virusScanStatus file.2 |})
             end
       end)
      (fun error => mret (Rejected 500 (js "Internal server error") None)).

End SharedRoute.

Module SharedVerifyRoute.

  (** [bcrypt.compare(password, hash)]: rejects when [password] is not a
      string. *)
Definition compare (password : option jsstring) (hash : jsstring) `{Externals}
    : M bool :=
    match password with
    | None => throw (js "Illegal arguments: undefined, string")
    | Some password => mret (bcryptCompare password hash)
    end.

  (** verify; the body of the answer is [{ success: true }] *)
Definition POST (request : ShareRequest.t) `{Externals} : M (Response bool) :=
    tryCatch
      (shareLink ← db.shareLinks.findById (ShareRequest.shareId request);
       match shareLink with
       | None => mret (Rejected 404 (js "Share link not found") None)
       | Some shareLink =>
           match ShareLink.password shareLink.2 with
           | Some (c :: h) =>
               isValid ← compare (ShareRequest.password request) (c :: h);
               if negb (isValid : bool) then mret (Rejected 401 (js "Invalid password") None)
               else mret (Ok true)
           | _ => mret (Ok true)
           end
       end)
      (fun error => mret (Rejected 500 (js "Internal server error") None)).

End SharedVerifyRoute.

Module ServedContent.
Record t := {
    body : jsstring;
    contentType : jsstring;
    contentDisposition : jsstring;
    contentLength : jsstring;
  }.
End ServedContent.

(** [new Response(body, { headers })] fills a Headers object, which
    rejects a value with a TypeError in two cases (the Fetch standard, as
    Node implements it): the value holds a code unit above 255, so it is
    no ByteString; or, once the tabs, spaces, line feeds and carriage
    returns at its two ends are stripped, it still holds a NUL, a line
    feed or a carriage return. *)
Definition httpWhitespace (c : N) : bool :=
  ((c =? 9) || (c =? 10) || (c =? 13) || (c =? 32))%N.

Fixpoint stripStart (value : jsstring) : jsstring :=
  match value with
  | c :: rest => if httpWhitespace c then stripStart rest else value
  | [] => []
  end.

Definition headerValueNormalize (value : jsstring) : jsstring :=
  rev (stripStart (rev (stripStart value))).

Definition isValidHeaderValue (value : jsstring) : bool :=
  forallb (fun c => negb ((c =? 0) || (c =? 10) || (c =? 13))%N) value.

Definition isByteString (value : jsstring) : bool :=
  forallb (fun c => (c <=? 255)%N) value.

Definition headerAccepted (value : jsstring) : bool :=
  isByteString value && isValidHeaderValue (headerValueNormalize value).

Module SharedDownloadRoute.

Definition passwordAccepted (password : option jsstring) (hash : jsstring)
      `{Externals} : bool :=
    match password with
    | Some (c :: p) => bcryptCompare (c :: p) hash
    | _ => false
    end.

  (** The response of lines 38-45 for a file. *)
Definition served (file : FileRecord.t) : ServedContent.t :=
    {| ServedContent.body := js "File content would be served here";
       ServedContent.contentType := FileRecord.type file;
       ServedContent.contentDisposition :=
         js "attachment; filename=" ++ [34%N] ++ FileRecord.name file ++ [34%N];
       ServedContent.contentLength := decimal (FileRecord.size file) |}.

  (** [new Response(...)] with the three headers: it throws when one of
      their values is rejected. *)
Definition respond (content : ServedContent.t) : M (Response ServedContent.t) :=
    if forallb headerAccepted
         [ServedContent.contentType content; ServedContent.contentDisposition content;
          ServedContent.contentLength content]
    then mret (Ok content)
    else throw (js "Invalid header value").

Definition POST (request : ShareRequest.t) `{Externals} : M (Response ServedContent.t) :=
    tryCatch
      (shareLink ← db.shareLinks.findById (ShareRequest.shareId request);
       match shareLink with
       | None => mret (Rejected 404 (js "Share link not found") None)
       | Some shareLink =>
           if truthy (ShareLink.password shareLink.2)
              && negb (passwordAccepted (ShareRequest.password request)
                         (default [] (ShareLink.password shareLink.2)))
           then mret (Rejected 401 (js "Invalid password") None)
           else if negb (ShareLink.allowDownload shareLink.2)
           then mret (Rejected 403 (js "Download not allowed") None)
           else
             isExpired ← expired shareLink.2;
             if (isExpired : bool) then mret (Rejected 410 (js "Share link has expired") None)
             else
               file ← db.files.findById (ShareLink.fileId shareLink.2);
               match file with
               | None => mret (Rejected 404 (js "File not found") None)
               | Some file =>
                   db.shareLinks.incrementAccess (ShareRequest.shareId request) None None;;
                   respond (served file.2)
               end
       end)
      (fun error => mret (Rejected 500 (js "Internal server error") None)).

End SharedDownloadRoute.

(** ** Notions the specification uses *)

(** [sig] occurs in [buffer] as a contiguous run of bytes. *)
Definition occurs (sig buffer : list byte) : Prop :=
  exists pre post, buffer = pre ++ sig ++ post.

(** The extension of a file name as the specification words it: the text
    from the last '.', in lower case; a name without '.' has none. *)
Definition extension (fileName : jsstring) : option jsstring :=
  if lastIndexOf DOT fileName <? 0 then None
  else Some (toLowerCase (drop (Z.to_nat (lastIndexOf DOT fileName)) fileName)).

(** A name in which lower-casing moves no code unit: no U+0130. *)
Definition plainName (fileName : jsstring) : Prop := 304%N ∉ fileName.

(** The caller a handler makes out from the cookie or the bearer header. *)
Definition caller (cookie authorization : option jsstring) `{Externals}
  : option JWTPayload.t :=
  match orElse cookie (bearer authorization) with
  | Some (c :: t) => verifyToken (c :: t)
  | _ => None
  end.

(** The sizes of the records of a collection, summed. *)
Definition sumSizes (m : gmap ObjectId FileRecord.t) : Z :=
  map_fold (fun _ file sum => FileRecord.size file + sum) 0 m.

(** The collections and the timers: the store without the bucket. *)
Definition records (s : Store) :=
  (users s, files s, shareLinks s, timers s).

(** Whatever a computation does, the store it leaves is related by [R] to
    the store it found. *)
Definition respects (R : relation Store) {B} (m : M B) : Prop :=
  forall w out w', m w = (out, w') -> R (store w) (store w').

(** A component of the store is left as it was. *)
Definition same {A} (f : Store -> A) : relation Store :=
  fun s s' => f s' = f s.

(** Nothing but the bucket is touched, and no object is taken from it. *)
Definition addsObjectsOnly : relation Store :=
  fun s s' => records s' = records s /\ dom (bucket s) ⊆ dom (bucket s').

(** ** The turns of the upload loop *)

(** The verdict of the inline scan on a file. *)
Definition scanOf (file : File.t) : ScanResult :=
  virusScanner.scanBuffer (File.content file) (File.name file).

(** The id insertOne gives to the next document of the files collection. *)
Definition nextId (w : World) : ObjectId := fresh (dom (files (store w))).

(** The record the upload route creates for a file it has placed. *)
Definition storedRecord (payload : JWTPayload.t) (file : File.t)
    (placed : UploadRoute.Placed) (now : Z) : FileRecord.t :=
  db.files.newFile (UploadRoute.fileData payload file (scanOf file) placed) now.

(** One turn of the loop, from the progress and the world before it to
    those after it: the file is blocked as infected and nothing else
    happens; or placing or recording it fails, which can leave objects in
    the bucket but no record; or it is placed, recorded and counted. *)
Inductive turn `{Externals} (payload : JWTPayload.t) (file : File.t)
  : UploadRoute.Progress * World -> UploadRoute.Progress * World -> Prop :=
| turn_infected p w :
    scanOf file = infected ->
    turn payload file (p, w)
      (UploadRoute.pushBlocked
         (UploadRoute.blockedEntry file (js "Virus/malware detected")) p, w)
| turn_failed p w w' :
    scanOf file <> infected ->
    addsObjectsOnly (store w) (store w') ->
    turn payload file (p, w)
      (UploadRoute.pushBlocked (UploadRoute.blockedEntry file (js "Upload error")) p, w')
| turn_stored p w w' placed t :
    scanOf file <> infected ->
    files (store w') = <[nextId w := storedRecord payload file placed t]> (files (store w)) ->
    users (store w') = users (store w) ->
    shareLinks (store w') = shareLinks (store w) ->
    dom (bucket (store w)) ⊆ dom (bucket (store w')) ->
    UploadRoute.s3Key placed ∈ dom (bucket (store w')) ->
    turn payload file (p, w)
      (UploadRoute.pushUploaded
         (UploadRoute.uploadedEntry (nextId w, storedRecord payload file placed t) placed)
         (File.size file) p, w').

(** The turns for the files of a batch, in their order. *)
Inductive turns `{Externals} (payload : JWTPayload.t)
  : list File.t -> UploadRoute.Progress * World -> UploadRoute.Progress * World -> Prop :=
| turns_nil x : turns payload [] x x
| turns_cons file rest x y z :
    turn payload file x y -> turns payload rest y z -> turns payload (file :: rest) x z.

(** An entry of the summary is backed by a record of its size and by an
    object under the key of the record. *)
Definition backed (s : Store) (u : UploadedFile.t) : Prop :=
  exists record,
    files s !! UploadedFile.id u = Some record
    /\ FileRecord.size record = UploadedFile.size u
    /\ FileRecord.name record = UploadedFile.name u
    /\ FileRecord.isDeleted record = false
    /\ FileRecord.s3Key record ∈ dom (bucket s).

(** The sum of a list of numbers. *)
Definition sumZ (l : list Z) : Z := foldr Z.add 0 l.

(** A document a read may hand out: held by the collection, not flagged as
    deleted. *)
Definition live (m : gmap ObjectId FileRecord.t) (d : db.files.document) : Prop :=
  m !! d.1 = Some d.2 /\ FileRecord.isDeleted d.2 = false.

(** ** src/lib/database.ts: the operations behind the other routes *)

(** The module [db] above holds the operations of [db] that the upload,
    the downloads and the share link reads use; [database], named after
    the file, holds those that the deletion, the background scan, the
    statistics and the creation of a share link add. *)

(** The [Partial<FileRecord>] a caller of [db.files.update] gives: the
    background scan sets virusScanStatus, the share route sets isShared
    and shareSettings. *)
Module FileUpdates.
Record t := {
    virusScanStatus : option VirusScanStatus.t;
    isShared : option bool;
    shareSettings : option ShareSettings.t;
  }.

  (** [$set: { ...updates, lastModified }] *)
Definition set (updates : t) (now : Z) (f : FileRecord.t) : FileRecord.t :=
    {| FileRecord.userId := FileRecord.userId f; FileRecord.name := FileRecord.name f;
       FileRecord.originalName := FileRecord.originalName f;
       FileRecord.size := FileRecord.size f; FileRecord.type := FileRecord.type f;
       FileRecord.s3Key := FileRecord.s3Key f;
       FileRecord.s3Location := FileRecord.s3Location f;
       FileRecord.uploadedAt := FileRecord.uploadedAt f;
       FileRecord.lastModified := now;
       FileRecord.lastAccessedAt := FileRecord.lastAccessedAt f;
       FileRecord.isShared := default (FileRecord.isShared f) (isShared updates);
       FileRecord.shareSettings :=
         match shareSettings updates with
         | Some settings => Some settings
         | None => FileRecord.shareSettings f
         end;
       FileRecord.metadata := FileRecord.metadata f;
       FileRecord.virusScanStatus :=
         default (FileRecord.virusScanStatus f) (virusScanStatus updates);
       FileRecord.tags := FileRecord.tags f;
       FileRecord.isDeleted := FileRecord.isDeleted f;
       FileRecord.deletedAt := FileRecord.deletedAt f |}.

  (** [{ virusScanStatus: result }] *)
Definition scanned (status : VirusScanStatus.t) : t :=
    {| virusScanStatus := Some status; isShared := None; shareSettings := None |}.

  (** [{ isShared: true, shareSettings }] *)
Definition shared (settings : ShareSettings.t) : t :=
    {| virusScanStatus := None; isShared := Some true; shareSettings := Some settings |}.
End FileUpdates.

Module StorageStats.
Record t := {
    totalFiles : Z;
    totalSize : Z;
    filesByType : gmap jsstring Z;
  }.
End StorageStats.

(** The fields the caller gives to [db.shareLinks.create]. *)
Module ShareData.
Record t := {
    fileId : ObjectId;
    userId : ObjectId;
    password : option jsstring;
    expiresAt : option Z;
    allowDownload : bool;
    allowPreview : bool;
  }.
End ShareData.

Module database.

Module files.

Definition update (id : ObjectId) (updates : FileUpdates.t)
      : M (option db.files.document) :=
      lastModified ← DateNow;
      gateway (js "files.findOneAndUpdate");;
      s ← getStore;
      match files s !! id with
      | Some file =>
          if FileRecord.isDeleted file then mret None
          else
            let updated := FileUpdates.set updates lastModified file in
            setStore (withFiles (<[id := updated]> (files s)) s);;
            mret (Some (id, updated))
      | None => mret None
      end.

    (** [$match: { userId, isDeleted: false }] *)
Definition matched (userId : ObjectId) (m : gmap ObjectId FileRecord.t)
      : list db.files.document :=
      filter (fun d : db.files.document =>
                FileRecord.userId d.2 = userId /\ FileRecord.isDeleted d.2 = false)
        (map_to_list m).



End files.

Module shareLinks.

    (** The document create inserts when the clock reads [now]. *)
Definition newLink (data : ShareData.t) (now : Z) : ShareLink.t :=
      {| ShareLink.fileId := ShareData.fileId data;
         ShareLink.userId := ShareData.userId data;
         ShareLink.password := ShareData.password data;
         ShareLink.expiresAt := ShareData.expiresAt data;
         ShareLink.allowDownload := ShareData.allowDownload data;
         ShareLink.allowPreview := ShareData.allowPreview data;
         ShareLink.accessCount := 0; ShareLink.lastAccessedAt := None;
         ShareLink.createdAt := now; ShareLink.updatedAt := now;
         ShareLink.isActive := true; ShareLink.accessLog := [] |}.

Definition create (data : ShareData.t) : M db.shareLinks.document :=
      now ← DateNow;
      let shareLink := newLink data now in
      gateway (js "shareLinks.insertOne");;
      s ← getStore;
      let insertedId := fresh (dom (shareLinks s)) in
      setStore (withShareLinks (<[insertedId := shareLink]> (shareLinks s)) s);;
      mret (insertedId, shareLink).

End shareLinks.

End database.

(** ** src/lib/virus-scanner.ts: the scan behind the timer *)

Module backgroundScan.

  (** [scanS3File]; [isInfected] is the outcome of its draw
      [Math.random() < 0.001]. *)
Definition scanS3File (isInfected : bool) (s3Key : jsstring) : M ScanResult :=
    tryCatch (mret (if isInfected then infected else clean))
      (fun failure => mret error).

Definition statusOf (result : ScanResult) : VirusScanStatus.t :=
    match result with
    | clean => VirusScanStatus.clean
    | infected => VirusScanStatus.infected
    | error => VirusScanStatus.error
    end.

  (** The function scheduleBackgroundScan hands to setTimeout. *)
Definition callback (isInfected : bool) (fileId : ObjectId) (s3Key : jsstring) : M unit :=
    result ← scanS3File isInfected s3Key;
    database.files.update fileId (FileUpdates.scanned (statusOf result));;
    match result with
    | infected =>
        s3Operations.deleteFile s3Key;;
        database.files.update fileId (FileUpdates.scanned VirusScanStatus.infected);;
        mret tt
    | _ => mret tt
    end.

End backgroundScan.

(** ** Deleting a file: DELETE /api/files/{id} *)

Module FileDeleteRoute.

  (** The body of the answer is [{ success: true }]. *)
Definition DELETE (request : FileRoute.Request) `{Externals} : M (Response bool) :=
    tryCatch
      (match orElse (FileRoute.cookie request) (bearer (FileRoute.authorization request)) with
       | Some (c :: t) =>
           match verifyToken (c :: t) with
           | None => mret (Rejected 401 (js "Invalid token") None)
           | Some payload =>
               file ← db.files.findById (FileRoute.id request);
               match file with
               | None => mret (Rejected 404 (js "File not found") None)
               | Some file =>
                   if negb (bool_decide (FileRecord.userId file.2 = JWTPayload.userId payload))
                   then mret (Rejected 403 (js "Access denied") None)
                   else
                     tryCatch
                       (s3Operations.deleteFile (FileRecord.s3Key file.2);;
                        match Metadata.thumbnailS3Key (FileRecord.metadata file.2) with
                        | Some (c :: k) => s3Operations.deleteFile (c :: k);; mret tt
                        | _ => mret tt
                        end)
                       (fun s3Error => mret tt);;
                     db.files.delete (FileRoute.id request);;
                     user ← db.users.findById (JWTPayload.userId payload);
                     match user with
                     | Some user =>
                         db.users.updateStorageUsed (JWTPayload.userId payload)
                           (Z.max 0 (User.storageUsed user - FileRecord.size file.2))
                     | None => mret tt
                     end;;
                     mret (Ok true)
               end
           end
       | _ => mret (Rejected 401 (js "Unauthorized") None)
       end)
      (fun error => mret (Rejected 500 (js "Internal server error") None)).

End FileDeleteRoute.

(** ** Sharing a file: POST /api/files/{id}/share *)

(** bcryptjs [hash(password, rounds)], for the salt it draws. *)
Class Bcrypt := {
  bcryptHash : jsstring -> Z -> jsstring;
}.

(** The class [\d]. *)
Definition isDigit (c : N) : bool := ((48 <=? c) && (c <=? 57))%N.

(** [Number.parseInt] of a string of decimal digits; [None] is NaN, which
    the empty string gives. *)
Definition parseInt (digits : jsstring) : option Z :=
  match digits with
  | [] => None
  | _ => Some (fold_left (fun n c => 10 * n + (Z.of_N c - 48)) digits 0)
  end.

(** [new Date(t).toISOString()] rejects a time value beyond 8.64e15 ms
    on either side of the epoch.  That bound is below 2^53: a time that
    passes has been computed exactly, and one whose exact value fails is
    beyond the bound in floating point too (rounding is monotone). *)
Definition validTime (t : Z) : bool := Z.abs t <=? 8640000000000000.

Module ShareCreated.
Record t := {
    shareUrl : jsstring;
    shareId : jsstring;
    expiresAt : option jsstring;
  }.
End ShareCreated.

Module ShareRoute.

Record Request := {
    cookie : option jsstring;
    authorization : option jsstring;
    id : ObjectId;                    (* params.id *)
    origin : jsstring;                (* request.nextUrl.origin *)
    password : option jsstring;       (* the fields of the JSON body, *)
    expiresIn : option jsstring;      (* strings and booleans if present *)
    allowDownload : option bool;
    allowPreview : option bool;
  }.

  (** The milliseconds the switch on the unit computes. *)
Definition milliseconds (unit : jsstring) (duration : Z) : Z :=
    if bool_decide (unit = js "h") then duration * 60 * 60 * 1000
    else duration * 24 * 60 * 60 * 1000.

  (** Lines 75-93: the time the link expires at. *)
Definition expiry (expiresIn : option jsstring) : M (option Z) :=
    match expiresIn with
    | Some (c :: e) =>
        if bool_decide (c :: e = js "never") then mret None
        else
          let duration := parseInt (filter (fun c => isDigit c = true) (c :: e)) in
          let unit := filter (fun c => isDigit c = false) (c :: e) in
          today ← DateNow;
          match duration with
          | None => throw (js "Invalid time value")
          | Some duration =>
              let expiresAt := today + milliseconds unit duration in
              if validTime expiresAt then mret (Some expiresAt)
              else throw (js "Invalid time value")
          end
    | _ => mret None
    end.

Definition POST (request : Request) `{Externals} `{Bcrypt} : M (Response ShareCreated.t) :=
    tryCatch
      (match orElse (cookie request) (bearer (authorization request)) with
       | Some (c :: t) =>
           match verifyToken (c :: t) with
           | None => mret (Rejected 401 (js "Invalid token") None)
           | Some payload =>
               file ← db.files.findById (id request);
               match file with
               | None => mret (Rejected 404 (js "File not found") None)
               | Some file =>
                   if negb (bool_decide (FileRecord.userId file.2 = JWTPayload.userId payload))
                   then mret (Rejected 403 (js "Access denied") None)
                   else
                     expiresAt ← expiry (expiresIn request);
                     let hashedPassword :=
                       if truthy (password request)
                       then Some (bcryptHash (default [] (password request)) 10)
                       else None in
                     shareLink ← database.shareLinks.create
                       {| ShareData.fileId := id request;
                          ShareData.userId := JWTPayload.userId payload;
                          ShareData.password := hashedPassword;
                          ShareData.expiresAt := expiresAt;
                          ShareData.allowDownload := default true (allowDownload request);
                          ShareData.allowPreview := default true (allowPreview request) |};
                     database.files.update (id request)
                       (FileUpdates.shared
                          {| ShareSettings.shareId := oidString shareLink.1;
                             ShareSettings.password := hashedPassword;
                             ShareSettings.expiresAt := expiresAt;
                             ShareSettings.allowDownload :=
                               default true (allowDownload request);
                             ShareSettings.allowPreview :=
                               default true (allowPreview request) |});;
                     mret (Ok {| ShareCreated.shareUrl :=
                                   origin request ++ js "/shared/" ++ oidString shareLink.1;
                                 ShareCreated.shareId := oidString shareLink.1;
                                 ShareCreated.expiresAt := toISOString <$> expiresAt |})
               end
           end
       | _ => mret (Rejected 401 (js "Unauthorized") None)
       end)
      (fun error => mret (Rejected 500 (js "Internal server error") None)).

End ShareRoute.

(** ** Further notions *)

(** The decimal digits. *)
Definition digitUnit (c : N) : Prop := (48 <= c <= 57)%N.

(** The first part of a key of each kind. *)
Definition keyPrefix (kind : KeyKind) : jsstring :=
  match kind with thumbnailKey => js "thumbnails" | fileKey => js "files" end.

(** What a user's live records add up to: the figure the quota is meant
    to follow. *)
Definition liveTotal (userId : ObjectId) (m : gmap ObjectId FileRecord.t) : Z :=
  sumZ ((fun d : db.files.document => FileRecord.size d.2)
        <$> database.files.matched userId m).


(** What a record counts towards a user's total. *)
Definition weight (userId : ObjectId) (f : FileRecord.t) : Z :=
  if decide (FileRecord.userId f = userId /\ FileRecord.isDeleted f = false)
  then FileRecord.size f else 0.

(** What the request for a share link gives to [db.shareLinks.create]. *)
Definition shareData `{Bcrypt} (request : ShareRoute.Request) (payload : JWTPayload.t)
    (expiresAt : option Z) : ShareData.t :=
  {| ShareData.fileId := ShareRoute.id request;
     ShareData.userId := JWTPayload.userId payload;
     ShareData.password :=
       if truthy (ShareRoute.password request)
       then Some (bcryptHash (default [] (ShareRoute.password request)) 10)
       else None;
     ShareData.expiresAt := expiresAt;
     ShareData.allowDownload := default true (ShareRoute.allowDownload request);
     ShareData.allowPreview := default true (ShareRoute.allowPreview request) |}.

(** ** A small installation to run the handlers on *)

Module demo.

Definition externals : Externals :=
    {| jwtVerify := fun token =>
         if bool_decide (token = js "alice-token")
         then Some {| JWTPayload.userId := 1%N;
                      JWTPayload.email := js "alice@example.org";
                      JWTPayload.exp := 0 |}
         else None;
       bcryptCompare := fun password hash => bool_decide (js "$2a$" ++ password = hash);
       sharp := fun buffer =>
         match buffer with
         | [] => None
         | _ => Some {| SharpOutput.width := Some 4; SharpOutput.height := Some 3;
                        SharpOutput.format := Some (js "png");
                        SharpOutput.thumbnail := take 1 buffer |}
         end;
       getSignedUrl := fun key expiresIn => js "https://signed.example/" ++ key;
       objectLocation := fun key => js "https://bucket.example/" ++ key;
       regExp := fun query => Some (fun s => bool_decide (query = s));
       toISOString := decimal |}.

Definition alice : User.t :=
    {| User.email := js "alice@example.org"; User.name := js "Alice";
       User.passwordHash := js "$2a$secret"; User.storageUsed := 100;
       User.storageLimit := 1000; User.createdAt := 0; User.updatedAt := 0;
       User.isActive := true; User.lastLoginAt := None; User.emailVerified := true |}.

Definition report (status : VirusScanStatus.t) (isDeleted : bool) : FileRecord.t :=
    {| FileRecord.userId := 1%N; FileRecord.name := js "report.pdf";
       FileRecord.originalName := js "report.pdf"; FileRecord.size := 40;
       FileRecord.type := js "application/pdf";
       FileRecord.s3Key := js "files/1/900-report.pdf";
       FileRecord.s3Location := js "https://bucket.example/files/1/900-report.pdf";
       FileRecord.uploadedAt := 900; FileRecord.lastModified := 900;
       FileRecord.lastAccessedAt := None; FileRecord.isShared := true;
       FileRecord.shareSettings := None;
       FileRecord.metadata :=
         {| Metadata.size := Some 40; Metadata.width := None; Metadata.height := None;
            Metadata.format := None; Metadata.thumbnailS3Key := None;
            Metadata.thumbnailUrl := None |};
       FileRecord.virusScanStatus := status; FileRecord.tags := [];
       FileRecord.isDeleted := isDeleted;
       FileRecord.deletedAt := if isDeleted then Some 950 else None |}.

Definition link (expiresAt : option Z) : ShareLink.t :=
    {| ShareLink.fileId := 5%N; ShareLink.userId := 1%N; ShareLink.password := None;
       ShareLink.expiresAt := expiresAt; ShareLink.allowDownload := true;
       ShareLink.allowPreview := true; ShareLink.accessCount := 0;
       ShareLink.lastAccessedAt := None; ShareLink.createdAt := 900;
       ShareLink.updatedAt := 900; ShareLink.isActive := true;
       ShareLink.accessLog := [] |}.

  (** Alice, no file yet. *)
Definition emptyStore : Store :=
    {| users := {[ 1%N := alice ]}; files := ∅; shareLinks := ∅; bucket := ∅;
       timers := [] |}.

  (** Alice, her report as file 5 and the share link 7 to it. *)
Definition sharedStore (status : VirusScanStatus.t) (expiresAt : option Z) : Store :=
    {| users := {[ 1%N := alice ]};
       files := {[ 5%N := report status false ]};
       shareLinks := {[ 7%N := link expiresAt ]};
       bucket := ∅; timers := [] |}.

Definition world (s : Store) (ticks : list N) (faults : list bool) : World :=
    {| store := s; now := 1000; ticks := ticks; faults := faults |}.

Definition text (name : string) : File.t :=
    {| File.name := js name; File.type := js "text/plain"; File.size := 10;
       File.content := [x68; x69] |}.

Definition picture : File.t :=
    {| File.name := js "p.png"; File.type := js "image/png"; File.size := 10;
       File.content := [x89; x50] |}.

Definition upload (files : list File.t) : UploadRoute.Request :=
    {| UploadRoute.cookie := Some (js "alice-token"); UploadRoute.authorization := None;
       UploadRoute.files := files |}.

Definition alicePayload : JWTPayload.t :=
    {| JWTPayload.userId := 1%N; JWTPayload.email := js "alice@example.org";
       JWTPayload.exp := 0 |}.

Definition shareRequest : ShareRequest.t :=
    {| ShareRequest.shareId := 7%N; ShareRequest.password := None |}.

Definition ownerDownload : FileDownloadRoute.Request :=
    {| FileDownloadRoute.cookie := Some (js "alice-token");
       FileDownloadRoute.authorization := None;
       FileDownloadRoute.queryToken := None; FileDownloadRoute.id := 5%N |}.

  (** Processing and uploading the picture, the clock moving on by
      [ticks] at its readings: the key of the original, and the keys of the
      other objects the bucket holds afterwards. *)
Definition pictureKeys (ticks : list N) : option (jsstring * list jsstring) :=
    match UploadRoute.processedUpload (H := externals) alicePayload picture
            (fun b u f => fileProcessor.processImage (H := externals) b u f)
            (world emptyStore ticks []) with
    | (Returned placed, w) =>
        Some (UploadRoute.s3Key placed,
              filter (fun key => key <> UploadRoute.s3Key placed)
                (map_to_list (bucket (store w))).*1)
    | _ => None
    end.

End demo.

(** ** More of the installation *)

Module examples.

Definition hashing : Bcrypt :=
    {| bcryptHash := fun password rounds => js "$2a$" ++ password |}.

Definition key : jsstring := js "files/1/900-report.pdf".

  (** Alice with her report as file 5, its object in the bucket, the share
      link 7 to it and the background scan of it on its timer; her
      storageUsed is the size of the report. *)
Definition stocked : Store :=
    {| users := {[ 1%N := User.setStorageUsed 40 0 demo.alice ]};
       files := {[ 5%N := demo.report VirusScanStatus.clean false ]};
       shareLinks := {[ 7%N := demo.link None ]};
       bucket := {[ key := {| S3Object.Body := [x25; x50; x44; x46];
                              S3Object.ContentType := js "application/pdf";
                              S3Object.Metadata := [] |} ]};
       timers := [(5%N, key)] |}.

Definition clip : File.t :=
    {| File.name := js "clip.mp4"; File.type := js "video/mp4"; File.size := 10;
       File.content := [x00; x01] |}.

Definition deleteRequest : FileRoute.Request :=
    {| FileRoute.cookie := Some (js "alice-token"); FileRoute.authorization := None;
       FileRoute.id := 5%N |}.

Definition shareCreation : ShareRoute.Request :=
    {| ShareRoute.cookie := Some (js "alice-token"); ShareRoute.authorization := None;
       ShareRoute.id := 5%N; ShareRoute.origin := js "https://cloud.example";
       ShareRoute.password := Some (js "secret");
       ShareRoute.expiresIn := Some (js "24h");
       ShareRoute.allowDownload := None; ShareRoute.allowPreview := Some false |}.

  (** The report under another name. *)
Definition named (name : jsstring) (f : FileRecord.t) : FileRecord.t :=
    {| FileRecord.userId := FileRecord.userId f; FileRecord.name := name;
       FileRecord.originalName := name; FileRecord.size := FileRecord.size f;
       FileRecord.type := FileRecord.type f; FileRecord.s3Key := FileRecord.s3Key f;
       FileRecord.s3Location := FileRecord.s3Location f;
       FileRecord.uploadedAt := FileRecord.uploadedAt f;
       FileRecord.lastModified := FileRecord.lastModified f;
       FileRecord.lastAccessedAt := FileRecord.lastAccessedAt f;
       FileRecord.isShared := FileRecord.isShared f;
       FileRecord.shareSettings := FileRecord.shareSettings f;
       FileRecord.metadata := FileRecord.metadata f;
       FileRecord.virusScanStatus := FileRecord.virusScanStatus f;
       FileRecord.tags := FileRecord.tags f;
       FileRecord.isDeleted := FileRecord.isDeleted f;
       FileRecord.deletedAt := FileRecord.deletedAt f |}.

  (** A name of two code units beyond Latin-1 (U+62A5 U+544A) and .pdf. *)
Definition title : jsstring := [25253%N; 21578%N] ++ js ".pdf".

  (** [stocked], the report stored under that name. *)
Definition titled : Store :=
    withFiles {[ 5%N := named title (demo.report VirusScanStatus.clean false) ]} stocked.

  (** The world after Alice has deleted her report. *)
Definition afterDelete : World :=
    (FileDeleteRoute.DELETE (H := demo.externals) deleteRequest
       (demo.world stocked [] [])).2.

  (** The world after the background scan has found the report infected. *)
Definition afterScan : World :=
    (backgroundScan.callback true 5%N key (demo.world stocked [] [])).2.

  (** The world after Alice has shared her report. *)
Definition afterShare : World :=
    (ShareRoute.POST (H := demo.externals) (H0 := hashing) shareCreation
       (demo.world stocked [] [])).2.

End examples.

(* ================================================================== *)
(** * Properties *)

(** ** The definitions at work *)

Example scan_virus_exe : virusScanner.scanBuffer [] (js "virus.exe") = infected.
Proof. vm_compute. reflexivity. Qed.

Example scan_upper_case_extension :
  virusScanner.scanBuffer [x25; x50; x44; x46] (js "SETUP.MSI") = infected.
Proof. vm_compute. reflexivity. Qed.

Example scan_pdf : virusScanner.scanBuffer [x25; x50; x44; x46] (js "report.pdf") = clean.
Proof. vm_compute. reflexivity. Qed.

Example scan_picture_with_header :
  virusScanner.scanBuffer [x89; x50; x7f; x45; x4c; x46] (js "photo.png") = infected.
Proof. vm_compute. reflexivity. Qed.

Example first_hit_is_the_first :
  virusScanner.firstHit [x00; x4d; x5a; x4d; x5a] virusScanner.PE = Some 1%nat.
Proof. vm_compute. reflexivity. Qed.

Example validate_one_bad_file :
  errors (fileValidator.validateBatch [demo.text "notes.txt"; demo.text "run.bat"])
  = [js "File 2 (run.bat): File type is not allowed for security reasons"].
Proof. vm_compute. reflexivity. Qed.

Example key_of_a_file :
  s3KeyAt 1700000000000 (js "42") (js "my file (1).png") fileKey
  = js "files/42/1700000000000-my_file__1_.png".
Proof. vm_compute. reflexivity. Qed.

Example key_of_its_thumbnail :
  getThumbnailKey (js "files/42/1700000000000-my_file__1_.png")
  = js "thumbnails/42/thumb-1700000000000-my_file__1_.png".
Proof. vm_compute. reflexivity. Qed.

Example upload_of_three :
  match (UploadRoute.POST (H := demo.externals)
           (demo.upload [demo.text "a.txt"; demo.picture; demo.text "b.txt"])
           (demo.world demo.emptyStore [] [])) with
  | (Returned (Ok s), w) =>
      UploadSummary.uploadedCount s = 3
      /\ UploadSummary.message s = js "Successfully uploaded 3 files"
      /\ User.storageUsed <$> users (store w) !! 1%N = Some 130
      /\ size (files (store w)) = 3%nat
      /\ size (bucket (store w)) = 4%nat
  | _ => False
  end.
Proof. vm_compute. repeat split; reflexivity. Qed.

(** ** Strings *)

Lemma toLowerCase_app s t : toLowerCase (s ++ t) = toLowerCase s ++ toLowerCase t.
Proof. unfold toLowerCase. apply flat_map_app. Qed.

Lemma lowerUnit_length c : (1 <= length (lowerUnit c))%nat.
Proof. unfold lowerUnit. repeat case_match; simpl; lia. Qed.

Lemma toLowerCase_length_ge s : (length s <= length (toLowerCase s))%nat.
Proof.
  induction s as [|c s IH]; simpl; [lia|].
  rewrite length_app. pose proof (lowerUnit_length c). lia.
Qed.

Lemma lowerUnit_plain c : c <> 304%N -> length (lowerUnit c) = 1%nat.
Proof.
  intros Hc. unfold lowerUnit. repeat case_match; simpl; try lia.
  apply N.eqb_eq in H1. contradiction.
Qed.

Lemma toLowerCase_length_plain s : plainName s -> length (toLowerCase s) = length s.
Proof.
  unfold plainName. induction s as [|c s IH]; simpl; [done|].
  intros Hn. rewrite length_app, lowerUnit_plain, IH; [done| |]; set_solver.
Qed.

Lemma lastIndexOfFrom_bounds c s i acc :
  -1 <= acc < i -> -1 <= lastIndexOfFrom c s i acc < i + Z.of_nat (length s).
Proof.
  revert i acc. induction s as [|x s IH]; intros i acc H; simpl; [lia|].
  specialize (IH (i + 1) (if (x =? c)%N then i else acc)).
  destruct (x =? c)%N; lia.
Qed.

Lemma lastIndexOf_bounds c s : -1 <= lastIndexOf c s < Z.of_nat (length s).
Proof. unfold lastIndexOf. pose proof (lastIndexOfFrom_bounds c s 0 (-1)). lia. Qed.

(** The extension the scanner computes is the specification's extension
    behind whatever lower-casing pushed across the position of the dot. *)
Lemma fileExtension_split fileName e :
  extension fileName = Some e ->
  exists t, virusScanner.fileExtension fileName = t ++ e
    /\ (plainName fileName -> t = []).
Proof.
  unfold extension, virusScanner.fileExtension, substring.
  pose proof (lastIndexOf_bounds DOT fileName) as Hb.
  destruct (Z.ltb_spec (lastIndexOf DOT fileName) 0) as [|Hpos]; [done|].
  intros [= <-]. rewrite Z.max_r by lia.
  set (n := Z.to_nat (lastIndexOf DOT fileName)).
  assert (Hn : (n <= length fileName)%nat) by lia.
  exists (drop n (toLowerCase (take n fileName))). split.
  - rewrite <- (take_drop n fileName) at 1. rewrite toLowerCase_app.
    rewrite drop_app_le; [done|].
    etrans; [|apply toLowerCase_length_ge]. rewrite length_take. lia.
  - intros Hp. apply drop_ge. rewrite toLowerCase_length_plain.
    + rewrite length_take. lia.
    + unfold plainName in *. intros Hin. apply Hp.
      apply elem_of_take in Hin as (i & Hi & _).
      by eapply list_elem_of_lookup_2.
Qed.

(** ** Content scanner: the signature search *)

Lemma matchFrom_spec buffer signature i j n :
  virusScanner.matchFrom buffer signature i j n = true <->
  forall k, (k < n)%nat -> buffer !! (i + (j + k))%nat = signature !! (j + k)%nat.
Proof.
  revert j. induction n as [|n IH]; intros j; simpl.
  - split; [intros _ k Hk; lia | done].
  - case_bool_decide as Hd.
    + rewrite IH. split.
      * intros H [|k] Hk.
        -- by rewrite Nat.add_0_r.
        -- replace (j + S k)%nat with (S j + k)%nat by lia. apply H. lia.
      * intros H k Hk. replace (S j + k)%nat with (j + S k)%nat by lia.
        apply H. lia.
    + split; [done|]. intros H. exfalso. apply Hd.
      specialize (H 0%nat). rewrite Nat.add_0_r in H. apply H. lia.
Qed.

Lemma matchAt_spec buffer signature i :
  virusScanner.matchAt buffer signature i = true <->
  take (length signature) (drop i buffer) = signature.
Proof.
  unfold virusScanner.matchAt. rewrite matchFrom_spec. split.
  - intros H. apply list_eq. intros k.
    destruct (decide (k < length signature)%nat) as [Hk|Hk].
    + rewrite lookup_take_lt by done. rewrite lookup_drop. by apply (H k).
    + rewrite lookup_take_ge by lia. symmetry. apply lookup_ge_None. lia.
  - intros H k Hk. simpl.
    transitivity (take (length signature) (drop i buffer) !! k); [|by rewrite H].
    rewrite lookup_take_lt by done. by rewrite lookup_drop.
Qed.

Lemma searchFrom_Some buffer signature i n h :
  virusScanner.searchFrom buffer signature i n = Some h <->
  (i <= h < i + n)%nat /\ virusScanner.matchAt buffer signature h = true
  /\ forall k, (i <= k < h)%nat -> virusScanner.matchAt buffer signature k = false.
Proof.
  revert i. induction n as [|n IH]; intros i; simpl.
  - split; [done|]. intros [? _]. lia.
  - destruct (virusScanner.matchAt buffer signature i) eqn:Hm.
    + split.
      * intros [= <-]. split; [lia|]. split; [done|]. intros k Hk. lia.
      * intros (Hr & Hh & Hmin). f_equal.
        destruct (decide (i = h)) as [|Hne]; [done|].
        rewrite Hmin in Hm by lia. done.
    + rewrite IH. split.
      * intros (Hr & Hh & Hmin). split; [lia|]. split; [done|].
        intros k Hk. destruct (decide (k = i)) as [->|]; [done|]. apply Hmin. lia.
      * intros (Hr & Hh & Hmin).
        assert (i <> h) by (intros ->; congruence).
        split; [lia|]. split; [done|]. intros k Hk. apply Hmin. lia.
Qed.

Lemma searchFrom_None buffer signature i n :
  virusScanner.searchFrom buffer signature i n = None <->
  forall k, (i <= k < i + n)%nat -> virusScanner.matchAt buffer signature k = false.
Proof.
  revert i. induction n as [|n IH]; intros i; simpl.
  - split; [intros _ k Hk; lia | done].
  - destruct (virusScanner.matchAt buffer signature i) eqn:Hm.
    + split; [done|]. intros H. rewrite H in Hm by lia. done.
    + rewrite IH. split.
      * intros H k Hk. destruct (decide (k = i)) as [->|]; [done|]. apply H. lia.
      * intros H k Hk. apply H. lia.
Qed.

Lemma occurs_offset sig buffer :
  occurs sig buffer <->
  exists h, (h + length sig <= length buffer)%nat
            /\ take (length sig) (drop h buffer) = sig.
Proof.
  split.
  - intros (pre & post & ->). exists (length pre). split.
    + rewrite !length_app. lia.
    + rewrite drop_app_length. by rewrite take_app_length.
  - intros (h & Hlen & Ht). exists (take h buffer), (drop (length sig) (drop h buffer)).
    rewrite <- Ht at 1. by rewrite !take_drop.
Qed.

Lemma containsSignature_occurs buffer sig :
  virusScanner.containsSignature buffer sig = true <-> occurs sig buffer.
Proof.
  unfold virusScanner.containsSignature, virusScanner.firstHit.
  rewrite occurs_offset.
  destruct (virusScanner.searchFrom _ _ _ _) as [h|] eqn:Hs.
  - apply searchFrom_Some in Hs as (Hr & Hm & _). split; [intros _|done].
    exists h. split; [lia|]. by apply matchAt_spec.
  - split; [done|]. intros (h & Hlen & Ht). exfalso.
    rewrite searchFrom_None in Hs. specialize (Hs h).
    rewrite (proj2 (matchAt_spec _ _ _) Ht) in Hs.
    enough (false = true) by done. symmetry. apply Hs. lia.
Qed.

Lemma includes_elem_of l x : includes l x = true <-> x ∈ l.
Proof.
  unfold includes. rewrite existsb_exists. split.
  - intros (e & Hin & He). apply bool_decide_eq_true in He as ->.
    by apply list_elem_of_In.
  - intros Hin. exists x. split; [by apply list_elem_of_In|].
    by apply bool_decide_eq_true.
Qed.

(** No safe extension is the tail of a dangerous one. *)
Lemma safe_not_suffix_of_dangerous t e :
  e ∈ virusScanner.allSafeExtensions ->
  includes virusScanner.dangerousExtensions (t ++ e) = false.
Proof.
  intros He. apply not_true_is_false. rewrite includes_elem_of. intros Hd.
  assert (Hchk : forallb (fun d => forallb (fun e =>
            negb (bool_decide (drop (length d - length e) d = e)))
            virusScanner.allSafeExtensions) virusScanner.dangerousExtensions = true)
    by (vm_compute; reflexivity).
  rewrite forallb_forall in Hchk.
  specialize (Hchk (t ++ e) (proj1 (list_elem_of_In _ _) Hd)).
  rewrite forallb_forall in Hchk.
  specialize (Hchk e (proj1 (list_elem_of_In _ _) He)).
  apply negb_true_iff, bool_decide_eq_false in Hchk. apply Hchk.
  rewrite length_app. replace (length t + length e - length e)%nat with (length t) by lia.
  apply drop_app_length.
Qed.

Lemma scanBuffer_not_dangerous buffer fileName :
  includes virusScanner.dangerousExtensions (virusScanner.fileExtension fileName) = false ->
  virusScanner.scanBuffer buffer fileName =
    if virusScanner.containsSignature buffer virusScanner.PE
       || virusScanner.containsSignature buffer virusScanner.ELF
    then infected else clean.
Proof.
  intros Hd. unfold virusScanner.scanBuffer. rewrite Hd.
  unfold virusScanner.executableSignatures, virusScanner.suspiciousSignatures.
  destruct (includes virusScanner.allSafeExtensions _);
    cbn [existsb]; by rewrite orb_false_r.
Qed.

(** For a name that lower-casing leaves in place, a dangerous extension
    is found whatever the bytes are. *)
Lemma scanBuffer_dangerous_extension_plain buffer fileName e :
  plainName fileName ->
  extension fileName = Some e ->
  includes virusScanner.dangerousExtensions e = true ->
  virusScanner.scanBuffer buffer fileName = infected.
Proof.
  intros Hp He Hd. destruct (fileExtension_split _ _ He) as (t & Hext & Ht).
  unfold virusScanner.scanBuffer. rewrite Hext, (Ht Hp). simpl app. by rewrite Hd.
Qed.

(** C7: the scanner takes the position of the last '.' in the name as
    given and cuts the lower-cased name there.  Lower-casing U+0130 yields
    two code units, so for the name U+0130 ".js" the text cut off is
    U+0307 ".js": although the extension ".js" is on the dangerous list,
    the scan of an empty buffer answers clean. *)
Theorem scanBuffer_misses_extension_after_dotted_I :
  extension (304%N :: js ".js") = Some (js ".js")
  /\ includes virusScanner.dangerousExtensions (js ".js") = true
  /\ virusScanner.fileExtension (304%N :: js ".js") = 775%N :: js ".js"
  /\ virusScanner.scanBuffer [] (304%N :: js ".js") = clean.
Proof. vm_compute. repeat split; reflexivity. Qed.

(** C8: when the extension of the name is one of the safe image, document
    or media extensions, scanBuffer answers infected exactly when the PE
    header 4D 5A or the ELF header 7F 45 4C 46 occurs in the buffer as a
    contiguous run, and clean otherwise; the search reports the first
    offset at which the signature matches. *)
Theorem scanBuffer_safe_container buffer fileName e :
  extension fileName = Some e ->
  includes virusScanner.allSafeExtensions e = true ->
  (virusScanner.scanBuffer buffer fileName = infected
     <-> occurs virusScanner.PE buffer \/ occurs virusScanner.ELF buffer)
  /\ (virusScanner.scanBuffer buffer fileName = clean
     <-> ~ (occurs virusScanner.PE buffer \/ occurs virusScanner.ELF buffer))
  /\ (forall sig h, virusScanner.firstHit buffer sig = Some h ->
        take (length sig) (drop h buffer) = sig
        /\ forall k, (k < h)%nat -> take (length sig) (drop k buffer) <> sig).
Proof.
  intros He Hs. destruct (fileExtension_split _ _ He) as (t & Hext & _).
  apply includes_elem_of in Hs.
  pose proof (safe_not_suffix_of_dangerous t e Hs) as Hnd. rewrite <- Hext in Hnd.
  rewrite (scanBuffer_not_dangerous buffer fileName Hnd).
  rewrite <- !containsSignature_occurs.
  split; [|split].
  - destruct (virusScanner.containsSignature buffer virusScanner.PE),
      (virusScanner.containsSignature buffer virusScanner.ELF); simpl; intuition congruence.
  - destruct (virusScanner.containsSignature buffer virusScanner.PE),
      (virusScanner.containsSignature buffer virusScanner.ELF); simpl; intuition congruence.
  - intros sig h Hh. unfold virusScanner.firstHit in Hh.
    apply searchFrom_Some in Hh as (_ & Hm & Hmin). split.
    + by apply matchAt_spec.
    + intros k Hk Hc. apply matchAt_spec in Hc. rewrite Hmin in Hc by lia. done.
Qed.

Lemma scanBuffer_safe_container_witness :
  virusScanner.scanBuffer [x00; x4d; x5a] (js "photo.PNG") = infected
  <-> occurs virusScanner.PE [x00; x4d; x5a] \/ occurs virusScanner.ELF [x00; x4d; x5a].
Proof.
  apply (scanBuffer_safe_container [x00; x4d; x5a] (js "photo.PNG") (js ".png"));
    vm_compute; reflexivity.
Defined.

(** ** Validator *)

Lemma forEachFile_extends files index allErrors :
  exists more, fileValidator.forEachFile files index allErrors = allErrors ++ more.
Proof.
  revert index allErrors.
  induction files as [|file rest IH]; intros index allErrors;
    cbn [fileValidator.forEachFile].
  - exists []. by rewrite app_nil_r.
  - destruct (isValid (fileValidator.validateFile file)).
    + apply IH.
    + destruct (IH (index + 1) (allErrors ++
        [js "File " ++ decimal (index + 1) ++ js " (" ++ File.name file ++ js "): "
         ++ join (js ", ") (errors (fileValidator.validateFile file))])) as [more ->].
      eexists. by rewrite <- app_assoc.
Qed.

(** C9: validateBatch answers isValid = false whenever the sizes sum to
    more than 500 MiB, the ceiling message being the first error whatever
    the per-file checks say; and isValid is true exactly when the list of
    collected errors is empty. *)
Theorem validateBatch_ceiling_and_validity files :
  (500 * 1024 * 1024 < totalSize files ->
     isValid (fileValidator.validateBatch files) = false
     /\ head (errors (fileValidator.validateBatch files))
        = Some (js "Total batch size exceeds 500MB limit"))
  /\ (isValid (fileValidator.validateBatch files) = true
      <-> errors (fileValidator.validateBatch files) = []).
Proof.
  split.
  - intros Hbig. unfold fileValidator.validateBatch. cbn [isValid errors].
    apply Z.ltb_lt in Hbig. rewrite Hbig. unfold fileValidator.pushIf.
    destruct (forEachFile_extends files 0
      ([] ++ [js "Total batch size exceeds 500MB limit"])) as [more ->].
    split; [|done]. by apply bool_decide_eq_false.
  - unfold fileValidator.validateBatch. cbn [isValid errors].
    rewrite bool_decide_eq_true. apply length_zero_iff_nil.
Qed.

Lemma validateBatch_ceiling_and_validity_witness :
  let file := {| File.name := js "clip.mp4"; File.type := js "video/mp4";
                 File.size := 100 * 1024 * 1024; File.content := [] |} in
  forallb (fun f => isValid (fileValidator.validateFile f)) (replicate 6 file) = true
  /\ isValid (fileValidator.validateBatch (replicate 6 file)) = false.
Proof.
  split; [vm_compute; reflexivity|].
  apply (validateBatch_ceiling_and_validity (replicate 6 _)).
  vm_compute. reflexivity.
Defined.

(** ** Running the handlers *)

#[global] Instance same_preorder {A} (f : Store -> A) : PreOrder (same f).
Proof. split; [done|]. intros x y z; unfold same; congruence. Qed.

#[global] Instance addsObjectsOnly_preorder : PreOrder addsObjectsOnly.
Proof.
  split; [done|]. intros x y z [H1 H2] [H3 H4]. split; [congruence|set_solver].
Qed.


Section runs.
Context `{Externals}.

Lemma bind_run {A B} (m : M A) (k : A -> M B) w :
  (m ≫= k) w = match m w with
               | (Returned a, w') => k a w'
               | (Threw e, w') => (Threw e, w')
               end.
Proof. reflexivity. Qed.

Lemma bind_Returned {A B} (m : M A) (k : A -> M B) w b w' :
  (m ≫= k) w = (Returned b, w') ->
  exists a w1, m w = (Returned a, w1) /\ k a w1 = (Returned b, w').
Proof. rewrite bind_run. destruct (m w) as [[a|e] w1]; [eauto|done]. Qed.

Lemma tryCatch_rethrow_Returned {A} (m : M A) (h : jsstring -> jsstring) w a w' :
  tryCatch m (fun e => throw (h e)) w = (Returned a, w') -> m w = (Returned a, w').
Proof. unfold tryCatch. destruct (m w) as [[?|e] w1]; [done|]. intros [=]. Qed.

Section respects.
Context (R : relation Store) `{!PreOrder R}.

Lemma respects_ret {B} (b : B) : respects R (mret b).
  Proof. intros w out w' [= <- <-]. done. Qed.

Lemma respects_throw {B} e : respects R (@throw B e).
  Proof. intros w out w' [= <- <-]. done. Qed.

Lemma respects_bind {B C} (m : M B) (k : B -> M C) :
    respects R m -> (forall b, respects R (k b)) -> respects R (m ≫= k).
  Proof.
    intros Hm Hk w out w'. rewrite bind_run.
    destruct (m w) as [[b|e] w1] eqn:E; intros Hr.
    - etrans; [by eapply Hm|by eapply Hk].
    - inversion Hr; subst. by eapply Hm.
  Qed.

Lemma respects_tryCatch {B} (m : M B) (h : jsstring -> M B) :
    respects R m -> (forall e, respects R (h e)) -> respects R (tryCatch m h).
  Proof.
    intros Hm Hh w out w'. unfold tryCatch.
    destruct (m w) as [[b|e] w1] eqn:E; intros Hr.
    - inversion Hr; subst. by eapply Hm.
    - etrans; [by eapply Hm|by eapply Hh].
  Qed.

Lemma respects_gateway service : respects R (gateway service).
  Proof.
    intros w out w'. unfold gateway.
    destruct (faults w) as [|[] rest]; intros [= <- <-]; done.
  Qed.

Lemma respects_DateNow : respects R DateNow.
  Proof.
    intros w out w'. unfold DateNow.
    destruct (ticks w); intros [= <- <-]; done.
  Qed.

Lemma respects_update {B} (g : Store -> Store) (k : M B) :
    (forall s, R s (g s)) -> respects R k ->
    respects R (s ← getStore; setStore (g s);; k).
  Proof.
    intros Hg Hk w out w'. rewrite bind_run. simpl. rewrite bind_run. simpl.
    intros Hr. etrans; [apply Hg|]. by apply (Hk _ _ _ Hr).
  Qed.

Lemma respects_generateS3Key userId fileName kind :
    respects R (generateS3Key userId fileName kind).
  Proof.
    unfold generateS3Key. apply respects_bind; [apply respects_DateNow|].
    intros t. apply respects_ret.
  Qed.

Lemma respects_getDownloadUrl key expiresIn :
    respects R (s3Operations.getDownloadUrl key expiresIn).
  Proof.
    unfold s3Operations.getDownloadUrl.
    apply respects_tryCatch; [|intros; apply respects_throw].
    apply respects_bind; [apply respects_gateway|]. intros _. apply respects_ret.
  Qed.

Lemma respects_processImage buffer userId fileName :
    respects R (fileProcessor.processImage buffer userId fileName).
  Proof.
    unfold fileProcessor.processImage.
    apply respects_tryCatch; [|intros; apply respects_throw].
    apply respects_bind; [apply respects_gateway|]. intros _.
    destruct (sharp buffer); [|apply respects_throw].
    apply respects_bind; [apply respects_generateS3Key|]. intros k. apply respects_ret.
  Qed.

Lemma respects_processVideo buffer userId fileName :
    respects R (fileProcessor.processVideo buffer userId fileName).
  Proof.
    unfold fileProcessor.processVideo.
    apply respects_tryCatch; [|intros; apply respects_throw].
    apply respects_bind; [apply respects_generateS3Key|]. intros k. apply respects_ret.
  Qed.

Lemma respects_getProcessor contentType processor :
    fileProcessor.getProcessor contentType = Some processor ->
    forall buffer userId fileName, respects R (processor buffer userId fileName).
  Proof.
    unfold fileProcessor.getProcessor. intros Hp buffer userId fileName.
    repeat case_match; simplify_eq.
    - apply respects_processImage.
    - apply respects_processVideo.
  Qed.

End respects.

Lemma adds_uploadFile file key contentType metadata :
  respects addsObjectsOnly (s3Operations.uploadFile file key contentType metadata).
Proof.
  unfold s3Operations.uploadFile.
  apply respects_tryCatch; [apply _| |intros; apply respects_throw; apply _].
  apply respects_bind; [apply _|apply respects_gateway; apply _|]. intros _.
  apply (respects_update _ (fun s => withBucket _ s)); [|apply respects_ret; apply _].
  intros s. split; [done|]. simpl. rewrite dom_insert_L. set_solver.
Qed.

Lemma uploadFile_Returned file key contentType metadata w r w' :
  s3Operations.uploadFile file key contentType metadata w = (Returned r, w') ->
  S3UploadResult.key r = key /\ key ∈ dom (bucket (store w')).
Proof.
  intros Hr. apply tryCatch_rethrow_Returned in Hr.
  apply bind_Returned in Hr as (_ & w1 & _ & Hr).
  inversion Hr; subst; clear Hr. simpl. split; [done|].
  rewrite dom_insert_L. set_solver.
Qed.


Lemma adds_uploadProcessedFile processedFile userId fileName contentType :
  respects addsObjectsOnly
    (fileProcessor.uploadProcessedFile processedFile userId fileName contentType).
Proof.
  unfold fileProcessor.uploadProcessedFile.
  apply respects_tryCatch; [apply _| |intros; apply respects_throw; apply _].
  apply respects_bind; [apply _|apply respects_generateS3Key; apply _|]. intros s3Key.
  apply respects_bind; [apply _|apply respects_DateNow; apply _|]. intros processedAt.
  apply respects_bind; [apply _|apply adds_uploadFile|]. intros uploadResult.
  apply respects_bind; [apply _| |intros; apply respects_ret; apply _].
  destruct (ProcessedFile.thumbnailBuffer processedFile) as [thumb|];
    [|apply respects_ret; apply _].
  destruct (ProcessedFile.thumbnailKey processedFile) as [[|c k]|];
    try (apply respects_ret; apply _).
  apply respects_bind; [apply _|apply adds_uploadFile|]. intros _.
  apply respects_bind; [apply _|apply respects_getDownloadUrl; apply _|].
  intros url. apply respects_ret; apply _.
Qed.

Lemma uploadProcessedFile_Returned processedFile userId fileName contentType w r w' :
  fileProcessor.uploadProcessedFile processedFile userId fileName contentType w
    = (Returned r, w') ->
  UploadedProcessed.s3Key r ∈ dom (bucket (store w')).
Proof.
  intros Hr. apply tryCatch_rethrow_Returned in Hr.
  apply bind_Returned in Hr as (s3Key & w1 & _ & Hr).
  apply bind_Returned in Hr as (processedAt & w2 & _ & Hr).
  apply bind_Returned in Hr as (uploadResult & w3 & Hup & Hr).
  apply bind_Returned in Hr as (thumbnailUrl & w4 & Hth & Hr).
  inversion Hr; subst; clear Hr. simpl.
  apply uploadFile_Returned in Hup as [-> Hin].
  assert (Hadds : addsObjectsOnly (store w3) (store w')).
  { revert Hth.
    destruct (ProcessedFile.thumbnailBuffer processedFile) as [thumb|];
      [|by intros [= _ <-]].
    destruct (ProcessedFile.thumbnailKey processedFile) as [[|c k]|];
      try (by intros [= _ <-]).
    apply respects_bind; [apply _|apply adds_uploadFile|]. intros _.
    apply respects_bind; [apply _|apply respects_getDownloadUrl; apply _|].
    intros url. apply respects_ret; apply _. }
  destruct Hadds as [_ Hsub]. set_solver.
Qed.

Lemma adds_placeFile payload file :
  respects addsObjectsOnly (UploadRoute.placeFile payload file).
Proof.
  assert (Hd : respects addsObjectsOnly (UploadRoute.directUpload payload file)).
  { unfold UploadRoute.directUpload.
    apply respects_bind; [apply _|apply respects_generateS3Key; apply _|]. intros s3Key.
    apply respects_bind; [apply _|apply adds_uploadFile|]. intros r.
    apply respects_ret; apply _. }
  unfold UploadRoute.placeFile.
  destruct (fileProcessor.needsProcessing _); [|done].
  destruct (fileProcessor.getProcessor _) as [processor|] eqn:Hp; [|done].
  unfold UploadRoute.processedUpload.
  apply respects_bind; [apply _|by eapply respects_getProcessor; [apply _|]|].
  intros processedFile.
  apply respects_bind; [apply _|apply adds_uploadProcessedFile|]. intros r.
  apply respects_ret; apply _.
Qed.

Lemma placeFile_Returned payload file w placed w' :
  UploadRoute.placeFile payload file w = (Returned placed, w') ->
  UploadRoute.s3Key placed ∈ dom (bucket (store w')).
Proof.
  assert (Hd : UploadRoute.directUpload payload file w = (Returned placed, w') ->
               UploadRoute.s3Key placed ∈ dom (bucket (store w'))).
  { intros Hr. apply bind_Returned in Hr as (s3Key & w1 & _ & Hr).
    apply bind_Returned in Hr as (r & w2 & Hup & Hr).
    inversion Hr; subst; clear Hr. simpl.
    by apply uploadFile_Returned in Hup as [_ Hin]. }
  unfold UploadRoute.placeFile.
  destruct (fileProcessor.needsProcessing _); [|done].
  destruct (fileProcessor.getProcessor _) as [processor|] eqn:Hp; [|done].
  intros Hr. apply bind_Returned in Hr as (processedFile & w1 & _ & Hr).
  apply bind_Returned in Hr as (r & w2 & Hup & Hr).
  inversion Hr; subst; clear Hr. simpl.
  by apply uploadProcessedFile_Returned in Hup.
Qed.

(** db.files.create either is rejected and leaves the store as it was, or
    inserts the new document under an unused id. *)
Lemma create_run data w :
  (exists e w', db.files.create data w = (Threw e, w') /\ store w' = store w)
  \/ (exists t w',
        db.files.create data w
          = (Returned (fresh (dom (files (store w))), db.files.newFile data t), w')
        /\ store w' = withFiles (<[fresh (dom (files (store w))) := db.files.newFile data t]>
                                   (files (store w))) (store w)).
Proof.
  unfold db.files.create. rewrite bind_run. unfold DateNow, gateway.
  destruct (ticks w) as [|d ticks'], (faults w) as [|[] faults'] eqn:Hf;
    rewrite ?bind_run; simpl; rewrite ?Hf; simpl; eauto 10.
Qed.


(** What is left of the [try] block once the file has been placed: the
    record is created and the file counted, unless the insertion is
    rejected, which leaves the store as it was. *)
Lemma recording_run payload p file placed w1 (rest : db.files.document -> M ()) :
  (forall d, respects (same (fun s => (users s, files s, shareLinks s, bucket s))) (rest d)) ->
  (forall d w2, exists w3, rest d w2 = (Returned (), w3)) ->
  let body :=
    fileRecord ← db.files.create (UploadRoute.fileData payload file (scanOf file) placed);
    rest fileRecord;;
    mret (UploadRoute.pushUploaded (UploadRoute.uploadedEntry fileRecord placed)
            (File.size file) p) in
  (exists e w2, body w1 = (Threw e, w2) /\ store w2 = store w1)
  \/ (exists t w3,
        body w1 = (Returned (UploadRoute.pushUploaded
                     (UploadRoute.uploadedEntry
                        (nextId w1, storedRecord payload file placed t) placed)
                     (File.size file) p), w3)
        /\ files (store w3) = <[nextId w1 := storedRecord payload file placed t]>
                                (files (store w1))
        /\ users (store w3) = users (store w1)
        /\ shareLinks (store w3) = shareLinks (store w1)
        /\ bucket (store w3) = bucket (store w1)).
Proof.
  intros Hrest Hret body. unfold body. rewrite bind_run.
  destruct (create_run (UploadRoute.fileData payload file (scanOf file) placed) w1)
    as [(e & w2 & -> & Hs)|(t & w2 & -> & Hs)]; [left; eauto|right].
  rewrite bind_run.
  destruct (Hret (fresh (dom (files (store w1))),
                  db.files.newFile
                    (UploadRoute.fileData payload file (scanOf file) placed) t) w2)
    as [w3 Hr].
  rewrite Hr. pose proof (Hrest _ _ _ _ Hr) as Hk. unfold same in Hk.
  injection Hk as Hu' Hf' Hl' Hb'.
  exists t, w3. split; [reflexivity|].
  rewrite Hf', Hu', Hl', Hb', Hs. done.
Qed.

(** The [try] block of the loop ends in one of three ways. *)
Lemma tryBlock_run payload p file w :
  (scanOf file = infected
   /\ UploadRoute.tryBlock payload file p w
      = (Returned (UploadRoute.pushBlocked
           (UploadRoute.blockedEntry file (js "Virus/malware detected")) p), w))
  \/ (scanOf file <> infected
      /\ exists e w', UploadRoute.tryBlock payload file p w = (Threw e, w')
                      /\ addsObjectsOnly (store w) (store w'))
  \/ (scanOf file <> infected
      /\ exists placed t w',
           UploadRoute.tryBlock payload file p w
           = (Returned (UploadRoute.pushUploaded
                (UploadRoute.uploadedEntry
                   (nextId w, storedRecord payload file placed t) placed)
                (File.size file) p), w')
           /\ files (store w') = <[nextId w := storedRecord payload file placed t]>
                                   (files (store w))
           /\ users (store w') = users (store w)
           /\ shareLinks (store w') = shareLinks (store w)
           /\ dom (bucket (store w)) ⊆ dom (bucket (store w'))
           /\ UploadRoute.s3Key placed ∈ dom (bucket (store w'))).
Proof.
  assert (Hrun : forall rest : db.files.document -> UploadRoute.Placed -> M (),
    (forall d q, respects (same (fun s => (users s, files s, shareLinks s, bucket s)))
                   (rest d q)) ->
    (forall d q w2, exists w3, rest d q w2 = (Returned (), w3)) ->
    scanOf file <> infected ->
    let block :=
      placed ← UploadRoute.placeFile payload file;
      fileRecord ← db.files.create
                      (UploadRoute.fileData payload file (scanOf file) placed);
      rest fileRecord placed;;
      mret (UploadRoute.pushUploaded (UploadRoute.uploadedEntry fileRecord placed)
              (File.size file) p) in
    (exists e w', block w = (Threw e, w') /\ addsObjectsOnly (store w) (store w'))
    \/ (exists placed t w',
           block w = (Returned (UploadRoute.pushUploaded
                (UploadRoute.uploadedEntry
                   (nextId w, storedRecord payload file placed t) placed)
                (File.size file) p), w')
           /\ files (store w') = <[nextId w := storedRecord payload file placed t]>
                                   (files (store w))
           /\ users (store w') = users (store w)
           /\ shareLinks (store w') = shareLinks (store w)
           /\ dom (bucket (store w)) ⊆ dom (bucket (store w'))
           /\ UploadRoute.s3Key placed ∈ dom (bucket (store w')))).
  { intros rest Hrest Hret Hscan block. unfold block. rewrite bind_run.
    destruct (UploadRoute.placeFile payload file w) as [[placed|e] w1] eqn:Hp;
      pose proof (adds_placeFile _ _ _ _ _ Hp) as [Hrec Hsub];
      [|left; exists e, w1; by repeat split].
    pose proof (placeFile_Returned _ _ _ _ _ Hp) as Hin.
    unfold records in Hrec. injection Hrec as Hu Hf Hl Ht.
    destruct (recording_run payload p file placed w1 (fun d => rest d placed)
                (fun d => Hrest d placed) (fun d => Hret d placed))
      as [(e & w2 & -> & Hs)|(t & w3 & -> & Hf3 & Hu3 & Hl3 & Hb3)].
    - left. exists e, w2. split; [done|]. rewrite Hs. split; [|done].
      unfold records. congruence.
    - right. exists placed, t, w3.
      assert (Hid : nextId w1 = nextId w) by (unfold nextId; by rewrite Hf).
      rewrite Hid in *. rewrite Hf3, Hu3, Hl3, Hb3, Hf.
      repeat split; try done. }
  unfold UploadRoute.tryBlock. fold (scanOf file).
  destruct (scanOf file) eqn:Hscan; [|left; split; reflexivity|]; right;
    lazy beta iota zeta.
  - destruct (Hrun (fun fileRecord placed =>
                scheduleBackgroundScan fileRecord.1 (UploadRoute.s3Key placed)))
      as [?|?]; [| |congruence| |].
    + intros d q w2 out w3 [= <- <-]. done.
    + intros d q w2. eexists. reflexivity.
    + left. split; [congruence|done].
    + right. split; [congruence|done].
  - destruct (Hrun (fun fileRecord placed => mret ())) as [?|?]; [| |congruence| |].
    + intros d q w2 out w3 [= <- <-]. done.
    + intros d q w2. eexists. reflexivity.
    + left. split; [congruence|done].
    + right. split; [congruence|done].
Qed.

Lemma iteration_turn payload p file w :
  exists p' w', UploadRoute.iteration payload p file w = (Returned p', w')
                /\ turn payload file (p, w) (p', w').
Proof.
  unfold UploadRoute.iteration, tryCatch.
  destruct (tryBlock_run payload p file w)
    as [[Hscan ->]|[[Hscan (e & w' & -> & Hadds)]
       |[Hscan (placed & t & w' & -> & Hf & Hu & Hl & Hb & Hk)]]];
    eexists _, _; (split; [reflexivity|]).
  - by apply turn_infected.
  - by apply turn_failed.
  - by apply turn_stored.
Qed.

Lemma forOf_turns payload batch p w :
  exists p' w', UploadRoute.forOf payload batch p w = (Returned p', w')
                /\ turns payload batch (p, w) (p', w').
Proof.
  revert p w. induction batch as [|file rest IH]; intros p w; simpl.
  - eexists _, _. split; [reflexivity|constructor].
  - rewrite bind_run.
    destruct (iteration_turn payload p file w) as (p1 & w1 & -> & Ht).
    destruct (IH p1 w1) as (p2 & w2 & -> & Hts).
    eexists _, _. split; [reflexivity|]. by econstructor.
Qed.


Lemma sumSizes_empty : sumSizes ∅ = 0.
Proof. apply map_fold_empty. Qed.

Lemma sumSizes_insert id record m :
  m !! id = None -> sumSizes (<[id := record]> m) = FileRecord.size record + sumSizes m.
Proof.
  intros Hm. unfold sumSizes.
  rewrite map_fold_insert_L; [done| |done]. intros; lia.
Qed.

Lemma nextId_fresh w : files (store w) !! nextId w = None.
Proof. unfold nextId. apply not_elem_of_dom, is_fresh. Qed.

Lemma turn_grows payload file p w p' w' :
  turn payload file (p, w) (p', w') ->
  users (store w') = users (store w)
  /\ shareLinks (store w') = shareLinks (store w)
  /\ files (store w) ⊆ files (store w')
  /\ dom (bucket (store w)) ⊆ dom (bucket (store w')).
Proof.
  inversion 1 as [? ? Hscan|? ? ? Hscan [Hrec Hsub]
                 |? ? ? placed t Hscan Hfiles Husers Hlinks Hbucket Hkey]; subst.
  - done.
  - unfold records in Hrec. injection Hrec as -> -> -> _. done.
  - repeat split; try done. rewrite Hfiles. apply insert_subseteq, nextId_fresh.
Qed.

Lemma turns_grows payload batch p w p' w' :
  turns payload batch (p, w) (p', w') ->
  users (store w') = users (store w)
  /\ shareLinks (store w') = shareLinks (store w)
  /\ files (store w) ⊆ files (store w')
  /\ dom (bucket (store w)) ⊆ dom (bucket (store w')).
Proof.
  intros Ht. remember (p, w) as x eqn:Hx. remember (p', w') as z eqn:Hz.
  revert p w Hx. induction Ht as [x|file rest x [p1 w1] z Hstep Hrest IH];
    intros p w ->.
  - by injection Hz as -> ->.
  - apply turn_grows in Hstep as (Hu & Hl & Hf & Hb).
    destruct (IH Hz p1 w1 eq_refl) as (Hu' & Hl' & Hf' & Hb').
    repeat split; [congruence|congruence|by etrans|by etrans].
Qed.

Lemma turn_total payload file p w p' w' m0 :
  m0 ⊆ files (store w) ->
  turn payload file (p, w) (p', w') ->
  UploadRoute.totalUploadedSize p' - UploadRoute.totalUploadedSize p
  = sumSizes (files (store w') ∖ m0) - sumSizes (files (store w) ∖ m0).
Proof.
  intros Hm0.
  inversion 1 as [? ? Hscan|? ? ? Hscan [Hrec Hsub]
                 |? ? ? placed t Hscan Hfiles Husers Hlinks Hbucket Hkey]; subst.
  - simpl. lia.
  - unfold records in Hrec. injection Hrec as _ -> _ _. simpl. lia.
  - pose proof (nextId_fresh w) as Hfresh.
    assert (Hm0id : m0 !! nextId w = None) by (by eapply lookup_weaken_None).
    rewrite Hfiles, <- insert_difference' by done.
    rewrite sumSizes_insert; [unfold storedRecord; simpl; lia|].
    apply lookup_difference_None. by left.
Qed.

Lemma turns_total payload batch p w p' w' m0 :
  m0 ⊆ files (store w) ->
  turns payload batch (p, w) (p', w') ->
  UploadRoute.totalUploadedSize p' - UploadRoute.totalUploadedSize p
  = sumSizes (files (store w') ∖ m0) - sumSizes (files (store w) ∖ m0).
Proof.
  intros Hm0 Ht. remember (p, w) as x eqn:Hx. remember (p', w') as z eqn:Hz.
  revert p w Hm0 Hx. induction Ht as [x|file rest x [p1 w1] z Hstep Hrest IH];
    intros p w Hm0 ->.
  - injection Hz as -> ->. lia.
  - pose proof (turn_total _ _ _ _ _ _ _ Hm0 Hstep) as H1.
    apply turn_grows in Hstep as (_ & _ & Hf & _).
    assert (Hm1 : m0 ⊆ files (store w1)) by (by etrans).
    pose proof (IH Hz p1 w1 Hm1 eq_refl) as H2. lia.
Qed.

Lemma backed_grows s s' u :
  files s ⊆ files s' -> dom (bucket s) ⊆ dom (bucket s') -> backed s u -> backed s' u.
Proof.
  intros Hf Hb (record & Hl & Hs & Hn & Hd & Hk). exists record.
  repeat split; try done; [by eapply lookup_weaken|set_solver].
Qed.

(** What a run of the loop adds to the two lists. *)
Lemma turns_lists payload batch p w p' w' :
  turns payload batch (p, w) (p', w') ->
  exists us bs,
    UploadRoute.uploadedFiles p' = UploadRoute.uploadedFiles p ++ us
    /\ UploadRoute.blockedFiles p' = UploadRoute.blockedFiles p ++ bs
    /\ (length us + length bs = length batch)%nat
    /\ UploadRoute.totalUploadedSize p'
       = UploadRoute.totalUploadedSize p + sumZ (UploadedFile.size <$> us)
    /\ Forall (fun u => backed (store w') u
                        /\ files (store w) !! UploadedFile.id u = None) us
    /\ Forall (fun b => BlockedFile.reason b = js "Virus/malware detected"
                        \/ BlockedFile.reason b = js "Upload error") bs
    /\ sublist (UploadedFile.name <$> us) (File.name <$> batch)
    /\ sublist (BlockedFile.name <$> bs) (File.name <$> batch).
Proof.
  intros Ht. remember (p, w) as x eqn:Hx. remember (p', w') as z eqn:Hz.
  revert p w Hx. induction Ht as [x|file rest x [p1 w1] z Hstep Hrest IH];
    intros p w ->.
  - injection Hz as -> ->. exists [], []. rewrite !app_nil_r. simpl.
    repeat split; try done; lia.
  - destruct (IH Hz p1 w1 eq_refl)
      as (us & bs & Hu & Hb & Hlen & Htot & Hbk & Hrs & Hsu & Hsb).
    subst z. pose proof (turns_grows _ _ _ _ _ _ Hrest) as (_ & _ & Hf' & Hb').
    pose proof (turn_grows _ _ _ _ _ _ Hstep) as (_ & _ & Hf1 & Hb1).
    inversion Hstep as [? ? Hscan|? ? ? Hscan [Hrec Hsub]
                       |? ? ? placed t Hscan Hfiles Husers Hlinks Hbucket Hkey]; subst.
    + eexists us, (_ :: bs). rewrite Hu, Hb. simpl. rewrite <- app_assoc. simpl.
      split_and!; try done.
      * lia.
      * constructor; [by left|done].
      * by apply sublist_cons.
      * by apply sublist_skip.
    + eexists us, (_ :: bs). rewrite Hu, Hb. simpl. rewrite <- app_assoc. simpl.
      split_and!; try done.
      * lia.
      * eapply Forall_impl; [exact Hbk|]. intros u [Hbu Hnone]. split; [done|].
        by eapply lookup_weaken_None.
      * constructor; [by right|done].
      * by apply sublist_cons.
      * by apply sublist_skip.
    + eexists (_ :: us), bs. rewrite Hu, Hb, Htot. simpl. rewrite <- app_assoc. simpl.
      split_and!; try done.
      * lia.
      * unfold storedRecord, fmap. simpl. lia.
      * constructor.
        -- split; [|apply nextId_fresh].
           eapply backed_grows; [done..|]. eexists. simpl.
           rewrite Hfiles, lookup_insert_eq. split_and!; try done.
        -- eapply Forall_impl; [exact Hbk|]. intros u [Hbu Hnone]. split; [done|].
           by eapply lookup_weaken_None.
      * by apply sublist_skip.
      * by apply sublist_cons.
Qed.


(** The records a run of the loop creates are those of the entries it
    adds to the summary. *)
Lemma turns_created payload batch p w p' w' :
  turns payload batch (p, w) (p', w') ->
  exists us,
    UploadRoute.uploadedFiles p' = UploadRoute.uploadedFiles p ++ us
    /\ dom (files (store w')) = dom (files (store w)) ∪ list_to_set (UploadedFile.id <$> us).
Proof.
  intros Ht. remember (p, w) as x eqn:Hx. remember (p', w') as z eqn:Hz.
  revert p w Hx. induction Ht as [x|file rest x [p1 w1] z Hstep Hrest IH];
    intros p w ->.
  - injection Hz as -> ->. exists []. rewrite app_nil_r. split; [done|].
    cbn. by rewrite (right_id_L ∅ (∪)).
  - destruct (IH Hz p1 w1 eq_refl) as (us & Hu & Hd). subst z.
    inversion Hstep as [? ? Hscan|? ? ? Hscan [Hrec Hsub]
                       |? ? ? placed t Hscan Hfiles Husers Hlinks Hbucket Hkey]; subst.
    + exists us. by rewrite Hu, Hd.
    + exists us. unfold records in Hrec. injection Hrec as _ Hf _ _.
      by rewrite Hu, Hd, Hf.
    + eexists (_ :: us). rewrite Hu, Hd, Hfiles, dom_insert_L. simpl.
      rewrite <- app_assoc. split; [done|].
      rewrite (assoc_L (∪)), (comm_L (∪) {[nextId w]}). reflexivity.
Qed.

Lemma findById_Returned id w user w0 :
  db.users.findById id w = (Returned (Some user), w0) ->
  store w0 = store w /\ users (store w) !! id = Some user /\ User.isActive user = true.
Proof.
  unfold db.users.findById. rewrite bind_run. unfold gateway.
  destruct (faults w) as [|[] rest]; [|done|].
  all: rewrite bind_run; unfold getStore, mret, M_ret; simpl.
  all: destruct (users (store w) !! id) as [u|] eqn:Hu; [|done].
  all: destruct (User.isActive u) eqn:Ha; [|done].
  all: intros [= <- <-]; done.
Qed.

Lemma updateStorageUsed_run userId storageUsed w :
  (exists e w', db.users.updateStorageUsed userId storageUsed w = (Threw e, w')
                /\ store w' = store w)
  \/ (exists t w', db.users.updateStorageUsed userId storageUsed w = (Returned (), w')
        /\ store w' = withUsers (alter (User.setStorageUsed storageUsed t) userId
                                   (users (store w))) (store w)).
Proof.
  unfold db.users.updateStorageUsed. rewrite bind_run. unfold DateNow, gateway.
  destruct (ticks w) as [|d ticks'], (faults w) as [|[] faults'] eqn:Hf;
    rewrite ?bind_run; simpl; rewrite ?Hf; simpl; eauto 10.
Qed.

(** An authenticated request for a user that is found and with files to
    upload comes to the checks of the batch. *)
Lemma POST_checks request payload user w w0 :
  caller (UploadRoute.cookie request) (UploadRoute.authorization request) = Some payload ->
  db.users.findById (JWTPayload.userId payload) w = (Returned (Some user), w0) ->
  UploadRoute.files request <> [] ->
  UploadRoute.POST request w =
    let validation := fileValidator.validateBatch (UploadRoute.files request) in
    if negb (isValid validation)
    then (Returned (Rejected 400 (js "File validation failed") (Some (errors validation))), w0)
    else if User.storageLimit user <? User.storageUsed user + totalSize (UploadRoute.files request)
    then (Returned (Rejected 413 (js "Storage limit exceeded")
            (Some [js "Total size: " ++ decimal (totalSize (UploadRoute.files request))
                   ++ js " bytes";
                   js "Available: "
                   ++ decimal (User.storageLimit user - User.storageUsed user)
                   ++ js " bytes"])), w0)
    else
      tryCatch
        (p ← UploadRoute.forOf payload (UploadRoute.files request) UploadRoute.initial;
         db.users.updateStorageUsed (JWTPayload.userId payload)
           (User.storageUsed user + UploadRoute.totalUploadedSize p);;
         mret (Ok (UploadRoute.summary (UploadRoute.files request) p)))
        (fun error => mret (Rejected 500 (js "Internal server error") None)) w0.
Proof.
  intros Hc Hu Hne. unfold UploadRoute.POST, caller in *.
  destruct (orElse _ _) as [[|c t]|]; try done.
  rewrite Hc. unfold tryCatch at 1. rewrite bind_run, Hu.
  destruct (UploadRoute.files request) as [|f fs] eqn:Hfiles; [done|].
  cbn [length Nat.eqb]. cbv zeta.
  destruct (negb (isValid _)); [done|].
  destruct (_ <? _); [done|]. reflexivity.
Qed.


End runs.

(** ** The upload route *)

(** C2: an authenticated upload with files in it that fails the validation
    of the batch is answered 400 with the validator's list of errors, which
    is not empty; one that passes validation but whose total size exceeds
    what is left of the quota is answered 413 with the total size and the
    available bytes.  In both cases the store is the one the request found:
    no object written, no record created, storageUsed as it was. *)
Theorem rejected_batch_leaves_store `{Externals} request payload user w w0 :
  caller (UploadRoute.cookie request) (UploadRoute.authorization request) = Some payload ->
  db.users.findById (JWTPayload.userId payload) w = (Returned (Some user), w0) ->
  UploadRoute.files request <> [] ->
  let validation := fileValidator.validateBatch (UploadRoute.files request) in
  let total := totalSize (UploadRoute.files request) in
  (isValid validation = false ->
     UploadRoute.POST request w
     = (Returned (Rejected 400 (js "File validation failed") (Some (errors validation))), w0)
     /\ errors validation <> []
     /\ store w0 = store w)
  /\ (isValid validation = true ->
      User.storageLimit user < User.storageUsed user + total ->
      UploadRoute.POST request w
      = (Returned (Rejected 413 (js "Storage limit exceeded")
           (Some [js "Total size: " ++ decimal total ++ js " bytes";
                  js "Available: "
                  ++ decimal (User.storageLimit user - User.storageUsed user)
                  ++ js " bytes"])), w0)
      /\ store w0 = store w).
Proof.
  intros Hc Hu Hne validation total.
  pose proof (POST_checks request payload user w w0 Hc Hu Hne) as Hpost.
  cbv zeta in Hpost. fold validation total in Hpost.
  apply findById_Returned in Hu as (Hs & _ & _).
  split.
  - intros Hv. rewrite Hv in Hpost. split; [done|]. split; [|done].
    intros He. unfold validation, fileValidator.validateBatch in Hv, He.
    cbn [isValid errors] in Hv, He. rewrite He in Hv. done.
  - intros Hv Hq. rewrite Hv in Hpost. apply Z.ltb_lt in Hq. rewrite Hq in Hpost.
    done.
Qed.

(** C1, as amended: for an authenticated upload that passes validation
    and the quota check, the loop over the files runs to its end and writes
    to no user.  Its running total is the sum of the sizes of the records
    it created, which are the records of the entries of the summary, each
    backed by an object in the bucket; blocked files add nothing to it.
    After the loop one update sets the user's storageUsed, and when the
    request answers with success storageUsed is its value before the batch
    plus that total.  When the database rejects that one update, the
    request is answered 500 and the store stays as the loop left it: the
    records are kept and storageUsed is not raised. *)
Theorem upload_charges_recorded_files `{Externals} request payload user w w0 :
  caller (UploadRoute.cookie request) (UploadRoute.authorization request) = Some payload ->
  db.users.findById (JWTPayload.userId payload) w = (Returned (Some user), w0) ->
  UploadRoute.files request <> [] ->
  isValid (fileValidator.validateBatch (UploadRoute.files request)) = true ->
  User.storageUsed user + totalSize (UploadRoute.files request) <= User.storageLimit user ->
  exists p w1,
    UploadRoute.forOf payload (UploadRoute.files request) UploadRoute.initial w0
      = (Returned p, w1)
    /\ users (store w1) = users (store w)
    /\ UploadRoute.totalUploadedSize p = sumSizes (files (store w1) ∖ files (store w))
    /\ UploadRoute.totalUploadedSize p = sumZ (UploadedFile.size <$> UploadRoute.uploadedFiles p)
    /\ dom (files (store w1))
       = dom (files (store w)) ∪ list_to_set (UploadedFile.id <$> UploadRoute.uploadedFiles p)
    /\ Forall (fun u => backed (store w1) u /\ files (store w) !! UploadedFile.id u = None)
         (UploadRoute.uploadedFiles p)
    /\ ((exists t w',
           UploadRoute.POST request w
             = (Returned (Ok (UploadRoute.summary (UploadRoute.files request) p)), w')
           /\ store w' = withUsers
                (alter (User.setStorageUsed
                          (User.storageUsed user + UploadRoute.totalUploadedSize p) t)
                   (JWTPayload.userId payload) (users (store w1))) (store w1)
           /\ User.storageUsed <$> users (store w') !! JWTPayload.userId payload
              = Some (User.storageUsed user
                      + sumSizes (files (store w') ∖ files (store w))))
        \/ (exists e w',
              db.users.updateStorageUsed (JWTPayload.userId payload)
                (User.storageUsed user + UploadRoute.totalUploadedSize p) w1 = (Threw e, w')
              /\ UploadRoute.POST request w
                 = (Returned (Rejected 500 (js "Internal server error") None), w')
              /\ store w' = store w1)).
Proof.
  intros Hc Hu Hne Hv Hq.
  pose proof (POST_checks request payload user w w0 Hc Hu Hne) as Hpost.
  cbv zeta in Hpost. rewrite Hv in Hpost. cbn [negb] in Hpost.
  apply Z.ltb_ge in Hq. rewrite Hq in Hpost.
  apply findById_Returned in Hu as (Hs & Hlook & _).
  destruct (forOf_turns payload (UploadRoute.files request) UploadRoute.initial w0)
    as (p & w1 & Hloop & Hturns).
  pose proof (turns_grows _ _ _ _ _ _ Hturns) as (Husers & _ & _ & _).
  pose proof (turns_total _ _ _ _ _ _ (files (store w0)) (reflexivity _) Hturns) as Htot.
  rewrite map_difference_diag, sumSizes_empty in Htot. cbn in Htot.
  destruct (turns_lists _ _ _ _ _ _ Hturns)
    as (us & bs & Hus & _ & _ & Hsum & Hbacked & _).
  destruct (turns_created _ _ _ _ _ _ Hturns) as (us' & Hus' & Hdom).
  cbn in Hus, Hus', Hsum. subst us us'. rewrite Hs in *.
  exists p, w1. split_and!; [done|done|lia|lia|done|done|].
  unfold tryCatch in Hpost. rewrite bind_run, Hloop, bind_run in Hpost.
  destruct (updateStorageUsed_run (JWTPayload.userId payload)
              (User.storageUsed user + UploadRoute.totalUploadedSize p) w1)
    as [(e & w' & Hupd & Hst)|(t & w' & Hupd & Hst)]; rewrite Hupd in Hpost.
  - right. exists e, w'. done.
  - left. exists t, w'. split; [done|]. split; [done|].
    rewrite Hst. cbn. rewrite lookup_alter_eq, Husers, Hlook. cbn.
    f_equal. lia.
Qed.

(** Against C1 as worded: an accepted batch of one file, for which the
    lookup of the user, the upload and the insertion of the record go
    through and the update of storageUsed is rejected.  The request is
    answered 500; the record of 10 bytes and its object are stored, and
    storageUsed is still 100, not 110. *)
Lemma accepted_batch_uncharged_when_update_rejected :
  isValid (fileValidator.validateBatch [demo.text "a.txt"]) = true
  /\ User.storageUsed demo.alice + totalSize [demo.text "a.txt"]
     <= User.storageLimit demo.alice
  /\ (UploadRoute.POST (H := demo.externals) (demo.upload [demo.text "a.txt"])
        (demo.world demo.emptyStore [] [false; false; false; true])).1
     = Returned (Rejected 500 (js "Internal server error") None)
  /\ FileRecord.size <$>
       (map_to_list
          (files (store (UploadRoute.POST (H := demo.externals)
                           (demo.upload [demo.text "a.txt"])
                           (demo.world demo.emptyStore [] [false; false; false; true])).2))).*2
     = [10]
  /\ (map_to_list
        (bucket (store (UploadRoute.POST (H := demo.externals)
                          (demo.upload [demo.text "a.txt"])
                          (demo.world demo.emptyStore [] [false; false; false; true])).2))).*1
     = [js "files/1/1000-a.txt"]
  /\ User.storageUsed <$>
       users (store (UploadRoute.POST (H := demo.externals)
                       (demo.upload [demo.text "a.txt"])
                       (demo.world demo.emptyStore [] [false; false; false; true])).2)
         !! 1%N
     = Some 100
  /\ 100 <> User.storageUsed demo.alice + 10.
Proof. vm_compute. repeat split; try reflexivity; discriminate. Qed.

Lemma test_pushes_error file :
  existsb (fun pattern => fileValidator.test pattern (File.name file))
    fileValidator.dangerousPatterns = true ->
  isValid (fileValidator.validateFile file) = false.
Proof.
  intros Ht. unfold fileValidator.validateFile. cbn [isValid]. rewrite Ht.
  apply bool_decide_eq_false. unfold fileValidator.pushIf at 1.
  rewrite length_app. simpl. lia.
Qed.

Lemma forEachFile_invalid batch file index allErrors :
  file ∈ batch ->
  isValid (fileValidator.validateFile file) = false ->
  fileValidator.forEachFile batch index allErrors <> [].
Proof.
  revert index allErrors. induction batch as [|f rest IH]; intros index allErrors Hin Hv.
  - by apply elem_of_nil in Hin.
  - cbn [fileValidator.forEachFile]. apply elem_of_cons in Hin as [<-|Hin].
    + rewrite Hv.
      destruct (forEachFile_extends rest (index + 1) (allErrors ++
        [js "File " ++ decimal (index + 1) ++ js " (" ++ File.name file ++ js "): "
         ++ join (js ", ") (errors (fileValidator.validateFile file))])) as [more ->].
      rewrite <- app_assoc. intros Heq.
      apply app_eq_nil in Heq as [_ Heq]. discriminate.
    + by apply IH.
Qed.

(** A batch with a file whose name ends in .exe, .bat, .cmd or .scr does
    not pass validation. *)
Lemma validateBatch_rejects_denylisted batch file :
  file ∈ batch ->
  existsb (fun pattern => fileValidator.test pattern (File.name file))
    fileValidator.dangerousPatterns = true ->
  isValid (fileValidator.validateBatch batch) = false.
Proof.
  intros Hin Ht. unfold fileValidator.validateBatch. cbn [isValid].
  apply bool_decide_eq_false. intros Hl. apply length_zero_iff_nil in Hl.
  revert Hl. apply (forEachFile_invalid batch file); [done|by apply test_pushes_error].
Qed.

(** The loop over a batch is the loop over its first files followed by the
    loop over the others, from where the first left off; and it always runs
    to its end. *)
Lemma forOf_app `{Externals} payload pre rest p w :
  exists p0 w0,
    UploadRoute.forOf payload pre p w = (Returned p0, w0)
    /\ UploadRoute.forOf payload (pre ++ rest) p w = UploadRoute.forOf payload rest p0 w0.
Proof.
  revert p w. induction pre as [|file pre IH]; intros p w.
  - by exists p, w.
  - cbn [app UploadRoute.forOf]. rewrite !bind_run.
    destruct (iteration_turn payload p file w) as (p1 & w1 & -> & _).
    apply IH.
Qed.

(** C3, as amended: in a batch that was accepted, a file the inline scan
    finds infected is put on the blocked list with the reason
    "Virus/malware detected" and its size, and the world is left untouched;
    a file whose processing, storage or recording throws is put on the
    blocked list with the reason "Upload error", with no record created and
    no user written to; a file that is not infected and whose try block
    does not throw is recorded and put on the list of uploaded files.
    Whatever happened to the files before it, every file of the batch gets
    its own turn of this kind, in the order of submission, and the loop
    goes on with the files after it from there: so every file ends up on
    exactly one of the two lists.  The request then answers with the
    summary of the loop's two lists, whose lengths are uploadedCount and
    blockedCount (or with 500, when the one update of storageUsed after
    the loop is rejected).  A batch of three files whose second is named
    virus.js gives uploadedCount = 2 and blockedCount = 1; so does a batch
    of three files for the first of which the upload to the bucket is
    rejected. *)
Theorem failed_file_does_not_stop_the_batch :
  (forall (E : Externals) (payload : JWTPayload.t),
     (forall p file w,
        scanOf file = infected ->
        UploadRoute.iteration payload p file w
        = (Returned (UploadRoute.pushBlocked
             {| BlockedFile.name := File.name file;
                BlockedFile.reason := js "Virus/malware detected";
                BlockedFile.size := File.size file |} p), w))
     /\ (forall p file w e w1,
           UploadRoute.tryBlock payload file p w = (Threw e, w1) ->
           UploadRoute.iteration payload p file w
           = (Returned (UploadRoute.pushBlocked
                {| BlockedFile.name := File.name file;
                   BlockedFile.reason := js "Upload error";
                   BlockedFile.size := File.size file |} p), w1)
           /\ records (store w1) = records (store w))
     /\ (forall p file w p1 w1,
           scanOf file <> infected ->
           UploadRoute.tryBlock payload file p w = (Returned p1, w1) ->
           UploadRoute.iteration payload p file w = (Returned p1, w1)
           /\ exists placed t,
                p1 = UploadRoute.pushUploaded
                       (UploadRoute.uploadedEntry
                          (nextId w, storedRecord payload file placed t) placed)
                       (File.size file) p
                /\ files (store w1)
                   = <[nextId w := storedRecord payload file placed t]> (files (store w))
                /\ users (store w1) = users (store w)
                /\ UploadRoute.s3Key placed ∈ dom (bucket (store w1)))
     /\ (forall batch p w, exists p' w' us bs,
           UploadRoute.forOf payload batch p w = (Returned p', w')
           /\ UploadRoute.uploadedFiles p' = UploadRoute.uploadedFiles p ++ us
           /\ UploadRoute.blockedFiles p' = UploadRoute.blockedFiles p ++ bs
           /\ (length us + length bs = length batch)%nat
           /\ sublist (UploadedFile.name <$> us) (File.name <$> batch)
           /\ sublist (BlockedFile.name <$> bs) (File.name <$> batch)
           /\ Forall (fun b => BlockedFile.reason b = js "Virus/malware detected"
                               \/ BlockedFile.reason b = js "Upload error") bs)
     /\ (forall pre file rest p w, exists p0 w0 p1 w1,
           UploadRoute.forOf payload pre p w = (Returned p0, w0)
           /\ UploadRoute.iteration payload p0 file w0 = (Returned p1, w1)
           /\ UploadRoute.forOf payload (pre ++ file :: rest) p w
              = UploadRoute.forOf payload rest p1 w1)
     /\ (forall p file rest w,
           (scanOf file = infected ->
            UploadRoute.forOf payload (file :: rest) p w
            = UploadRoute.forOf payload rest
                (UploadRoute.pushBlocked
                   {| BlockedFile.name := File.name file;
                      BlockedFile.reason := js "Virus/malware detected";
                      BlockedFile.size := File.size file |} p) w)
           /\ (forall e w1,
                 UploadRoute.tryBlock payload file p w = (Threw e, w1) ->
                 UploadRoute.forOf payload (file :: rest) p w
                 = UploadRoute.forOf payload rest
                     (UploadRoute.pushBlocked
                        {| BlockedFile.name := File.name file;
                           BlockedFile.reason := js "Upload error";
                           BlockedFile.size := File.size file |} p) w1)
           /\ (forall p1 w1,
                 UploadRoute.tryBlock payload file p w = (Returned p1, w1) ->
                 UploadRoute.forOf payload (file :: rest) p w
                 = UploadRoute.forOf payload rest p1 w1))
     /\ (forall batch p,
           UploadSummary.uploadedCount (UploadRoute.summary batch p)
           = Z.of_nat (length (UploadRoute.uploadedFiles p))
           /\ UploadSummary.blockedCount (UploadRoute.summary batch p)
              = Z.of_nat (length (UploadRoute.blockedFiles p))
           /\ UploadSummary.blockedFiles (UploadRoute.summary batch p)
              = UploadRoute.blockedFiles p)
     /\ (forall request user w w0,
           caller (UploadRoute.cookie request) (UploadRoute.authorization request)
           = Some payload ->
           db.users.findById (JWTPayload.userId payload) w = (Returned (Some user), w0) ->
           UploadRoute.files request <> [] ->
           isValid (fileValidator.validateBatch (UploadRoute.files request)) = true ->
           User.storageUsed user + totalSize (UploadRoute.files request)
           <= User.storageLimit user ->
           exists p w1 out w',
             UploadRoute.forOf payload (UploadRoute.files request) UploadRoute.initial w0
             = (Returned p, w1)
             /\ db.users.updateStorageUsed (JWTPayload.userId payload)
                  (User.storageUsed user + UploadRoute.totalUploadedSize p) w1 = (out, w')
             /\ UploadRoute.POST request w
                = (Returned
                     match out with
                     | Returned _ => Ok (UploadRoute.summary (UploadRoute.files request) p)
                     | Threw _ => Rejected 500 (js "Internal server error") None
                     end, w')))
  /\ match (UploadRoute.POST (H := demo.externals)
              (demo.upload [demo.text "a.txt"; demo.text "virus.js"; demo.text "b.txt"])
              (demo.world demo.emptyStore [] [])).1 with
     | Returned (Ok s) =>
         UploadSummary.uploadedCount s = 2
         /\ UploadSummary.blockedCount s = 1
         /\ UploadSummary.blockedFiles s
            = [{| BlockedFile.name := js "virus.js";
                  BlockedFile.reason := js "Virus/malware detected";
                  BlockedFile.size := 10 |}]
     | _ => False
     end
  /\ match (UploadRoute.POST (H := demo.externals)
              (demo.upload [demo.text "a.txt"; demo.text "b.txt"; demo.text "c.txt"])
              (demo.world demo.emptyStore [] [false; true])).1 with
     | Returned (Ok s) =>
         UploadSummary.uploadedCount s = 2
         /\ UploadSummary.blockedCount s = 1
         /\ UploadSummary.blockedFiles s
            = [{| BlockedFile.name := js "a.txt";
                  BlockedFile.reason := js "Upload error";
                  BlockedFile.size := 10 |}]
         /\ UploadedFile.name <$> UploadSummary.files s = [js "b.txt"; js "c.txt"]
     | _ => False
     end.
Proof.
  split; [|split; vm_compute; repeat split; reflexivity].
  intros E payload. split_and!.
  - intros p file w Hscan. unfold UploadRoute.iteration, tryCatch.
    destruct (tryBlock_run payload p file w)
      as [[_ ->]|[[Hn _]|[Hn _]]]; done.
  - intros p file w e w1 Hthrew. unfold UploadRoute.iteration, tryCatch.
    rewrite Hthrew. split; [done|].
    destruct (tryBlock_run payload p file w)
      as [[_ Hr]|[[_ (e' & w' & Hr & Hadds & _)]|[_ (placed & t & w' & Hr & _)]]];
      rewrite Hthrew in Hr; [done| |done].
    by injection Hr as _ <-.
  - intros p file w p1 w1 Hscan Hret. unfold UploadRoute.iteration, tryCatch.
    rewrite Hret. split; [done|].
    destruct (tryBlock_run payload p file w)
      as [[Hi _]|[[_ (e' & w' & Hr & _)]
         |[_ (placed & t & w' & Hr & Hf & Hu & _ & _ & Hk)]]];
      [done|rewrite Hret in Hr; done|].
    rewrite Hret in Hr. injection Hr as -> ->. by exists placed, t.
  - intros batch p w.
    destruct (forOf_turns payload batch p w) as (p' & w' & Hloop & Hturns).
    destruct (turns_lists _ _ _ _ _ _ Hturns)
      as (us & bs & Hus & Hbs & Hlen & _ & _ & Hreasons & Hsu & Hsb).
    exists p', w', us, bs. done.
  - intros pre file rest p w.
    destruct (forOf_app payload pre (file :: rest) p w) as (p0 & w0 & Hpre & Happ).
    destruct (iteration_turn payload p0 file w0) as (p1 & w1 & Hit & _).
    exists p0, w0, p1, w1. split; [done|]. split; [done|].
    rewrite Happ. cbn [UploadRoute.forOf]. by rewrite bind_run, Hit.
  - intros p file rest w. cbn [UploadRoute.forOf]. rewrite bind_run.
    unfold UploadRoute.iteration, tryCatch. split_and!.
    + intros Hscan.
      destruct (tryBlock_run payload p file w) as [[_ ->]|[[Hn _]|[Hn _]]]; done.
    + intros e w1 ->. done.
    + intros p1 w1 ->. done.
  - done.
  - intros request user w w0 Hc Hu Hne Hv Hq.
    pose proof (POST_checks request payload user w w0 Hc Hu Hne) as Hpost.
    cbv zeta in Hpost. rewrite Hv in Hpost. cbn [negb] in Hpost.
    apply Z.ltb_ge in Hq. rewrite Hq in Hpost.
    destruct (forOf_turns payload (UploadRoute.files request) UploadRoute.initial w0)
      as (p & w1 & Hloop & _).
    destruct (db.users.updateStorageUsed (JWTPayload.userId payload)
                (User.storageUsed user + UploadRoute.totalUploadedSize p) w1)
      as [out w'] eqn:Hupd.
    exists p, w1, out, w'. split; [done|]. split; [done|].
    rewrite Hpost. unfold tryCatch. rewrite bind_run, Hloop, bind_run, Hupd.
    by destruct out as [[]|e].
Qed.

(** Against C3 as worded: the batch of its scenario, with a file named
    virus.exe, does not come as far as the scanner; batch validation rejects
    it as a whole with status 400, so no summary with uploadedCount = 2 and
    blockedCount = 1 is returned. *)
Lemma batch_with_virus_exe_is_rejected :
  (UploadRoute.POST (H := demo.externals)
     (demo.upload [demo.text "a.txt"; demo.text "virus.exe"; demo.text "b.txt"])
     (demo.world demo.emptyStore [] [])).1
  = Returned (Rejected 400 (js "File validation failed")
      (Some [js "File 2 (virus.exe): File type is not allowed for security reasons"]))
  /\ ~ (exists s,
          (UploadRoute.POST (H := demo.externals)
             (demo.upload [demo.text "a.txt"; demo.text "virus.exe"; demo.text "b.txt"])
             (demo.world demo.emptyStore [] [])).1 = Returned (Ok s)
          /\ UploadSummary.uploadedCount s = 2 /\ UploadSummary.blockedCount s = 1).
Proof.
  assert (Hrun : (UploadRoute.POST (H := demo.externals)
     (demo.upload [demo.text "a.txt"; demo.text "virus.exe"; demo.text "b.txt"])
     (demo.world demo.emptyStore [] [])).1
  = Returned (Rejected 400 (js "File validation failed")
      (Some [js "File 2 (virus.exe): File type is not allowed for security reasons"])))
    by (vm_compute; reflexivity).
  split; [exact Hrun|]. intros (s & Hs & _). rewrite Hrun in Hs. discriminate.
Qed.

Lemma rejected_batch_leaves_store_witness :
  (UploadRoute.POST (H := demo.externals)
     (demo.upload [demo.text "a.txt"; demo.text "virus.exe"])
     (demo.world demo.emptyStore [] [])).2
  = demo.world demo.emptyStore [] [].
Proof.
  pose proof (proj1 (rejected_batch_leaves_store (H := demo.externals)
    (demo.upload [demo.text "a.txt"; demo.text "virus.exe"])
    demo.alicePayload demo.alice
    (demo.world demo.emptyStore [] []) (demo.world demo.emptyStore [] [])
    ltac:(vm_compute; reflexivity) ltac:(vm_compute; reflexivity) ltac:(discriminate))
    ltac:(vm_compute; reflexivity)) as [Hpost _].
  by rewrite Hpost.
Defined.

Lemma upload_charges_recorded_files_witness :
  exists p w1,
    UploadRoute.forOf (H := demo.externals) demo.alicePayload
      [demo.text "a.txt"; demo.text "virus.js"; demo.picture] UploadRoute.initial
      (demo.world demo.emptyStore [0; 1]%N [])
    = (Returned p, w1)
    /\ UploadRoute.totalUploadedSize p = sumSizes (files (store w1) ∖ ∅).
Proof.
  destruct (upload_charges_recorded_files (H := demo.externals)
    (demo.upload [demo.text "a.txt"; demo.text "virus.js"; demo.picture])
    demo.alicePayload demo.alice
    (demo.world demo.emptyStore [0; 1]%N []) (demo.world demo.emptyStore [0; 1]%N [])
    ltac:(vm_compute; reflexivity) ltac:(vm_compute; reflexivity) ltac:(discriminate)
    ltac:(vm_compute; reflexivity) ltac:(vm_compute; discriminate))
    as (p & w1 & Hloop & _ & Htot & _).
  exists p, w1. split; [exact Hloop|exact Htot].
Defined.

(** ** Thumbnail keys *)

Lemma splitOn_without sep s : sep ∉ s -> splitOn sep s = [s].
Proof.
  induction s as [|c r IH]; intros Hs; simpl; [done|].
  apply not_elem_of_cons in Hs as [Hc Hr].
  destruct (N.eqb_spec c sep) as [->|_]; [done|]. by rewrite (IH Hr).
Qed.

Lemma splitOn_app sep a b :
  sep ∉ a -> splitOn sep (a ++ sep :: b) = a :: splitOn sep b.
Proof.
  induction a as [|c r IH]; intros Ha; simpl.
  - by rewrite N.eqb_refl.
  - apply not_elem_of_cons in Ha as [Hc Hr].
    destruct (N.eqb_spec c sep) as [->|_]; [done|]. by rewrite (IH Hr).
Qed.

Lemma digits_without_slash d : SLASH ∉ js (NilEmpty.string_of_uint d).
Proof.
  unfold js. induction d; simpl; rewrite ?not_elem_of_cons;
    try (split; [done|assumption]). apply not_elem_of_nil.
Qed.

Lemma decimal_without_slash z : SLASH ∉ decimal z.
Proof.
  unfold decimal, NilZero.string_of_int, NilZero.string_of_uint.
  destruct (Z.to_int z) as [d|d]; destruct d;
    try apply digits_without_slash;
    try (unfold js; simpl; rewrite ?not_elem_of_cons; repeat split; try done;
         first [apply not_elem_of_nil | apply digits_without_slash]).
Qed.

Lemma sanitizeFileName_without_slash fileName : SLASH ∉ sanitizeFileName fileName.
Proof.
  unfold sanitizeFileName. induction fileName as [|c r IH]; simpl.
  - apply not_elem_of_nil.
  - apply not_elem_of_cons. split; [|done].
    destruct (keyUnit c) eqn:Hk; [|done]. intros <-. done.
Qed.

(** getThumbnailKey, given the key generateS3Key built at some reading of
    the clock, builds the thumbnail key with that same timestamp. *)
Lemma getThumbnailKey_s3KeyAt timestamp userId fileName :
  SLASH ∉ userId ->
  getThumbnailKey (s3KeyAt timestamp userId fileName fileKey)
  = js "thumbnails/" ++ userId ++ js "/thumb-" ++ decimal timestamp ++ js "-"
    ++ sanitizeFileName fileName.
Proof.
  intros Hu. unfold getThumbnailKey, s3KeyAt.
  change (js "/") with [SLASH]. cbn [app].
  rewrite (splitOn_app SLASH (js "files"))
    by (apply (bool_decide_unpack (SLASH ∉ js "files")); vm_compute; exact I).
  rewrite (splitOn_app SLASH userId) by done.
  rewrite splitOn_without.
  - done.
  - rewrite !not_elem_of_app. split_and!.
    + apply decimal_without_slash.
    + apply (bool_decide_unpack (SLASH ∉ js "-")). vm_compute. exact I.
    + apply sanitizeFileName_without_slash.
Qed.

(** C6: processImage stamps the thumbnail key with one reading of the clock
    and uploadProcessedFile stamps the key of the original with a later
    one.  Two uploads of the same picture that store the original under the
    same key store the thumbnail under different keys, according to when
    the clock ticked; only in the second is the thumbnail under the key
    getThumbnailKey derives from the key of the original. *)
Theorem thumbnail_key_has_its_own_timestamp :
  demo.pictureKeys [0; 1]%N
  = Some (js "files/1/1001-p.png", [js "thumbnails/1/thumb-1000-p.png"])
  /\ demo.pictureKeys [1; 0]%N
     = Some (js "files/1/1001-p.png", [js "thumbnails/1/thumb-1001-p.png"])
  /\ getThumbnailKey (js "files/1/1001-p.png") = js "thumbnails/1/thumb-1001-p.png".
Proof. vm_compute. repeat split; reflexivity. Qed.

(** C4: with the clock at 1000 and a link that expired at 500, resolve and
    download answer 410, but verify answers success: it never looks at
    expiresAt. *)
Theorem verify_answers_for_expired_link :
  let w := demo.world (demo.sharedStore VirusScanStatus.clean (Some 500)) [] [] in
  now w = 1000
  /\ (ShareLink.expiresAt <$> shareLinks (store w) !! 7%N) = Some (Some 500)
  /\ (SharedVerifyRoute.POST (H := demo.externals) demo.shareRequest w).1
     = Returned (Ok true)
  /\ (SharedRoute.GET 7%N w).1
     = Returned (Rejected 410 (js "Share link has expired") None)
  /\ (SharedDownloadRoute.POST (H := demo.externals) demo.shareRequest w).1
     = Returned (Rejected 410 (js "Share link has expired") None).
Proof. vm_compute. repeat split; reflexivity. Qed.

(** C5: for a file whose virusScanStatus is infected the owner's download
    answers 403, but the download through a share link serves the content:
    it never looks at virusScanStatus. *)
Theorem shared_download_serves_infected_file :
  let w := demo.world (demo.sharedStore VirusScanStatus.infected None) [] [] in
  (FileRecord.virusScanStatus <$> files (store w) !! 5%N) = Some VirusScanStatus.infected
  /\ (SharedDownloadRoute.POST (H := demo.externals) demo.shareRequest w).1
     = Returned (Ok {| ServedContent.body := js "File content would be served here";
                       ServedContent.contentType := js "application/pdf";
                       ServedContent.contentDisposition :=
                         js "attachment; filename=" ++ [34%N] ++ js "report.pdf" ++ [34%N];
                       ServedContent.contentLength := js "40" |})
  /\ (FileDownloadRoute.GET (H := demo.externals) demo.ownerDownload w).1
     = Returned (Rejected 403 (js "File is infected and cannot be downloaded") None).
Proof. vm_compute. repeat split; reflexivity. Qed.

(** ** Share links and downloads *)

(** What a lookup by id answers: the document, a miss, or a rejection; the
    store and the clock stay as they are. *)
Lemma shareLinks_findById_run id w :
  exists out w', db.shareLinks.findById id w = (out, w')
    /\ store w' = store w /\ now w' = now w /\ ticks w' = ticks w
    /\ match out with
       | Returned (Some d) =>
           d.1 = id /\ shareLinks (store w) !! id = Some d.2
           /\ ShareLink.isActive d.2 = true
       | Returned None =>
           forall link, shareLinks (store w) !! id = Some link ->
                        ShareLink.isActive link = false
       | Threw _ => True
       end.
Proof.
  unfold db.shareLinks.findById. rewrite bind_run. unfold gateway.
  destruct (faults w) as [|[] rest]; rewrite ?bind_run; unfold getStore, mret, M_ret;
    cbn [store now ticks].
  2: { eexists _, _. repeat split; done. }
  all: destruct (shareLinks (store w) !! id) as [link|] eqn:Hl;
    [destruct (ShareLink.isActive link) eqn:Ha|];
    eexists _, _; (split; [reflexivity|]); repeat split; try done.
  all: intros link' [= <-]; done.
Qed.

Lemma files_findById_run id w :
  exists out w', db.files.findById id w = (out, w')
    /\ store w' = store w
    /\ match out with
       | Returned (Some d) =>
           d.1 = id /\ files (store w) !! id = Some d.2
           /\ FileRecord.isDeleted d.2 = false
       | Returned None =>
           forall file, files (store w) !! id = Some file ->
                        FileRecord.isDeleted file = true
       | Threw _ => True
       end.
Proof.
  unfold db.files.findById. rewrite bind_run. unfold gateway.
  destruct (faults w) as [|[] rest]; rewrite ?bind_run; unfold getStore, mret, M_ret;
    cbn [store].
  2: { eexists _, _. repeat split; done. }
  all: destruct (files (store w) !! id) as [file|] eqn:Hl;
    [destruct (FileRecord.isDeleted file) eqn:Ha|];
    eexists _, _; (split; [reflexivity|]); repeat split; try done.
  all: intros file' [= <-]; done.
Qed.

(** The check of the expiry, on a link that expired before the clock's
    present reading. *)
Lemma expired_in_the_past link t w :
  ShareLink.expiresAt link = Some t -> t < now w ->
  exists w', expired link w = (Returned true, w') /\ store w' = store w.
Proof.
  intros He Ht. unfold expired. rewrite He, bind_run. unfold DateNow.
  destruct (ticks w) as [|d rest]; unfold mret, M_ret.
  - exists w. by rewrite (proj2 (Z.ltb_lt _ _) Ht).
  - eexists. rewrite (proj2 (Z.ltb_lt t (now w + Z.of_N d))) by lia. done.
Qed.

Lemma expired_run link w :
  exists b w', expired link w = (Returned b, w') /\ store w' = store w.
Proof.
  unfold expired. destruct (ShareLink.expiresAt link) as [t|]; [|by eexists _, _].
  rewrite bind_run. unfold DateNow. destruct (ticks w); by eexists _, _.
Qed.

(** Resolving a link that has expired never yields the file. *)
Lemma expired_link_is_not_resolved shareId link t w body :
  shareLinks (store w) !! shareId = Some link ->
  ShareLink.expiresAt link = Some t -> t < now w ->
  (SharedRoute.GET shareId w).1 <> Returned (Ok body).
Proof.
  intros Hl He Ht. unfold SharedRoute.GET, tryCatch. rewrite bind_run.
  destruct (shareLinks_findById_run shareId w)
    as ([[d|]|e] & w1 & -> & Hs & Hn & Hk & Hd); [|done..].
  destruct Hd as (_ & Hd & _). rewrite Hl in Hd. injection Hd as ->.
  rewrite bind_run.
  destruct (expired_in_the_past d.2 t w1 He) as (w2 & -> & _); [lia|]. done.
Qed.

(** Nor does the download through it. *)
Lemma expired_link_does_not_download `{Externals} request link t w body :
  shareLinks (store w) !! ShareRequest.shareId request = Some link ->
  ShareLink.expiresAt link = Some t -> t < now w ->
  (SharedDownloadRoute.POST request w).1 <> Returned (Ok body).
Proof.
  intros Hl He Ht. unfold SharedDownloadRoute.POST, tryCatch. rewrite bind_run.
  destruct (shareLinks_findById_run (ShareRequest.shareId request) w)
    as ([[d|]|e] & w1 & -> & Hs & Hn & Hk & Hd); [|done..].
  destruct Hd as (_ & Hd & _). rewrite Hl in Hd. injection Hd as ->.
  destruct (_ && _); [done|]. destruct (negb _); [done|].
  rewrite bind_run.
  destruct (expired_in_the_past d.2 t w1 He) as (w2 & -> & _); [lia|]. done.
Qed.

(** The owner's download refuses an infected file. *)
Lemma owner_download_refuses_infected `{Externals} request file w body :
  files (store w) !! FileDownloadRoute.id request = Some file ->
  FileRecord.virusScanStatus file = VirusScanStatus.infected ->
  (FileDownloadRoute.GET request w).1 <> Returned (Ok body).
Proof.
  intros Hf Hi. unfold FileDownloadRoute.GET, tryCatch.
  destruct (orElse _ _) as [[|c t]|]; [done| |done].
  destruct (verifyToken _) as [payload|]; [|done].
  rewrite bind_run.
  destruct (files_findById_run (FileDownloadRoute.id request) w)
    as ([[d|]|e] & w1 & -> & Hs & Hd); [|done..].
  destruct Hd as (_ & Hd & _). rewrite Hf in Hd. injection Hd as ->.
  destruct (negb _); [done|]. rewrite Hi. done.
Qed.

(** ** Soft delete *)

Lemma limitDocs_subseteq limit l : db.files.limitDocs limit l ⊆ l.
Proof. unfold db.files.limitDocs. destruct (limit =? 0); [done|apply subseteq_take]. Qed.

Lemma newestFirst_subseteq l : db.files.newestFirst l ⊆ l.
Proof.
  unfold db.files.newestFirst. intros d Hd.
  by rewrite merge_sort_Permutation in Hd.
Qed.

Lemma skipDocs_Returned skip l w r w' :
  db.files.skipDocs skip l w = (Returned r, w') -> r ⊆ l.
Proof.
  unfold db.files.skipDocs. destruct skip as [n|]; [|by intros [= <- _]].
  destruct (n =? 0); [by intros [= <- _]|].
  destruct (n <? 0); [done|]. intros [= <- _]. apply subseteq_drop.
Qed.

Lemma findById_live id w r w' :
  db.files.findById id w = (Returned r, w') ->
  match r with Some d => d.1 = id /\ live (files (store w)) d | None => True end.
Proof.
  unfold db.files.findById. rewrite bind_run. unfold gateway.
  destruct (faults w) as [|[] rest]; [|done|].
  all: rewrite bind_run; unfold getStore, mret, M_ret; cbn [store].
  all: destruct (files (store w) !! id) as [file|] eqn:Hl; [|by intros [= <- _]].
  all: destruct (FileRecord.isDeleted file) eqn:Hd; intros [= <- _]; done.
Qed.

Lemma findByS3Key_live s3Key w r w' :
  db.files.findByS3Key s3Key w = (Returned r, w') ->
  match r with
  | Some d => FileRecord.s3Key d.2 = s3Key /\ live (files (store w)) d
  | None => True
  end.
Proof.
  unfold db.files.findByS3Key. rewrite bind_run. unfold gateway.
  assert (Hfind : forall m : gmap ObjectId FileRecord.t,
    match snd <$> list_find (fun d : db.files.document =>
            FileRecord.s3Key d.2 = s3Key /\ FileRecord.isDeleted d.2 = false)
            (map_to_list m) with
    | Some d => FileRecord.s3Key d.2 = s3Key /\ live m d
    | None => True
    end).
  { intros m. destruct (list_find _ _) as [[i d]|] eqn:Hf; [|done]. cbn.
    apply list_find_Some in Hf as (Hi & [Hk Hd] & _).
    split; [done|]. split; [|done].
    apply list_elem_of_lookup_2 in Hi. destruct d as [k v].
    by apply elem_of_map_to_list in Hi. }
  destruct (faults w) as [|[] rest]; [|done|].
  all: rewrite bind_run; unfold getStore, mret, M_ret; cbn [store].
  all: intros [= <- _]; apply Hfind.
Qed.

Lemma findByUserId_live userId limit skip w r w' :
  db.files.findByUserId userId limit skip w = (Returned r, w') ->
  Forall (fun d => FileRecord.userId d.2 = userId /\ live (files (store w)) d) r.
Proof.
  unfold db.files.findByUserId. rewrite bind_run. unfold gateway.
  assert (Hall : forall w0 : World, store w0 = store w ->
    (s ← getStore;
     skipped ← db.files.skipDocs skip
       (db.files.newestFirst
          (filter (fun d : db.files.document =>
             FileRecord.userId d.2 = userId /\ FileRecord.isDeleted d.2 = false)
             (map_to_list (files s))));
     mret (db.files.limitDocs (default 0 limit) skipped)) w0 = (Returned r, w') ->
    Forall (fun d => FileRecord.userId d.2 = userId /\ live (files (store w)) d) r).
  { intros w0 Hs. rewrite bind_run. unfold getStore. rewrite bind_run.
    destruct (db.files.skipDocs _ _ _) as [[skipped|e] w2] eqn:Hskip; [|done].
    intros [= <- _]. apply skipDocs_Returned in Hskip.
    apply Forall_forall. intros [k v] Hd.
    apply limitDocs_subseteq, Hskip, newestFirst_subseteq in Hd.
    apply list_elem_of_filter in Hd as [[Hu Hdel] Hd].
    apply elem_of_map_to_list in Hd. rewrite Hs in Hd. done. }
  destruct (faults w) as [|[] rest]; [|done|]; by apply Hall.
Qed.

Lemma search_live `{Externals} userId query limit w r w' :
  db.files.search userId query limit w = (Returned r, w') ->
  Forall (fun d => FileRecord.userId d.2 = userId /\ live (files (store w)) d) r.
Proof.
  unfold db.files.search. destruct (regExp query) as [matches|]; [|done].
  rewrite bind_run. unfold gateway.
  destruct (faults w) as [|[] rest]; [|done|].
  all: rewrite bind_run; unfold getStore, mret, M_ret; cbn [store].
  all: intros [= <- _]; apply Forall_forall; intros [k v] Hd.
  all: apply limitDocs_subseteq, newestFirst_subseteq in Hd.
  all: apply list_elem_of_filter in Hd as [(Hu & Hdel & _) Hd].
  all: by apply elem_of_map_to_list in Hd.
Qed.

Lemma delete_Returned id w deleted w1 :
  db.files.delete id w = (Returned deleted, w1) ->
  exists t, store w1 = withFiles (alter (FileRecord.setDeleted t) id (files (store w)))
                         (store w).
Proof.
  unfold db.files.delete. rewrite bind_run. unfold DateNow, gateway.
  destruct (ticks w) as [|d ticks'], (faults w) as [|[] faults'] eqn:Hf;
    rewrite ?bind_run; simpl; rewrite ?Hf; simpl; try done.
  all: intros [= _ <-]; eexists; reflexivity.
Qed.

(** The time db.files.delete stamps the document with is the clock's
    reading at the call. *)
Lemma delete_Returned_at id w deleted w1 :
  db.files.delete id w = (Returned deleted, w1) ->
  exists t w0,
    DateNow w = (Returned t, w0) /\ now w <= t
    /\ store w1 = withFiles (alter (FileRecord.setDeleted t) id (files (store w)))
                    (store w).
Proof.
  unfold db.files.delete. rewrite bind_run. unfold DateNow, gateway.
  destruct (ticks w) as [|d ticks'], (faults w) as [|[] faults'] eqn:Hf;
    rewrite ?bind_run; simpl; rewrite ?Hf; simpl; try done.
  all: intros [= _ <-]; eexists _, _; (split; [reflexivity|]); split; [lia|reflexivity].
Qed.

Lemma live_not_deleted t id m d :
  live (alter (FileRecord.setDeleted t) id m) d -> d.1 <> id.
Proof.
  intros [Hl Hd] Heq. rewrite Heq, lookup_alter_eq in Hl.
  destruct (m !! id) as [file|]; [|done]. cbn in Hl. injection Hl as Hl.
  rewrite <- Hl in Hd. done.
Qed.

(** C10: after db.files.delete has answered, the document is still in the
    collection: it is flagged with isDeleted = true, its deletedAt is the
    reading of the clock at the call, and every other field is as it was;
    no other document, no user, no share link, no object and no timer is
    touched.  As long as the collection stays as it is no read hands the
    document out: findById answers null for its id, and findByS3Key,
    findByUserId and search only return documents with isDeleted = false
    and another id.  So the owner's read and download of that id, and the
    resolution and the download of a share link to it, do not answer with
    the file. *)
Theorem soft_deleted_record_is_out_of_reach `{Externals} id w deleted w1 :
  db.files.delete id w = (Returned deleted, w1) ->
  (forall file, files (store w) !! id = Some file ->
     exists t, files (store w1) !! id = Some (FileRecord.setDeleted t file))
  /\ dom (files (store w1)) = dom (files (store w))
  /\ (forall w2, files (store w2) = files (store w1) ->
       (forall r w3, db.files.findById id w2 = (Returned r, w3) -> r = None)
       /\ (forall s3Key r w3,
             db.files.findByS3Key s3Key w2 = (Returned r, w3) ->
             match r with
             | Some d => d.1 <> id /\ FileRecord.isDeleted d.2 = false
             | None => True
             end)
       /\ (forall userId limit skip r w3,
             db.files.findByUserId userId limit skip w2 = (Returned r, w3) ->
             Forall (fun d => d.1 <> id /\ FileRecord.isDeleted d.2 = false) r)
       /\ (forall userId query limit r w3,
             db.files.search userId query limit w2 = (Returned r, w3) ->
             Forall (fun d => d.1 <> id /\ FileRecord.isDeleted d.2 = false) r)
       /\ (forall request body,
             FileRoute.id request = id ->
             (FileRoute.GET request w2).1 <> Returned (Ok body))
       /\ (forall request body,
             FileDownloadRoute.id request = id ->
             (FileDownloadRoute.GET request w2).1 <> Returned (Ok body))
       /\ (forall shareId link body,
             shareLinks (store w2) !! shareId = Some link ->
             ShareLink.fileId link = id ->
             (SharedRoute.GET shareId w2).1 <> Returned (Ok body))
       /\ (forall request link body,
             shareLinks (store w2) !! ShareRequest.shareId request = Some link ->
             ShareLink.fileId link = id ->
             (SharedDownloadRoute.POST request w2).1 <> Returned (Ok body)))
  /\ (exists t w0,
        DateNow w = (Returned t, w0)
        /\ forall file, files (store w) !! id = Some file ->
             exists kept,
               files (store w1) !! id = Some kept
               /\ FileRecord.isDeleted kept = true
               /\ FileRecord.deletedAt kept = Some t
               /\ FileRecord.userId kept = FileRecord.userId file
               /\ FileRecord.name kept = FileRecord.name file
               /\ FileRecord.originalName kept = FileRecord.originalName file
               /\ FileRecord.size kept = FileRecord.size file
               /\ FileRecord.type kept = FileRecord.type file
               /\ FileRecord.s3Key kept = FileRecord.s3Key file
               /\ FileRecord.s3Location kept = FileRecord.s3Location file
               /\ FileRecord.uploadedAt kept = FileRecord.uploadedAt file
               /\ FileRecord.lastModified kept = FileRecord.lastModified file
               /\ FileRecord.lastAccessedAt kept = FileRecord.lastAccessedAt file
               /\ FileRecord.isShared kept = FileRecord.isShared file
               /\ FileRecord.shareSettings kept = FileRecord.shareSettings file
               /\ FileRecord.metadata kept = FileRecord.metadata file
               /\ FileRecord.virusScanStatus kept = FileRecord.virusScanStatus file
               /\ FileRecord.tags kept = FileRecord.tags file)
  /\ (forall other, other <> id -> files (store w1) !! other = files (store w) !! other)
  /\ users (store w1) = users (store w)
  /\ shareLinks (store w1) = shareLinks (store w)
  /\ bucket (store w1) = bucket (store w)
  /\ timers (store w1) = timers (store w).
Proof.
  intros Hdel. apply delete_Returned_at in Hdel as (t & w0 & Hnow & _ & Hs).
  assert (Hfiles : files (store w1) = alter (FileRecord.setDeleted t) id (files (store w)))
    by (by rewrite Hs).
  split; [|split; [|split; [|split; [|split]]]].
  4: { exists t, w0. split; [done|]. intros file Hf.
       exists (FileRecord.setDeleted t file).
       rewrite Hfiles, lookup_alter_eq, Hf. split_and!; reflexivity. }
  4: { intros other Hne. by rewrite Hfiles, lookup_alter_ne. }
  4: { by rewrite Hs. }
  - intros file Hf. exists t. by rewrite Hfiles, lookup_alter_eq, Hf.
  - by rewrite Hfiles, dom_alter_L.
  - intros w2 Hw2. rewrite Hfiles in Hw2.
    assert (Hgone : forall r w3, db.files.findById id w2 = (Returned r, w3) -> r = None).
    { intros r w3 Hr. apply findById_live in Hr. destruct r as [d|]; [|done].
      destruct Hr as [Hid Hlive]. rewrite Hw2 in Hlive.
      by apply live_not_deleted in Hlive. }
    split_and!.
    + exact Hgone.
    + intros s3Key r w3 Hr. apply findByS3Key_live in Hr.
      destruct r as [d|]; [|done]. destruct Hr as [_ Hlive]. rewrite Hw2 in Hlive.
      split; [by eapply live_not_deleted|apply Hlive].
    + intros userId limit skip r w3 Hr. apply findByUserId_live in Hr.
      eapply Forall_impl; [exact Hr|]. intros d [_ Hlive]. rewrite Hw2 in Hlive.
      split; [by eapply live_not_deleted|apply Hlive].
    + intros userId query limit r w3 Hr. apply search_live in Hr.
      eapply Forall_impl; [exact Hr|]. intros d [_ Hlive]. rewrite Hw2 in Hlive.
      split; [by eapply live_not_deleted|apply Hlive].
    + intros request body <-. unfold FileRoute.GET, tryCatch.
      destruct (orElse _ _) as [[|c tk]|]; [done| |done].
      destruct (verifyToken _) as [payload|]; [|done].
      rewrite bind_run.
      destruct (db.files.findById _ w2) as [[r|e] w3] eqn:Hr; [|done].
      by rewrite (Hgone r w3 eq_refl).
    + intros request body <-. unfold FileDownloadRoute.GET, tryCatch.
      destruct (orElse _ _) as [[|c tk]|]; [done| |done].
      destruct (verifyToken _) as [payload|]; [|done].
      rewrite bind_run.
      destruct (db.files.findById _ w2) as [[r|e] w3] eqn:Hr; [|done].
      by rewrite (Hgone r w3 eq_refl).
    + intros shareId link body Hl <-. unfold SharedRoute.GET, tryCatch.
      rewrite bind_run.
      destruct (shareLinks_findById_run shareId w2)
        as ([[d|]|e] & w3 & -> & Hs3 & _ & _ & Hd); [|done..].
      destruct Hd as (_ & Hd & _). rewrite Hl in Hd. injection Hd as ->.
      rewrite bind_run.
      destruct (expired_run d.2 w3) as (b & w4 & -> & Hs4).
      destruct b; [done|]. rewrite bind_run.
      destruct (db.files.findById _ w4) as [[r|e] w5] eqn:Hr; [|done].
      apply findById_live in Hr. destruct r as [f|]; [|done].
      destruct Hr as [Hid Hlive]. rewrite Hs4, Hs3, Hw2 in Hlive.
      by apply live_not_deleted in Hlive.
    + intros request link body Hl <-. unfold SharedDownloadRoute.POST, tryCatch.
      rewrite bind_run.
      destruct (shareLinks_findById_run (ShareRequest.shareId request) w2)
        as ([[d|]|e] & w3 & -> & Hs3 & _ & _ & Hd); [|done..].
      destruct Hd as (_ & Hd & _). rewrite Hl in Hd. injection Hd as ->.
      destruct (_ && _); [done|]. destruct (negb _); [done|].
      rewrite bind_run.
      destruct (expired_run d.2 w3) as (b & w4 & -> & Hs4).
      destruct b; [done|]. rewrite bind_run.
      destruct (db.files.findById _ w4) as [[r|e] w5] eqn:Hr; [|done].
      apply findById_live in Hr. destruct r as [f|]; [|done].
      destruct Hr as [Hid Hlive]. rewrite Hs4, Hs3, Hw2 in Hlive.
      by apply live_not_deleted in Hlive.
Qed.

Lemma soft_deleted_record_is_out_of_reach_witness :
  (db.files.findById 5%N
     (db.files.delete 5%N
        (demo.world (demo.sharedStore VirusScanStatus.clean None) [] [])).2).1
  = Returned None.
Proof.
  destruct (db.files.findById 5%N _) as [[r|e] w3] eqn:Hr; [|by vm_compute in Hr].
  destruct (soft_deleted_record_is_out_of_reach (H := demo.externals) 5%N
              (demo.world (demo.sharedStore VirusScanStatus.clean None) [] []) true
              (db.files.delete 5%N
                 (demo.world (demo.sharedStore VirusScanStatus.clean None) [] [])).2
              ltac:(vm_compute; reflexivity)) as (_ & _ & Hreads & _).
  destruct (Hreads _ eq_refl) as (Hgone & _).
  by rewrite (Hgone r w3 Hr).
Defined.

Lemma failed_file_does_not_stop_the_batch_witness :
  UploadRoute.iteration (H := demo.externals) demo.alicePayload UploadRoute.initial
    (demo.text "virus.js") (demo.world demo.emptyStore [] [])
  = (Returned (UploadRoute.pushBlocked
       {| BlockedFile.name := js "virus.js";
          BlockedFile.reason := js "Virus/malware detected";
          BlockedFile.size := 10 |} UploadRoute.initial),
     demo.world demo.emptyStore [] []).
Proof.
  apply (proj1 (proj1 failed_file_does_not_stop_the_batch demo.externals
                  demo.alicePayload)).
  vm_compute. reflexivity.
Defined.

(** * Further properties *)




(** ** Validator, file by file *)

Lemma pushIf_length c e errs :
  length (fileValidator.pushIf c e errs) = (length errs + if c then 1 else 0)%nat.
Proof. destruct c; simpl; [rewrite length_app; simpl|]; lia. Qed.

Lemma test_suffix pattern s :
  fileValidator.test pattern s = true <->
  exists pre suf, s = pre ++ suf /\ map fileValidator.asciiLower suf = pattern.
Proof.
  unfold fileValidator.test. rewrite andb_true_iff, Nat.leb_le, bool_decide_eq_true.
  split.
  - intros [Hlen Heq]. exists (take (length s - length pattern) s),
      (drop (length s - length pattern) s). by rewrite take_drop.
  - intros (pre & suf & -> & <-). rewrite length_map, length_app.
    replace (length pre + length suf - length suf)%nat with (length pre) by lia.
    rewrite drop_app_length. split; [lia|done].
Qed.

(** X1: validateFile accepts a file exactly when all four of its checks
    pass: the size is at most 100 MiB, the type is on the list of allowed
    types, the name has at most 255 code units, and the name does not end,
    in whatever letter case, in .exe, .bat, .cmd or .scr. *)
Theorem validateFile_valid_iff file :
  isValid (fileValidator.validateFile file) = true <->
    File.size file <= 100 * 1024 * 1024
    /\ File.type file ∈ fileValidator.ALLOWED_TYPES
    /\ (length (File.name file) <= 255)%nat
    /\ ~ exists pre suf, File.name file = pre ++ suf
           /\ map fileValidator.asciiLower suf ∈ fileValidator.dangerousPatterns.
Proof.
  unfold fileValidator.validateFile. cbn [isValid].
  rewrite bool_decide_eq_true, !pushIf_length. cbn [length].
  rewrite <- includes_elem_of.
  assert (Hex : existsb (fun pattern => fileValidator.test pattern (File.name file))
                  fileValidator.dangerousPatterns = true <->
                exists pre suf, File.name file = pre ++ suf
                  /\ map fileValidator.asciiLower suf ∈ fileValidator.dangerousPatterns).
  { rewrite existsb_exists. split.
    - intros (pattern & Hin & Ht). apply test_suffix in Ht as (pre & suf & Hn & Hs).
      exists pre, suf. split; [done|]. rewrite Hs. by apply list_elem_of_In.
    - intros (pre & suf & Hn & Hin). exists (map fileValidator.asciiLower suf).
      split; [by apply list_elem_of_In|]. apply test_suffix. by exists pre, suf. }
  rewrite <- Hex. unfold fileValidator.MAX_FILE_SIZE.
  destruct (Z.ltb_spec (100 * 1024 * 1024) (File.size file)),
    (includes fileValidator.ALLOWED_TYPES (File.type file)),
    (Z.ltb_spec 255 (Z.of_nat (length (File.name file)))),
    (existsb _ fileValidator.dangerousPatterns); cbn [negb]; split;
    try lia; try (intros (? & ? & ? & ?); try done; try lia).
  all: intros _; repeat split; try done; try lia.
Qed.

(** ** Validator, the batch *)

Lemma forEachFile_length files index allErrors :
  length (fileValidator.forEachFile files index allErrors)
  = (length allErrors
     + length (filter (fun f => isValid (fileValidator.validateFile f) = false) files))%nat.
Proof.
  revert index allErrors.
  induction files as [|file rest IH]; intros index allErrors;
    cbn [fileValidator.forEachFile]; [simpl; lia|].
  rewrite IH, filter_cons.
  destruct (isValid (fileValidator.validateFile file)) eqn:Hv.
  - rewrite decide_False by done. done.
  - rewrite decide_True by done. rewrite length_app. simpl. lia.
Qed.

(** X2: validateBatch accepts a batch exactly when the sizes add up to at
    most 500 MiB and validateFile accepts every file; the number of errors
    it reports is one for the ceiling, if exceeded, plus one for each file
    validateFile rejects. *)
Theorem validateBatch_valid_iff files :
  (isValid (fileValidator.validateBatch files) = true <->
     totalSize files <= 500 * 1024 * 1024
     /\ Forall (fun f => isValid (fileValidator.validateFile f) = true) files)
  /\ length (errors (fileValidator.validateBatch files))
     = ((if (500 * 1024 * 1024 <? totalSize files)%Z then 1 else 0)
        + length (filter (fun f => isValid (fileValidator.validateFile f) = false) files))%nat.
Proof.
  unfold fileValidator.validateBatch. cbn [isValid errors].
  rewrite bool_decide_eq_true, forEachFile_length, pushIf_length. cbn [length].
  split; [|lia].
  assert (Hf : length (filter (fun f => isValid (fileValidator.validateFile f) = false) files)
               = 0%nat <->
               Forall (fun f => isValid (fileValidator.validateFile f) = true) files).
  { induction files as [|f rest IH]; [done|].
    rewrite filter_cons, Forall_cons.
    destruct (isValid (fileValidator.validateFile f)) eqn:Hv.
    - rewrite decide_False by done. rewrite IH. tauto.
    - rewrite decide_True by done. simpl. split; [lia|]. by intros [? _]. }
  rewrite <- Hf.
  destruct (Z.ltb_spec (500 * 1024 * 1024) (totalSize files)); lia.
Qed.


Lemma occurs_padding sig pre buffer post :
  occurs sig buffer -> occurs sig (pre ++ buffer ++ post).
Proof.
  intros (a & b & ->). exists (pre ++ a), (b ++ post). by rewrite <- !app_assoc.
Qed.

Lemma scanBuffer_verdict buffer fileName :
  virusScanner.scanBuffer buffer fileName
  = if includes virusScanner.dangerousExtensions (virusScanner.fileExtension fileName)
       || virusScanner.containsSignature buffer virusScanner.PE
       || virusScanner.containsSignature buffer virusScanner.ELF
    then infected else clean.
Proof.
  destruct (includes virusScanner.dangerousExtensions (virusScanner.fileExtension fileName))
    eqn:Hd.
  - unfold virusScanner.scanBuffer. by rewrite Hd.
  - by rewrite (scanBuffer_not_dangerous _ _ Hd).
Qed.

Lemma scanBuffer_infected_when buffer fileName :
  virusScanner.scanBuffer buffer fileName = infected <->
    virusScanner.fileExtension fileName ∈ virusScanner.dangerousExtensions
    \/ occurs virusScanner.PE buffer \/ occurs virusScanner.ELF buffer.
Proof.
  rewrite scanBuffer_verdict, <- includes_elem_of, <- !containsSignature_occurs.
  destruct (includes _ _), (virusScanner.containsSignature buffer virusScanner.PE),
    (virusScanner.containsSignature buffer virusScanner.ELF); cbn [orb];
    intuition (auto; discriminate).
Qed.

(** X3: the three branches of scanBuffer amount to one test: the verdict
    is infected exactly when the extension the scanner computes is on the
    dangerous list or the bytes 4D 5A or 7F 45 4C 46 occur in the buffer,
    and it is clean otherwise; being on a list of safe extensions changes
    nothing. *)
Theorem scanBuffer_infected_iff buffer fileName :
  (virusScanner.scanBuffer buffer fileName = infected <->
     virusScanner.fileExtension fileName ∈ virusScanner.dangerousExtensions
     \/ occurs virusScanner.PE buffer \/ occurs virusScanner.ELF buffer)
  /\ (virusScanner.scanBuffer buffer fileName <> infected ->
      virusScanner.scanBuffer buffer fileName = clean).
Proof.
  split; [apply scanBuffer_infected_when|].
  rewrite scanBuffer_verdict. by destruct (_ || _).
Qed.

(** X4: a file the scanner finds infected stays infected when bytes are
    put before or after its content. *)
Theorem scanBuffer_padding pre buffer post fileName :
  virusScanner.scanBuffer buffer fileName = infected ->
  virusScanner.scanBuffer (pre ++ buffer ++ post) fileName = infected.
Proof.
  rewrite !scanBuffer_infected_when.
  intros [?|[?|?]]; auto using occurs_padding.
Qed.

Lemma scanBuffer_padding_witness :
  virusScanner.scanBuffer [x00; x4d; x5a; x00] (js "notes.txt") = infected.
Proof. apply (scanBuffer_padding [x00] [x4d; x5a] [x00]). vm_compute. reflexivity. Defined.





Lemma lastIndexOfFrom_absent c s i acc : c ∉ s -> lastIndexOfFrom c s i acc = acc.
Proof.
  revert i acc. induction s as [|x s IH]; intros i acc Hs; simpl; [done|].
  apply not_elem_of_cons in Hs as [Hx Hs]. rewrite (IH _ _ Hs).
  destruct (N.eqb_spec x c) as [->|]; done.
Qed.

Lemma lastIndexOfFrom_last c pre rest i acc :
  c ∉ rest -> lastIndexOfFrom c (pre ++ c :: rest) i acc = i + Z.of_nat (length pre).
Proof.
  revert i acc. induction pre as [|x pre IH]; intros i acc Hr; simpl.
  - rewrite N.eqb_refl, lastIndexOfFrom_absent by done. lia.
  - rewrite IH by done. lia.
Qed.

Lemma lastIndexOf_last c pre rest :
  c ∉ rest -> lastIndexOf c (pre ++ c :: rest) = Z.of_nat (length pre).
Proof. intros. unfold lastIndexOf. by rewrite lastIndexOfFrom_last. Qed.

Lemma lowerUnit_ascii c :
  (fileValidator.asciiLower c < 128)%N -> lowerUnit c = [fileValidator.asciiLower c].
Proof.
  unfold fileValidator.asciiLower, lowerUnit.
  destruct ((65 <=? c) && (c <=? 90))%N eqn:Hu; [done|]. intros Hc.
  destruct (N.leb_spec 192 c); [lia|]. cbn [andb].
  destruct (N.eqb_spec c 304); [lia|]. destruct (N.eqb_spec c 8490); [lia|]. done.
Qed.

Lemma toLowerCase_ascii s :
  Forall (fun c => (c < 128)%N) (map fileValidator.asciiLower s) ->
  toLowerCase s = map fileValidator.asciiLower s.
Proof.
  induction s as [|c s IH]; [done|]. cbn [map]. intros [Hc Hs]%Forall_cons.
  change (toLowerCase (c :: s)) with (lowerUnit c ++ toLowerCase s).
  by rewrite lowerUnit_ascii, IH.
Qed.

Lemma asciiLower_dot c : fileValidator.asciiLower c = DOT -> c = DOT.
Proof.
  unfold fileValidator.asciiLower, DOT.
  destruct ((65 <=? c) && (c <=? 90))%N eqn:Hu; [|done].
  apply andb_true_iff in Hu as [?%N.leb_le ?%N.leb_le]. lia.
Qed.

Lemma denylisted_extension name pre suf :
  name = pre ++ suf ->
  map fileValidator.asciiLower suf ∈ fileValidator.dangerousPatterns ->
  extension name = Some (map fileValidator.asciiLower suf).
Proof.
  intros -> Hin.
  assert (Hchk : forallb (fun p => match p with
                   | d :: t => (d =? DOT)%N && forallb (fun c => negb (c =? DOT)%N && (c <? 128)%N) t
                   | [] => false end) fileValidator.dangerousPatterns = true)
    by (vm_compute; reflexivity).
  rewrite forallb_forall in Hchk.
  specialize (Hchk _ (proj1 (list_elem_of_In _ _) Hin)).
  destruct suf as [|d rest]; [done|]. cbn [map] in Hchk |- *.
  apply andb_true_iff in Hchk as [Hd%N.eqb_eq Hrest].
  rewrite forallb_forall in Hrest.
  assert (d = DOT) as -> by by apply asciiLower_dot.
  assert (Hno : DOT ∉ rest).
  { intros Hdot. specialize (Hrest (fileValidator.asciiLower DOT)).
    rewrite in_map_iff in Hrest.
    assert (Hx : negb (fileValidator.asciiLower DOT =? DOT)%N
                 && (fileValidator.asciiLower DOT <? 128)%N = true).
    { apply Hrest. exists DOT. split; [done|]. by apply list_elem_of_In. }
    done. }
  unfold extension. rewrite lastIndexOf_last by done.
  destruct (Z.ltb_spec (Z.of_nat (length pre)) 0); [lia|].
  rewrite Nat2Z.id, drop_app_length. f_equal.
  rewrite toLowerCase_ascii; [done|].
  cbn [map]. apply Forall_cons. split; [done|].
  apply Forall_forall. intros c Hc.
  specialize (Hrest c (proj1 (list_elem_of_In _ _) Hc)).
  apply andb_true_iff in Hrest as [_ ?%N.ltb_lt]. done.
Qed.

(** X5: the validator's denylist lies within the scanner's: a name that
    validateFile rejects for security reasons, and that holds no U+0130,
    is found infected by scanBuffer whatever the bytes are. *)
Theorem denylisted_name_is_infected file buffer :
  plainName (File.name file) ->
  existsb (fun pattern => fileValidator.test pattern (File.name file))
    fileValidator.dangerousPatterns = true ->
  virusScanner.scanBuffer buffer (File.name file) = infected.
Proof.
  intros Hp Hex.
  - apply existsb_exists in Hex as (pattern & Hin & Ht).
    apply test_suffix in Ht as (pre & suf & Hn & Hs).
    apply (scanBuffer_dangerous_extension_plain _ _ pattern); [done| |].
    + rewrite <- Hs. apply (denylisted_extension _ pre); [done|].
      rewrite Hs. by apply list_elem_of_In.
    + assert (Hsub : forallb (includes virusScanner.dangerousExtensions)
                       fileValidator.dangerousPatterns = true) by (vm_compute; reflexivity).
      rewrite forallb_forall in Hsub. by apply Hsub.
Qed.

Lemma denylisted_name_is_infected_witness :
  virusScanner.scanBuffer [] (js "Setup.EXE") = infected.
Proof.
  apply (denylisted_name_is_infected
           {| File.name := js "Setup.EXE"; File.type := js "text/plain";
              File.size := 0; File.content := [] |} []).
  - apply (bool_decide_unpack (304%N ∉ js "Setup.EXE")). vm_compute. exact I.
  - vm_compute. reflexivity.
Defined.


(** ** Keys *)

Lemma js_inj s t : js s = js t -> s = t.
Proof.
  unfold js. revert t. induction s as [|a s IH]; intros [|b t]; simpl; try done.
  intros [= Ha Hs]. f_equal; [|by apply IH].
  rewrite <- (ascii_N_embedding a), <- (ascii_N_embedding b). by rewrite Ha.
Qed.

Lemma to_int_not_nil z : Z.to_int z <> Decimal.Pos Decimal.Nil /\ Z.to_int z <> Decimal.Neg Decimal.Nil.
Proof.
  pose proof (to_of (Z.to_int z)) as H. rewrite of_to in H.
  split; intros Heq; rewrite Heq in H; vm_compute in H; discriminate.
Qed.

Lemma decimal_inj z1 z2 : decimal z1 = decimal z2 -> z1 = z2.
Proof.
  unfold decimal. intros H%js_inj. apply to_int_inj.
  destruct (to_int_not_nil z1), (to_int_not_nil z2).
  assert (Some (Z.to_int z1) = Some (Z.to_int z2)) as [=]; [|done].
  rewrite <- !NilZero.isi by done. by rewrite H.
Qed.


Lemma digits_units d : Forall digitUnit (js (NilEmpty.string_of_uint d)).
Proof.
  unfold js, digitUnit.
  induction d; simpl; try (apply Forall_cons; split; [lia|assumption]). constructor.
Qed.

Lemma zero_digits_units d : Forall digitUnit (js (NilZero.string_of_uint d)).
Proof.
  destruct d;
    try match goal with
        | |- Forall _ (js (NilZero.string_of_uint ?x)) => exact (digits_units x)
        end.
  vm_compute. repeat constructor; discriminate.
Qed.

Lemma decimal_units z : 0 <= z -> Forall digitUnit (decimal z).
Proof.
  intros Hz. unfold decimal. destruct z as [|p|p]; [|..|lia];
    apply zero_digits_units.
Qed.

Lemma decimal_head z c r : decimal z = c :: r -> c = 45%N \/ digitUnit c.
Proof.
  unfold decimal, NilZero.string_of_int.
  destruct (Z.to_int z) as [d|d].
  - intros Heq. right. pose proof (zero_digits_units d) as Hu.
    rewrite Heq in Hu. by apply Forall_cons in Hu as [? _].
  - intros [= <- _]. by left.
Qed.

(** Splitting at the first occurrence of a unit. *)
Lemma split_first_inj c (a b x y : jsstring) :
  c ∉ a -> c ∉ b -> a ++ c :: x = b ++ c :: y -> a = b /\ x = y.
Proof.
  revert b. induction a as [|h a IH]; intros [|k b] Ha Hb; simpl.
  - by intros [= ->].
  - intros [= <- _]. exfalso. apply Hb. left.
  - intros [= -> _]. exfalso. apply Ha. left.
  - intros [= -> Hr]. apply not_elem_of_cons in Ha as [_ Ha], Hb as [_ Hb].
    destruct (IH b Ha Hb Hr) as [-> ->]. done.
Qed.

Lemma sanitizeFileName_units fileName :
  Forall (fun c => keyUnit c = true \/ c = 95%N) (sanitizeFileName fileName).
Proof.
  unfold sanitizeFileName. apply Forall_fmap, Forall_forall. intros c _. simpl.
  destruct (keyUnit c) eqn:Hk; auto.
Qed.

(** X6: the replacement generateS3Key applies to a file name keeps its
    length, leaves only letters, digits, '.', '-' and '_', changes nothing
    when applied a second time, and leaves a name of letters, digits, '.'
    and '-' as it is. *)
Theorem sanitizeFileName_shape fileName :
  length (sanitizeFileName fileName) = length fileName
  /\ Forall (fun c => keyUnit c = true \/ c = 95%N) (sanitizeFileName fileName)
  /\ sanitizeFileName (sanitizeFileName fileName) = sanitizeFileName fileName
  /\ (Forall (fun c => keyUnit c = true) fileName -> sanitizeFileName fileName = fileName).
Proof.
  split_and!.
  - apply length_map.
  - apply sanitizeFileName_units.
  - unfold sanitizeFileName. rewrite map_map. apply map_ext. intros c.
    destruct (keyUnit c) eqn:Hk; [by rewrite Hk|done].
  - unfold sanitizeFileName. induction 1 as [|c r Hc _ IH]; [done|].
    simpl. by rewrite Hc, IH.
Qed.



Lemma keyPrefix_without_slash kind : SLASH ∉ keyPrefix kind.
Proof.
  destruct kind.
  - apply (bool_decide_unpack (SLASH ∉ js "files")). vm_compute. exact I.
  - apply (bool_decide_unpack (SLASH ∉ js "thumbnails")). vm_compute. exact I.
Qed.

Lemma stamped_without_slash timestamp fileName :
  SLASH ∉ decimal timestamp ++ js "-" ++ sanitizeFileName fileName.
Proof.
  rewrite !not_elem_of_app. split_and!.
  - apply decimal_without_slash.
  - apply (bool_decide_unpack (SLASH ∉ js "-")). vm_compute. exact I.
  - apply sanitizeFileName_without_slash.
Qed.

Lemma s3KeyAt_parts timestamp userId fileName kind :
  s3KeyAt timestamp userId fileName kind
  = keyPrefix kind ++ SLASH :: userId ++ SLASH ::
      (decimal timestamp ++ js "-" ++ sanitizeFileName fileName).
Proof. by destruct kind. Qed.

(** X7: whatever the file name, a key generateS3Key builds for a user id
    without '/' splits at '/' into exactly three parts: the prefix, the
    user id, and the timestamp with the sanitised name; a name such as
    ../../etc/passwd adds no part. *)
Theorem generated_key_parts timestamp userId fileName kind :
  SLASH ∉ userId ->
  splitOn SLASH (s3KeyAt timestamp userId fileName kind)
  = [keyPrefix kind; userId; decimal timestamp ++ js "-" ++ sanitizeFileName fileName].
Proof.
  intros Hu. rewrite s3KeyAt_parts.
  rewrite (splitOn_app SLASH (keyPrefix kind)) by apply keyPrefix_without_slash.
  rewrite (splitOn_app SLASH userId) by done.
  by rewrite splitOn_without by apply stamped_without_slash.
Qed.

Lemma generated_key_parts_witness :
  splitOn SLASH (s3KeyAt 1000 (js "7") (js "../../etc/passwd") fileKey)
  = [js "files"; js "7"; js "1000-.._.._etc_passwd"].
Proof.
  apply (generated_key_parts 1000 (js "7") (js "../../etc/passwd") fileKey).
  apply (bool_decide_unpack (SLASH ∉ js "7")). vm_compute. exact I.
Defined.

Lemma stamp_inj t1 t2 (a b : jsstring) :
  0 <= t1 -> 0 <= t2 ->
  decimal t1 ++ js "-" ++ a = decimal t2 ++ js "-" ++ b -> t1 = t2 /\ a = b.
Proof.
  intros H1 H2 Heq. change (js "-") with [45%N] in Heq. cbn [app] in Heq.
  assert (Hno : forall t, 0 <= t -> 45%N ∉ decimal t).
  { intros t Ht Hin. pose proof (decimal_units t Ht) as Hu.
    rewrite Forall_forall in Hu. specialize (Hu _ Hin). unfold digitUnit in Hu. lia. }
  apply split_first_inj in Heq as [Hd ->]; auto. split; [|done]. by apply decimal_inj.
Qed.

(** X8: two keys generateS3Key builds are equal exactly when the user
    ids, the readings of the clock and the sanitised file names are equal:
    two different names of one user, uploaded within the same millisecond,
    get the same key when they differ only in replaced characters. *)
Theorem generated_keys_collide_iff t1 t2 u1 u2 f1 f2 kind :
  SLASH ∉ u1 -> SLASH ∉ u2 -> 0 <= t1 -> 0 <= t2 ->
  s3KeyAt t1 u1 f1 kind = s3KeyAt t2 u2 f2 kind
  <-> u1 = u2 /\ t1 = t2 /\ sanitizeFileName f1 = sanitizeFileName f2.
Proof.
  intros Hu1 Hu2 Ht1 Ht2. rewrite !s3KeyAt_parts. split.
  - intros Heq. apply app_inv_head in Heq. injection Heq as Heq.
    apply split_first_inj in Heq as [-> Heq]; [|done..].
    apply stamp_inj in Heq as [-> ->]; done.
  - by intros (-> & -> & ->).
Qed.

Lemma generated_keys_collide_iff_witness :
  s3KeyAt 1000 (js "7") (js "my file.txt") fileKey
  = s3KeyAt 1000 (js "7") (js "my_file.txt") fileKey.
Proof.
  apply (generated_keys_collide_iff 1000 1000 (js "7") (js "7")
           (js "my file.txt") (js "my_file.txt") fileKey).
  - apply (bool_decide_unpack (SLASH ∉ js "7")). vm_compute. exact I.
  - apply (bool_decide_unpack (SLASH ∉ js "7")). vm_compute. exact I.
  - lia.
  - lia.
  - split; [reflexivity|]. split; [reflexivity|]. vm_compute. reflexivity.
Defined.

(** The three thumbnail keys *)
(** X9: the key getThumbnailKey derives from the key of an original is
    never the key the upload route records as thumbnailS3Key
    (s3Key.replace("files/", "thumbnails/thumb-")), nor a key
    generateS3Key builds with the type thumbnail, whatever the readings of
    the clock and the file names. *)
Theorem thumbnail_keys_disagree stored recorded timestamp userId fileName fileName' :
  SLASH ∉ userId ->
  let thumbnail := getThumbnailKey (s3KeyAt stored userId fileName fileKey) in
  replaceFirst (js "files/") (js "thumbnails/thumb-")
    (s3KeyAt recorded userId fileName' fileKey) <> thumbnail
  /\ s3KeyAt timestamp userId fileName' thumbnailKey <> thumbnail.
Proof.
  intros Hu thumbnail. unfold thumbnail. rewrite getThumbnailKey_s3KeyAt by done.
  split.
  - unfold s3KeyAt.
    change (js "files" ++ js "/" ++ ?r) with (js "files/" ++ r).
    assert (Hr : forall r, replaceFirst (js "files/") (js "thumbnails/thumb-")
                   (js "files/" ++ r) = js "thumbnails/thumb-" ++ r).
    { intros r. change (js "files/") with [102;105;108;101;115;47]%N.
      cbn [app]. unfold replaceFirst at 1. destruct r; reflexivity. }
    rewrite Hr.
    change (js "thumbnails/thumb-") with (js "thumbnails/" ++ js "thumb-").
    rewrite <- app_assoc. intros Heq%app_inv_head.
    change (js "/" ++ ?r) with (SLASH :: r) in Heq.
    change (js "/thumb-" ++ ?r) with (SLASH :: js "thumb-" ++ r) in Heq.
    rewrite app_assoc in Heq.
    apply split_first_inj in Heq as [Heq _]; [| |done].
    + apply (f_equal length) in Heq. rewrite length_app in Heq. simpl in Heq. lia.
    + rewrite not_elem_of_app. split; [|done].
      apply (bool_decide_unpack (SLASH ∉ js "thumb-")). vm_compute. exact I.
  - rewrite s3KeyAt_parts. change (keyPrefix thumbnailKey ++ SLASH :: ?r)
      with (js "thumbnails/" ++ r).
    intros Heq%app_inv_head.
    change (js "/thumb-" ++ ?r) with (SLASH :: js "thumb-" ++ r) in Heq.
    apply split_first_inj in Heq as [_ Heq]; [|done..].
    destruct (decimal timestamp) as [|c r] eqn:Hd.
    + discriminate.
    + injection Heq as -> _. apply decimal_head in Hd as [|Hd]; [done|].
      unfold digitUnit in Hd. lia.
Qed.

Lemma thumbnail_keys_disagree_witness :
  replaceFirst (js "files/") (js "thumbnails/thumb-")
    (s3KeyAt 1001 (js "1") (js "p.png") fileKey)
  <> getThumbnailKey (s3KeyAt 1000 (js "1") (js "p.png") fileKey).
Proof.
  apply (thumbnail_keys_disagree 1000 1001 1000 (js "1") (js "p.png") (js "p.png")).
  apply (bool_decide_unpack (SLASH ∉ js "1")). vm_compute. exact I.
Defined.


Lemma image_is_not_video contentType :
  startsWith contentType (js "image/") = true ->
  startsWith contentType (js "video/") = false.
Proof.
  unfold startsWith. rewrite bool_decide_eq_true, bool_decide_eq_false.
  change (length (js "video/")) with (length (js "image/")). intros -> [=].
Qed.

Lemma placeFile_by_type `{Externals} payload file :
  UploadRoute.placeFile payload file
  = if startsWith (File.type file) (js "image/")
    then UploadRoute.processedUpload payload file
           (fun b u f => fileProcessor.processImage b u f)
    else if startsWith (File.type file) (js "video/")
    then UploadRoute.processedUpload payload file fileProcessor.processVideo
    else UploadRoute.directUpload payload file.
Proof.
  unfold UploadRoute.placeFile, fileProcessor.getProcessor, fileProcessor.needsProcessing.
  by destruct (startsWith (File.type file) (js "image/")),
    (startsWith (File.type file) (js "video/")).
Qed.

(** X10: getProcessor answers undefined exactly for the types
    needsProcessing refuses, so the fallback branch of the upload route
    (needsProcessing but no processor) is never taken: images go through
    processImage, videos through processVideo, anything else is uploaded
    directly. *)
Theorem placeFile_branches `{Externals} payload file :
  (fileProcessor.getProcessor (File.type file) = None
   <-> fileProcessor.needsProcessing (File.type file) = false)
  /\ UploadRoute.placeFile payload file
     = if startsWith (File.type file) (js "image/")
       then UploadRoute.processedUpload payload file
              (fun b u f => fileProcessor.processImage b u f)
       else if startsWith (File.type file) (js "video/")
       then UploadRoute.processedUpload payload file fileProcessor.processVideo
       else UploadRoute.directUpload payload file.
Proof.
  split; [|apply placeFile_by_type].
  unfold fileProcessor.getProcessor, fileProcessor.needsProcessing.
  destruct (startsWith (File.type file) (js "image/")),
    (startsWith (File.type file) (js "video/")); cbn [orb]; split; done.
Qed.

Lemma DateNow_run w :
  exists t w', DateNow w = (Returned t, w')
    /\ store w' = store w /\ faults w' = faults w /\ now w <= t /\ now w' = t.
Proof.
  unfold DateNow. destruct (ticks w) as [|d rest]; eexists _, _;
    (split; [reflexivity|]); cbn; repeat split; lia.
Qed.

Lemma gateway_run service w :
  match faults w with
  | true :: rest =>
      exists w', gateway service w = (Threw (service ++ js " failed"), w')
        /\ store w' = store w /\ faults w' = rest /\ now w' = now w /\ ticks w' = ticks w
  | _ =>
      exists w', gateway service w = (Returned (), w')
        /\ store w' = store w /\ faults w' = tl (faults w) /\ now w' = now w
        /\ ticks w' = ticks w
  end.
Proof.
  unfold gateway. destruct (faults w) as [|[] rest] eqn:Hf; eexists;
    (split; [reflexivity|]); cbn; rewrite ?Hf; done.
Qed.

Lemma uploadFile_run `{Externals} file key contentType metadata w :
  match faults w with
  | true :: rest =>
      exists e w', s3Operations.uploadFile file key contentType metadata w = (Threw e, w')
        /\ store w' = store w /\ faults w' = rest /\ now w' = now w
  | _ =>
      exists w', s3Operations.uploadFile file key contentType metadata w
                 = (Returned {| S3UploadResult.key := key;
                                S3UploadResult.location := objectLocation key |}, w')
        /\ store w' = withBucket
             (<[key := {| S3Object.Body := file; S3Object.ContentType := contentType;
                          S3Object.Metadata := metadata |}]> (bucket (store w))) (store w)
        /\ faults w' = tl (faults w) /\ now w' = now w
  end.
Proof.
  unfold s3Operations.uploadFile, tryCatch. rewrite bind_run.
  pose proof (gateway_run (js "S3 upload") w) as Hg.
  destruct (faults w) as [|[] rest]; destruct Hg as (w1 & -> & Hs & Hf & Hn & Ht).
  - eexists. split; [reflexivity|]. cbn. rewrite Hs, Hf, Hn. done.
  - eexists _, _. split; [reflexivity|]. done.
  - eexists. split; [reflexivity|]. cbn. rewrite Hs, Hf, Hn. done.
Qed.

Lemma video_is_not_image contentType :
  startsWith contentType (js "video/") = true ->
  startsWith contentType (js "image/") = false.
Proof.
  unfold startsWith. rewrite bool_decide_eq_true, bool_decide_eq_false.
  change (length (js "image/")) with (length (js "video/")). intros -> [=].
Qed.

Lemma generateS3Key_run userId fileName kind w :
  exists t w', generateS3Key userId fileName kind w
               = (Returned (s3KeyAt t userId fileName kind), w')
    /\ store w' = store w /\ faults w' = faults w /\ now w <= t /\ now w' = t.
Proof.
  unfold generateS3Key. rewrite bind_run.
  destruct (DateNow_run w) as (t & w' & -> & ?). by exists t, w'.
Qed.

(** X11: placing a video either fails and leaves the store as it was, or
    stores exactly one object, the content under the key of the original,
    and yields no thumbnail URL and no dimensions: processVideo names a
    thumbnail key but no thumbnail is stored. *)
Theorem video_upload_stores_one_object `{Externals} payload file w :
  startsWith (File.type file) (js "video/") = true ->
  (exists e w', UploadRoute.placeFile payload file w = (Threw e, w')
                /\ store w' = store w)
  \/ (exists t processedAt w',
        let userId := oidString (JWTPayload.userId payload) in
        let key := s3KeyAt t userId (File.name file) fileKey in
        UploadRoute.placeFile payload file w
        = (Returned
             {| UploadRoute.s3Key := key;
                UploadRoute.s3Location := objectLocation key;
                UploadRoute.thumbnailUrl := None;
                UploadRoute.metadata :=
                  {| Metadata.size := Some (Z.of_nat (length (File.content file)));
                     Metadata.width := None; Metadata.height := None;
                     Metadata.format := None; Metadata.thumbnailS3Key := None;
                     Metadata.thumbnailUrl := None |} |}, w')
        /\ store w' = withBucket
             (<[key := {| S3Object.Body := File.content file;
                          S3Object.ContentType := File.type file;
                          S3Object.Metadata :=
                            [(js "userId", userId); (js "originalName", File.name file);
                             (js "processedAt", toISOString processedAt)] |}]>
                (bucket (store w))) (store w)
        /\ now w <= t).
Proof.
  intros Hv. rewrite placeFile_by_type.
  rewrite (video_is_not_image _ Hv), Hv.
  unfold UploadRoute.processedUpload. rewrite bind_run.
  unfold fileProcessor.processVideo, tryCatch. rewrite bind_run.
  destruct (generateS3Key_run (oidString (JWTPayload.userId payload)) (File.name file)
              fileKey w) as (t0 & w0 & -> & Hs0 & Hf0 & Ht0 & Hn0).
  cbn [mret M_ret]. rewrite bind_run.
  unfold fileProcessor.uploadProcessedFile, tryCatch. rewrite bind_run.
  destruct (generateS3Key_run (oidString (JWTPayload.userId payload)) (File.name file)
              fileKey w0) as (t & w1 & -> & Hs1 & Hf1 & Ht1 & Hn1).
  rewrite bind_run.
  destruct (DateNow_run w1) as (processedAt & w2 & -> & Hs2 & Hf2 & Ht2 & Hn2).
  rewrite bind_run. cbn [ProcessedFile.buffer ProcessedFile.thumbnailBuffer].
  match goal with
  | |- context [s3Operations.uploadFile ?b ?k ?c ?m w2] =>
      pose proof (uploadFile_run b k c m w2) as Hup
  end.
  destruct (faults w2) as [|[] rest] eqn:Hfl.
  - destruct Hup as (w3 & -> & Hs3 & _). right. exists t, processedAt, w3.
    cbn. split; [reflexivity|]. split; [|lia]. by rewrite Hs3, Hs2, Hs1, Hs0.
  - destruct Hup as (e & w3 & -> & Hs3 & _). left. eexists _, w3.
    split; [reflexivity|]. by rewrite Hs3, Hs2, Hs1, Hs0.
  - destruct Hup as (w3 & -> & Hs3 & _). right. exists t, processedAt, w3.
    cbn. split; [reflexivity|]. split; [|lia]. by rewrite Hs3, Hs2, Hs1, Hs0.
Qed.

Lemma video_upload_stores_one_object_witness :
  exists placed w',
    UploadRoute.placeFile (H := demo.externals) demo.alicePayload examples.clip
      (demo.world demo.emptyStore [] []) = (Returned placed, w')
    /\ UploadRoute.thumbnailUrl placed = None
    /\ dom (bucket (store w')) = {[ UploadRoute.s3Key placed ]}.
Proof.
  destruct (video_upload_stores_one_object (H := demo.externals) demo.alicePayload
              examples.clip (demo.world demo.emptyStore [] [])
              ltac:(vm_compute; reflexivity))
    as [(e & w' & Hrun & _)|(t & processedAt & w' & Hrun & Hs & _)].
  - vm_compute in Hrun. discriminate.
  - eexists _, w'. split; [exact Hrun|]. split; [reflexivity|].
    rewrite Hs. cbn. rewrite dom_insert_L, dom_empty_L. apply (right_id_L ∅ (∪)).
Defined.

Lemma getThumbnailKey_nonempty originalKey :
  exists c k, getThumbnailKey originalKey = c :: k.
Proof. eexists _, _. reflexivity. Qed.

(** X12: when the image library and the upload of the original succeed
    and the upload of the thumbnail is rejected, the file is put on the
    blocked list with the reason "Upload error" while the original stays
    in the bucket: an object without a record, the other collections
    untouched. *)
Theorem failed_thumbnail_leaves_the_original `{Externals} payload p file image rest w :
  startsWith (File.type file) (js "image/") = true ->
  scanOf file <> infected ->
  sharp (File.content file) = Some image ->
  faults w = false :: false :: true :: rest ->
  exists t processedAt w',
    let userId := oidString (JWTPayload.userId payload) in
    let key := s3KeyAt t userId (File.name file) fileKey in
    UploadRoute.iteration payload p file w
    = (Returned (UploadRoute.pushBlocked
                   (UploadRoute.blockedEntry file (js "Upload error")) p), w')
    /\ store w' = withBucket
         (<[key := {| S3Object.Body := File.content file;
                      S3Object.ContentType := File.type file;
                      S3Object.Metadata :=
                        [(js "userId", userId); (js "originalName", File.name file);
                         (js "processedAt", toISOString processedAt)] |}]>
            (bucket (store w))) (store w)
    /\ faults w' = rest.
Proof.
  intros Hi Hscan Hsharp Hfaults.
  unfold UploadRoute.iteration, UploadRoute.tryBlock. fold (scanOf file).
  assert (Hrun : exists t processedAt e w',
    UploadRoute.placeFile payload file w = (Threw e, w')
    /\ store w' = withBucket
         (<[s3KeyAt t (oidString (JWTPayload.userId payload)) (File.name file) fileKey
            := {| S3Object.Body := File.content file;
                  S3Object.ContentType := File.type file;
                  S3Object.Metadata :=
                    [(js "userId", oidString (JWTPayload.userId payload));
                     (js "originalName", File.name file);
                     (js "processedAt", toISOString processedAt)] |}]>
            (bucket (store w))) (store w)
    /\ faults w' = rest).
  { rewrite placeFile_by_type, Hi.
    unfold UploadRoute.processedUpload. rewrite bind_run.
    unfold fileProcessor.processImage, tryCatch. rewrite bind_run.
    pose proof (gateway_run (js "sharp") w) as Hg. rewrite Hfaults in Hg.
    destruct Hg as (w0 & -> & Hs0 & Hf0 & _). rewrite Hsharp, bind_run.
    destruct (generateS3Key_run (oidString (JWTPayload.userId payload)) (File.name file)
                fileKey w0) as (t0 & w1 & -> & Hs1 & Hf1 & _).
    cbn [mret M_ret]. rewrite bind_run.
    unfold fileProcessor.uploadProcessedFile, tryCatch. rewrite bind_run.
    destruct (generateS3Key_run (oidString (JWTPayload.userId payload)) (File.name file)
                fileKey w1) as (t & w2 & -> & Hs2 & Hf2 & _).
    rewrite bind_run.
    destruct (DateNow_run w2) as (processedAt & w3 & -> & Hs3 & Hf3 & _).
    rewrite bind_run.
    cbn [ProcessedFile.buffer ProcessedFile.thumbnailBuffer ProcessedFile.thumbnailKey].
    match goal with
    | |- context [s3Operations.uploadFile ?b ?k ?c ?m w3] =>
        pose proof (uploadFile_run b k c m w3) as Hup
    end.
    rewrite Hf3, Hf2, Hf1, Hf0 in Hup. cbn [tl] in Hup.
    destruct Hup as (w4 & -> & Hs4 & Hf4 & _). rewrite bind_run.
    destruct (getThumbnailKey_nonempty
                (s3KeyAt t0 (oidString (JWTPayload.userId payload)) (File.name file) fileKey))
      as (c & k & ->).
    rewrite !bind_run.
    match goal with
    | |- context [s3Operations.uploadFile ?b ?k ?c ?m w4] =>
        pose proof (uploadFile_run b k c m w4) as Hup
    end.
    rewrite Hf4 in Hup. cbn [tl] in Hup.
    destruct Hup as (e & w5 & -> & Hs5 & Hf5 & _).
    exists t, processedAt. eexists _, w5. split; [reflexivity|].
    split; [|done]. by rewrite Hs5, Hs4, Hs3, Hs2, Hs1, Hs0. }
  destruct Hrun as (t & processedAt & e & w' & Hplace & Hs & Hf).
  exists t, processedAt, w'. cbv zeta. split; [|done].
  unfold tryCatch.
  destruct (scanOf file); [| done |]; rewrite bind_run, Hplace; reflexivity.
Qed.

Lemma failed_thumbnail_leaves_the_original_witness :
  exists w',
    UploadRoute.iteration (H := demo.externals) demo.alicePayload UploadRoute.initial
      demo.picture (demo.world demo.emptyStore [] [false; false; true])
    = (Returned (UploadRoute.pushBlocked
                   (UploadRoute.blockedEntry demo.picture (js "Upload error"))
                   UploadRoute.initial), w')
    /\ files (store w') = ∅
    /\ size (bucket (store w')) = 1%nat.
Proof.
  destruct (failed_thumbnail_leaves_the_original (H := demo.externals) demo.alicePayload
              UploadRoute.initial demo.picture
              {| SharpOutput.width := Some 4; SharpOutput.height := Some 3;
                 SharpOutput.format := Some (js "png");
                 SharpOutput.thumbnail := [x89] |} []
              (demo.world demo.emptyStore [] [false; false; true])
              ltac:(vm_compute; reflexivity) ltac:(vm_compute; discriminate)
              ltac:(vm_compute; reflexivity) ltac:(reflexivity))
    as (t & processedAt & w' & Hrun & Hs & _).
  exists w'. split; [exact Hrun|]. rewrite Hs. cbn. split; [reflexivity|].
  rewrite insert_empty. apply map_size_singleton.
Defined.





(** ** Listings *)

#[global] Instance newerOrSame_transitive : Transitive db.files.newerOrSame.
Proof. intros a b c. unfold db.files.newerOrSame. lia. Qed.

#[global] Instance newerOrSame_total : Total db.files.newerOrSame.
Proof. intros a b. unfold db.files.newerOrSame. lia. Qed.

Lemma StronglySorted_sublist {A} (R : relation A) l k :
  sublist l k -> StronglySorted R k -> StronglySorted R l.
Proof.
  induction 1 as [|x l k Hs IH|x l k Hs IH]; intros Hk; [done|..].
  - apply StronglySorted_inv in Hk as [Hk Hx]. constructor; [by apply IH|].
    apply Forall_forall. intros y Hy. rewrite Forall_forall in Hx. apply Hx.
    by eapply (sublist_subseteq _ _ Hs).
  - apply StronglySorted_inv in Hk as [Hk _]. by apply IH.
Qed.

Lemma limitDocs_sublist limit l : sublist (db.files.limitDocs limit l) l.
Proof. unfold db.files.limitDocs. destruct (limit =? 0); [done|apply sublist_take]. Qed.

Lemma skipDocs_sublist skip l w r w' :
  db.files.skipDocs skip l w = (Returned r, w') -> sublist r l /\ w' = w.
Proof.
  unfold db.files.skipDocs. destruct skip as [n|]; [|by intros [= <- <-]].
  destruct (n =? 0); [by intros [= <- <-]|].
  destruct (n <? 0); [done|]. intros [= <- <-]. split; [apply sublist_drop|done].
Qed.

Lemma limitDocs_length limit l :
  limit <> 0 -> (length (db.files.limitDocs limit l) <= Z.abs_nat limit)%nat.
Proof.
  intros Hl. unfold db.files.limitDocs. destruct (Z.eqb_spec limit 0); [done|].
  rewrite length_take. lia.
Qed.

Lemma findByUserId_listing userId limit skip w r w' :
  db.files.findByUserId userId limit skip w = (Returned r, w') ->
  exists skipped,
    r = db.files.limitDocs (default 0 limit) skipped
    /\ sublist skipped
         (db.files.newestFirst
            (filter (fun d : db.files.document =>
               FileRecord.userId d.2 = userId /\ FileRecord.isDeleted d.2 = false)
               (map_to_list (files (store w)))))
    /\ store w' = store w.
Proof.
  unfold db.files.findByUserId. rewrite bind_run.
  pose proof (gateway_run (js "files.find") w) as Hg.
  destruct (faults w) as [|[] rest]; destruct Hg as (w0 & -> & Hs0 & _); [|done|].
  all: rewrite bind_run; unfold getStore; rewrite bind_run.
  all: destruct (db.files.skipDocs _ _ _) as [[skipped|e] w2] eqn:Hskip; [|done].
  all: intros [= <- <-]; apply skipDocs_sublist in Hskip as [Hsub ->].
  all: exists skipped; rewrite <- Hs0; done.
Qed.

(** X13: a page db.files.findByUserId returns is in the order newest
    first, holds no document twice, holds only documents of the user that
    are not flagged as deleted, has at most |limit| entries for a limit
    other than 0, and the read leaves the store as it was. *)
Theorem findByUserId_page userId limit skip w r w' :
  db.files.findByUserId userId limit skip w = (Returned r, w') ->
  StronglySorted db.files.newerOrSame r
  /\ NoDup r.*1
  /\ Forall (fun d => FileRecord.userId d.2 = userId /\ live (files (store w)) d) r
  /\ (forall n, limit = Some n -> n <> 0 -> (length r <= Z.abs_nat n)%nat)
  /\ store w' = store w.
Proof.
  intros Hrun. pose proof (findByUserId_live _ _ _ _ _ _ Hrun) as Hlive.
  apply findByUserId_listing in Hrun as (skipped & -> & Hsub & Hs).
  assert (Hsub' : sublist (db.files.limitDocs (default 0 limit) skipped)
         (db.files.newestFirst
            (filter (fun d : db.files.document =>
               FileRecord.userId d.2 = userId /\ FileRecord.isDeleted d.2 = false)
               (map_to_list (files (store w))))))
    by (etrans; [apply limitDocs_sublist|done]).
  split_and!; [| |done| |done].
  - eapply StronglySorted_sublist; [exact Hsub'|].
    apply StronglySorted_merge_sort; apply _.
  - eapply sublist_NoDup; [|apply fmap_sublist, Hsub'].
    unfold db.files.newestFirst. rewrite merge_sort_Permutation.
    eapply sublist_NoDup; [apply (NoDup_fst_map_to_list (files (store w)))|].
    apply fmap_sublist, sublist_filter.
  - intros n -> Hn. by apply limitDocs_length.
Qed.

Lemma findByUserId_page_witness :
  exists r w',
    db.files.findByUserId 1%N (Some 10) None (demo.world examples.stocked [] [])
    = (Returned r, w')
    /\ (length r <= 10)%nat
    /\ NoDup r.*1.
Proof.
  eexists _, _. split; [vm_compute; reflexivity|].
  destruct (findByUserId_page 1%N (Some 10) None (demo.world examples.stocked [] [])
              _ _ ltac:(vm_compute; reflexivity)) as (_ & Hnd & _ & Hlen & _).
  split; [exact (Hlen 10 eq_refl ltac:(lia))|exact Hnd].
Defined.

(** ** Updates *)

Lemma update_run id updates w :
  exists out w', database.files.update id updates w = (out, w')
    /\ shareLinks (store w') = shareLinks (store w)
    /\ users (store w') = users (store w)
    /\ bucket (store w') = bucket (store w)
    /\ timers (store w') = timers (store w)
    /\ match out with
       | Returned (Some d) =>
           exists file t,
             files (store w) !! id = Some file
             /\ FileRecord.isDeleted file = false
             /\ d = (id, FileUpdates.set updates t file)
             /\ files (store w') = <[id := FileUpdates.set updates t file]> (files (store w))
             /\ now w <= t
       | Returned None =>
           store w' = store w
           /\ (forall file, files (store w) !! id = Some file ->
                            FileRecord.isDeleted file = true)
           /\ faults w <> true :: tl (faults w)
       | Threw _ => store w' = store w /\ faults w = true :: tl (faults w)
       end
    /\ faults w' = tl (faults w).
Proof.
  unfold database.files.update. rewrite bind_run.
  destruct (DateNow_run w) as (t & w0 & -> & Hs0 & Hf0 & Ht0 & _). rewrite bind_run.
  pose proof (gateway_run (js "files.findOneAndUpdate") w0) as Hg. rewrite Hf0 in Hg.
  destruct (faults w) as [|[] rest] eqn:Hfl; destruct Hg as (w1 & -> & Hs1 & Hf1 & _).
  2: { eexists _, _. split; [reflexivity|]. rewrite Hs1, Hs0. done. }
  all: rewrite bind_run; unfold getStore; cbn [store]; rewrite Hs1, Hs0.
  all: destruct (files (store w) !! id) as [file|] eqn:Hl;
    [destruct (FileRecord.isDeleted file) eqn:Hd|].
  all: eexists _, _; (split; [reflexivity|]); cbn; rewrite ?Hs1, ?Hs0, ?Hf1;
    split_and!; try done.
  all: try (by intros file' [= <-]).
  all: by exists file, t.
Qed.

(** X14: db.files.update filters on isDeleted: false, so after
    db.files.delete an update of that id matches nothing: it returns no
    document and leaves the store as it was. *)
Theorem deleted_record_is_frozen id updates w deleted w1 :
  db.files.delete id w = (Returned deleted, w1) ->
  exists out w2,
    database.files.update id updates w1 = (out, w2)
    /\ store w2 = store w1
    /\ forall d, out <> Returned (Some d).
Proof.
  intros (t & Hs)%delete_Returned.
  destruct (update_run id updates w1) as (out & w2 & Hrun & _ & _ & _ & _ & Hout & _).
  exists out, w2. split; [done|].
  destruct out as [[d|]|e].
  - destruct Hout as (file & t' & Hl & Hd & _). exfalso.
    rewrite Hs in Hl. cbn in Hl. rewrite lookup_alter_eq in Hl.
    destruct (files (store w) !! id) as [f|]; [|done].
    injection Hl as <-. done.
  - by destruct Hout as (-> & _).
  - by destruct Hout as (-> & _).
Qed.

Lemma deleted_record_is_frozen_witness :
  exists out w2,
    database.files.update 5%N (FileUpdates.scanned VirusScanStatus.infected)
      (db.files.delete 5%N
         (demo.world (demo.sharedStore VirusScanStatus.clean None) [] [])).2 = (out, w2)
    /\ store w2
       = store (db.files.delete 5%N
                  (demo.world (demo.sharedStore VirusScanStatus.clean None) [] [])).2
    /\ forall d, out <> Returned (Some d).
Proof.
  apply (deleted_record_is_frozen 5%N (FileUpdates.scanned VirusScanStatus.infected)
           (demo.world (demo.sharedStore VirusScanStatus.clean None) [] []) true).
  vm_compute. reflexivity.
Defined.

(** ** Storage statistics *)

Lemma sumZ_Permutation l k : l ≡ₚ k -> sumZ l = sumZ k.
Proof. induction 1; simpl; lia. Qed.













Lemma sumZ_app l k : sumZ (l ++ k) = sumZ l + sumZ k.
Proof. induction l; simpl; lia. Qed.



Lemma liveTotal_insert userId id f m :
  m !! id = None ->
  liveTotal userId (<[id := f]> m) = weight userId f + liveTotal userId m.
Proof.
  intros Hm. unfold liveTotal, database.files.matched.
  rewrite (sumZ_Permutation _ (((fun d : db.files.document => FileRecord.size d.2)
             <$> filter (fun d : db.files.document =>
                           FileRecord.userId d.2 = userId /\ FileRecord.isDeleted d.2 = false)
                   ((id, f) :: map_to_list m)))).
  - rewrite filter_cons. unfold weight. cbn [snd]. by destruct (decide _).
  - by rewrite map_to_list_insert.
Qed.

Lemma liveTotal_alter userId id g f m :
  m !! id = Some f ->
  liveTotal userId (alter g id m)
  = liveTotal userId m - weight userId f + weight userId (g f).
Proof.
  intros Hm.
  rewrite <- (insert_delete_id m id f Hm) at 2.
  rewrite <- (insert_delete_id m id f Hm) at 1.
  rewrite alter_insert_eq.
  rewrite !liveTotal_insert by apply lookup_delete_eq. lia.
Qed.

Lemma deleteFile_run key w :
  match faults w with
  | true :: rest =>
      exists e w', s3Operations.deleteFile key w = (Threw e, w')
        /\ store w' = store w /\ faults w' = rest
  | _ =>
      exists w', s3Operations.deleteFile key w = (Returned true, w')
        /\ store w' = withBucket (delete key (bucket (store w))) (store w)
        /\ faults w' = tl (faults w)
  end.
Proof.
  unfold s3Operations.deleteFile, tryCatch. rewrite bind_run.
  pose proof (gateway_run (js "S3 delete") w) as Hg.
  destruct (faults w) as [|[] rest]; destruct Hg as (w1 & -> & Hs & Hf & _).
  - eexists. split; [reflexivity|]. cbn. by rewrite Hs, Hf.
  - eexists _, _. split; [reflexivity|]. done.
  - eexists. split; [reflexivity|]. cbn. by rewrite Hs, Hf.
Qed.

Lemma delete_run id w :
  exists out w', db.files.delete id w = (out, w')
    /\ match out with
       | Returned _ =>
           exists t, store w' = withFiles (alter (FileRecord.setDeleted t) id (files (store w)))
                                  (store w)
       | Threw _ => store w' = store w
       end.
Proof.
  unfold db.files.delete. rewrite bind_run.
  destruct (DateNow_run w) as (t & w0 & -> & Hs0 & Hf0 & _). rewrite bind_run.
  pose proof (gateway_run (js "files.updateOne") w0) as Hg.
  destruct (faults w0) as [|[] rest]; destruct Hg as (w1 & -> & Hs1 & _).
  2: { eexists _, _. split; [reflexivity|]. by rewrite Hs1, Hs0. }
  all: eexists _, _; (split; [reflexivity|]); exists t; cbn; by rewrite Hs1, Hs0.
Qed.

Lemma users_findById_run id w :
  exists out w', db.users.findById id w = (out, w')
    /\ store w' = store w
    /\ match out with
       | Returned (Some user) =>
           users (store w) !! id = Some user /\ User.isActive user = true
       | Returned None =>
           forall user, users (store w) !! id = Some user -> User.isActive user = false
       | Threw _ => True
       end.
Proof.
  unfold db.users.findById. rewrite bind_run.
  pose proof (gateway_run (js "users.findOne") w) as Hg.
  destruct (faults w) as [|[] rest]; destruct Hg as (w1 & -> & Hs1 & _).
  2: { eexists _, _. split; [reflexivity|]. done. }
  all: rewrite bind_run; unfold getStore; cbn [store].
  all: eexists _, _; (split; [reflexivity|]); split; [done|]; rewrite Hs1.
  all: destruct (users (store w) !! id) as [u|]; [|done].
  all: destruct (User.isActive u) eqn:Ha; [done|].
  all: by intros user [= <-].
Qed.

(** The [try] around the two deletions in the bucket. *)
Lemma bucket_cleanup_run (file : FileRecord.t) w :
  exists w',
    tryCatch
      (s3Operations.deleteFile (FileRecord.s3Key file);;
       match Metadata.thumbnailS3Key (FileRecord.metadata file) with
       | Some (c :: k) => s3Operations.deleteFile (c :: k);; mret tt
       | _ => mret tt
       end)
      (fun s3Error => mret tt) w = (Returned tt, w')
    /\ records (store w') = records (store w)
    /\ bucket (store w') ⊆ bucket (store w)
    /\ (forall key, key <> FileRecord.s3Key file ->
          Some key <> Metadata.thumbnailS3Key (FileRecord.metadata file) ->
          bucket (store w') !! key = bucket (store w) !! key).
Proof.
  unfold tryCatch. rewrite bind_run.
  pose proof (deleteFile_run (FileRecord.s3Key file) w) as Hd.
  destruct (faults w) as [|[] rest].
  2: { destruct Hd as (e & w1 & -> & Hs1 & _). exists w1. rewrite Hs1. done. }
  all: destruct Hd as (w1 & -> & Hs1 & Hf1).
  all: destruct (Metadata.thumbnailS3Key (FileRecord.metadata file)) as [[|c k]|] eqn:Hk.
  all: try (exists w1; split; [reflexivity|]; rewrite Hs1; cbn;
            split_and!; [done|apply delete_subseteq|];
            intros key Hne _; by rewrite lookup_delete_ne).
  all: rewrite bind_run.
  all: pose proof (deleteFile_run (c :: k) w1) as Hd; rewrite Hf1 in Hd; cbn [tl] in Hd.
  - destruct Hd as (w2 & -> & Hs2 & _). exists w2. split; [reflexivity|].
    rewrite Hs2, Hs1. cbn. split_and!; [done| |].
    + etrans; apply delete_subseteq.
    + intros key Hne Hne'. rewrite !lookup_delete_ne; [done|congruence..].
  - destruct rest as [|[] rest'].
    2: { destruct Hd as (e & w2 & -> & Hs2 & _). exists w2. split; [reflexivity|].
         rewrite Hs2, Hs1. cbn. split_and!; [done|apply delete_subseteq|].
         intros key Hne _. by rewrite lookup_delete_ne. }
    all: destruct Hd as (w2 & -> & Hs2 & _); exists w2; (split; [reflexivity|]).
    all: rewrite Hs2, Hs1; cbn; split_and!; [done| |].
    all: try (etrans; apply delete_subseteq).
    all: intros key Hne Hne'; rewrite !lookup_delete_ne; [done|congruence..].
Qed.

(** ** Deleting a file *)

(** How the request for a deletion runs once the caller is made out. *)
Lemma DELETE_run `{Externals} request w :
  exists response w',
    FileDeleteRoute.DELETE request w = (Returned response, w')
    /\ match response with
       | Ok _ =>
           exists payload file t,
             caller (FileRoute.cookie request) (FileRoute.authorization request)
             = Some payload
             /\ files (store w) !! FileRoute.id request = Some file
             /\ FileRecord.isDeleted file = false
             /\ FileRecord.userId file = JWTPayload.userId payload
             /\ files (store w')
                = alter (FileRecord.setDeleted t) (FileRoute.id request) (files (store w))
             /\ shareLinks (store w') = shareLinks (store w)
             /\ timers (store w') = timers (store w)
             /\ bucket (store w') ⊆ bucket (store w)
             /\ (forall key, key <> FileRecord.s3Key file ->
                   Some key <> Metadata.thumbnailS3Key (FileRecord.metadata file) ->
                   bucket (store w') !! key = bucket (store w) !! key)
             /\ match users (store w) !! JWTPayload.userId payload with
                | Some user =>
                    if User.isActive user
                    then exists t',
                      users (store w')
                      = alter (User.setStorageUsed
                                 (Z.max 0 (User.storageUsed user - FileRecord.size file)) t')
                          (JWTPayload.userId payload) (users (store w))
                    else users (store w') = users (store w)
                | None => users (store w') = users (store w)
                end
       | Rejected status _ _ =>
           (status = 401 \/ status = 403 \/ status = 404 \/ status = 500)
           /\ users (store w') = users (store w)
           /\ shareLinks (store w') = shareLinks (store w)
           /\ (store w' = store w
               \/ status = 500
                  /\ exists file, files (store w) !! FileRoute.id request = Some file
                                  /\ FileRecord.isDeleted file = false)
       end.
Proof.
  unfold FileDeleteRoute.DELETE, caller.
  destruct (orElse _ _) as [[|c t]|]; unfold tryCatch at 1.
  1,3: eexists _, _; split; [reflexivity|]; cbn; split_and!; auto.
  destruct (verifyToken (c :: t)) as [payload|].
  2: eexists _, _; split; [reflexivity|]; cbn; split_and!; auto.
  rewrite bind_run.
  destruct (files_findById_run (FileRoute.id request) w)
    as ([[d|]|e] & w1 & -> & Hs1 & Hd).
  2,3: eexists _, _; split; [reflexivity|]; cbn; rewrite Hs1; split_and!; auto.
  destruct Hd as (Hid & Hl & Hlive).
  destruct (decide (FileRecord.userId d.2 = JWTPayload.userId payload)) as [Ho|Ho].
  2: { rewrite bool_decide_eq_false_2 by done. cbn [negb].
       eexists _, _. split; [reflexivity|]. cbn. rewrite Hs1. split_and!; auto. }
  rewrite bool_decide_eq_true_2 by done. cbn [negb]. rewrite bind_run.
  destruct (bucket_cleanup_run d.2 w1) as (w2 & -> & Hrec & Hsub & Hkeys).
  unfold records in Hrec. rewrite Hs1 in Hrec, Hsub, Hkeys.
  injection Hrec as Hu2 Hf2 Hl2 Ht2.
  rewrite bind_run.
  destruct (delete_run (FileRoute.id request) w2) as ([deleted|e] & w3 & -> & Hs3).
  2: { eexists _, _. split; [reflexivity|]. cbn. rewrite Hs3.
       split_and!; auto. right. split; [done|]. by exists d.2. }
  destruct Hs3 as (t3 & Hs3). rewrite bind_run.
  destruct (users_findById_run (JWTPayload.userId payload) w3)
    as (out & w4 & -> & Hs4 & Hout).
  destruct out as [[user|]|e].
  3: { eexists _, _. split; [reflexivity|]. cbn. rewrite Hs4, Hs3. cbn.
       split_and!; auto. right. split; [done|]. by exists d.2. }
  - destruct Hout as [Hlu Hact]. rewrite Hs3 in Hlu. cbn in Hlu. rewrite Hu2 in Hlu.
    rewrite bind_run.
    destruct (updateStorageUsed_run (JWTPayload.userId payload)
                (Z.max 0 (User.storageUsed user - FileRecord.size d.2)) w4)
      as [(e & w5 & -> & Hs5)|(t5 & w5 & -> & Hs5)].
    + eexists _, _. split; [reflexivity|]. cbn. rewrite Hs5, Hs4, Hs3. cbn.
      split_and!; auto. right. split; [done|]. by exists d.2.
    + eexists _, _. split; [reflexivity|]. cbn.
      exists payload, d.2, t3. rewrite Hs5, Hs4, Hs3. cbn.
      rewrite Hu2, Hf2, Hl2, Ht2, Hlu, Hact.
      split_and!; try done; eauto.
  - rewrite bind_run. eexists _, _. split; [reflexivity|]. cbn.
    exists payload, d.2, t3. rewrite Hs4, Hs3. cbn.
    rewrite Hu2, Hf2, Hl2, Ht2.
    split_and!; try done.
    destruct (users (store w) !! JWTPayload.userId payload) as [u|] eqn:Hu; [|done].
    destruct (User.isActive u) eqn:Ha; [|done].
    rewrite Hs3 in Hout. cbn in Hout. rewrite Hu2 in Hout.
    specialize (Hout u Hu). congruence.
Qed.


(** X16: when DELETE /api/files/{id} answers success, the caller owns the
    record and it was not deleted before; afterwards the record is flagged
    as deleted, the bucket has lost at most the object of the file and the
    one under its recorded thumbnail key (a failing S3 call is swallowed),
    share links and timers are untouched, and the caller's storageUsed is
    max(0, storageUsed - size) if the user is active, unchanged otherwise. *)
Theorem delete_route_soft_deletes `{Externals} request w b w' :
  FileDeleteRoute.DELETE request w = (Returned (Ok b), w') ->
  exists payload file t,
    caller (FileRoute.cookie request) (FileRoute.authorization request) = Some payload
    /\ files (store w) !! FileRoute.id request = Some file
    /\ FileRecord.isDeleted file = false
    /\ FileRecord.userId file = JWTPayload.userId payload
    /\ files (store w')
       = alter (FileRecord.setDeleted t) (FileRoute.id request) (files (store w))
    /\ shareLinks (store w') = shareLinks (store w)
    /\ timers (store w') = timers (store w)
    /\ bucket (store w') ⊆ bucket (store w)
    /\ (forall key, key <> FileRecord.s3Key file ->
          Some key <> Metadata.thumbnailS3Key (FileRecord.metadata file) ->
          bucket (store w') !! key = bucket (store w) !! key)
    /\ match users (store w) !! JWTPayload.userId payload with
       | Some user =>
           if User.isActive user
           then exists t',
             users (store w')
             = alter (User.setStorageUsed
                        (Z.max 0 (User.storageUsed user - FileRecord.size file)) t')
                 (JWTPayload.userId payload) (users (store w))
           else users (store w') = users (store w)
       | None => users (store w') = users (store w)
       end.
Proof.
  intros Hrun. destruct (DELETE_run request w) as (response & w0 & Hrun' & Hok).
  rewrite Hrun in Hrun'. injection Hrun' as <- <-. exact Hok.
Qed.

Lemma delete_route_soft_deletes_witness :
  exists file,
    files (store examples.afterDelete) !! 5%N = Some file
    /\ FileRecord.isDeleted file = true
    /\ bucket (store examples.afterDelete) ⊆ bucket examples.stocked.
Proof.
  destruct (delete_route_soft_deletes (H := demo.externals) examples.deleteRequest
              (demo.world examples.stocked [] []) true examples.afterDelete
              ltac:(vm_compute; reflexivity))
    as (payload & file & t & _ & Hl & _ & _ & Hf & _ & _ & Hb & _).
  exists (FileRecord.setDeleted t file). split; [|split; [reflexivity|exact Hb]].
  change (FileRoute.id examples.deleteRequest) with 5%N in *.
  rewrite Hf, lookup_alter_eq. exact (f_equal (fmap (FileRecord.setDeleted t)) Hl).
Defined.

(** X17: a rejection by DELETE /api/files/{id} has status 401, 403, 404
    or 500; it never changes a user or a share link, and with a status
    other than 500 the whole store is as the request found it. *)
Theorem delete_route_rejections `{Externals} request w status error details w' :
  FileDeleteRoute.DELETE request w = (Returned (Rejected status error details), w') ->
  (status = 401 \/ status = 403 \/ status = 404 \/ status = 500)
  /\ users (store w') = users (store w)
  /\ shareLinks (store w') = shareLinks (store w)
  /\ (status <> 500 -> store w' = store w).
Proof.
  intros Hrun. destruct (DELETE_run request w) as (response & w0 & Hrun' & Hrej).
  rewrite Hrun in Hrun'. injection Hrun' as <- <-.
  destruct Hrej as (Hst & Hu & Hl & [Hs|[Hs _]]); split_and!; done.
Qed.

Lemma delete_route_rejections_witness :
  store (FileDeleteRoute.DELETE (H := demo.externals) examples.deleteRequest
           examples.afterDelete).2
  = store examples.afterDelete.
Proof.
  apply (delete_route_rejections (H := demo.externals) examples.deleteRequest
           examples.afterDelete 404 (js "File not found") None
           (FileDeleteRoute.DELETE (H := demo.externals) examples.deleteRequest
              examples.afterDelete).2 ltac:(vm_compute; reflexivity)).
  discriminate.
Defined.

(** X18: after a successful DELETE, a second DELETE of the same id is
    rejected and leaves the store as it is: the size is not taken off
    storageUsed a second time. *)
Theorem second_delete_changes_nothing `{Externals} request request' w b w1 :
  FileDeleteRoute.DELETE request w = (Returned (Ok b), w1) ->
  FileRoute.id request' = FileRoute.id request ->
  exists status error details w2,
    FileDeleteRoute.DELETE request' w1 = (Returned (Rejected status error details), w2)
    /\ store w2 = store w1.
Proof.
  intros Hrun Hid.
  destruct (DELETE_run request w) as (response & w0 & Hrun' & Hok).
  rewrite Hrun in Hrun'. injection Hrun' as <- <-.
  destruct Hok as (payload & file & t & _ & Hl & _ & _ & Hf & _).
  assert (Hgone : forall file', files (store w1) !! FileRoute.id request' = Some file' ->
                                FileRecord.isDeleted file' = true).
  { intros file'. rewrite Hid, Hf, lookup_alter_eq, Hl. by intros [= <-]. }
  destruct (DELETE_run request' w1) as ([status error details|b'] & w2 & Hrun2 & Hres).
  - exists status, error, details, w2. split; [done|].
    destruct Hres as (_ & _ & _ & [Hs|(_ & file' & Hl' & Hd')]); [done|].
    rewrite (Hgone _ Hl') in Hd'. done.
  - destruct Hres as (_ & file' & _ & _ & Hl' & Hd' & _).
    rewrite (Hgone _ Hl') in Hd'. done.
Qed.

Lemma second_delete_changes_nothing_witness :
  exists status error details w2,
    FileDeleteRoute.DELETE (H := demo.externals) examples.deleteRequest examples.afterDelete
    = (Returned (Rejected status error details), w2)
    /\ store w2 = store examples.afterDelete.
Proof.
  apply (second_delete_changes_nothing (H := demo.externals) examples.deleteRequest
           examples.deleteRequest (demo.world examples.stocked [] []) true
           examples.afterDelete ltac:(vm_compute; reflexivity) eq_refl).
Defined.

(** X19: if the caller's storageUsed equals the total size of their live
    records before a successful DELETE, it does so afterwards. *)
Theorem delete_keeps_quota_in_line `{Externals} request w b w' payload user :
  FileDeleteRoute.DELETE request w = (Returned (Ok b), w') ->
  caller (FileRoute.cookie request) (FileRoute.authorization request) = Some payload ->
  users (store w) !! JWTPayload.userId payload = Some user ->
  User.isActive user = true ->
  User.storageUsed user = liveTotal (JWTPayload.userId payload) (files (store w)) ->
  0 <= liveTotal (JWTPayload.userId payload) (files (store w')) ->
  exists user',
    users (store w') !! JWTPayload.userId payload = Some user'
    /\ User.storageUsed user'
       = liveTotal (JWTPayload.userId payload) (files (store w')).
Proof.
  intros Hrun Hc Hu Ha Hq Hpos.
  destruct (DELETE_run request w) as (response & w0 & Hrun' & Hok).
  rewrite Hrun in Hrun'. injection Hrun' as <- <-.
  destruct Hok as (payload' & file & t & Hc' & Hl & Hd & Ho & Hf & _ & _ & _ & _ & Hus).
  rewrite Hc in Hc'. injection Hc' as <-.
  rewrite Hu, Ha in Hus. destruct Hus as (t' & Hus).
  rewrite Hus, lookup_alter_eq, Hu. eexists. split; [reflexivity|]. cbn.
  rewrite Hf in Hpos |- *. rewrite (liveTotal_alter _ _ _ file) in Hpos |- * by done.
  unfold weight in *. cbn in *.
  rewrite decide_True in * by done. rewrite decide_False in * by (intros [_ ?]; done).
  lia.
Qed.

Lemma delete_keeps_quota_in_line_witness :
  exists user',
    users (store examples.afterDelete) !! 1%N = Some user'
    /\ User.storageUsed user' = liveTotal 1%N (files (store examples.afterDelete)).
Proof.
  apply (delete_keeps_quota_in_line (H := demo.externals) examples.deleteRequest
           (demo.world examples.stocked [] []) true examples.afterDelete
           demo.alicePayload (User.setStorageUsed 40 0 demo.alice)
           ltac:(vm_compute; reflexivity) ltac:(vm_compute; reflexivity)
           ltac:(vm_compute; reflexivity) ltac:(reflexivity)
           ltac:(vm_compute; reflexivity) ltac:(vm_compute; discriminate)).
Defined.


(** ** The scan behind the timer *)

Lemma set_scanned_twice status t1 t2 file :
  FileUpdates.set (FileUpdates.scanned status) t2
    (FileUpdates.set (FileUpdates.scanned status) t1 file)
  = FileUpdates.set (FileUpdates.scanned status) t2 file.
Proof. reflexivity. Qed.

(** X20: when the background scan finds a live record infected and runs
    to its end, the record has the status infected and is still not
    flagged as deleted, the object under the scanned key is gone from the
    bucket, users and share links are untouched (storageUsed is not
    lowered), and the owner's download of that file is refused from then
    on. *)
Theorem background_scan_infected `{Externals} fileId s3Key file w w' :
  backgroundScan.callback true fileId s3Key w = (Returned tt, w') ->
  files (store w) !! fileId = Some file ->
  FileRecord.isDeleted file = false ->
  (exists t,
     files (store w')
     = <[fileId := FileUpdates.set (FileUpdates.scanned VirusScanStatus.infected) t file]>
         (files (store w)))
  /\ bucket (store w') = delete s3Key (bucket (store w))
  /\ users (store w') = users (store w)
  /\ shareLinks (store w') = shareLinks (store w)
  /\ forall request body,
       FileDownloadRoute.id request = fileId ->
       (FileDownloadRoute.GET request w').1 <> Returned (Ok body).
Proof.
  intros Hrun Hl Hd. revert Hrun.
  unfold backgroundScan.callback. rewrite bind_run.
  unfold backgroundScan.scanS3File, tryCatch. cbn [mret M_ret].
  rewrite bind_run.
  destruct (update_run fileId (FileUpdates.scanned (backgroundScan.statusOf infected)) w)
    as (out1 & w1 & -> & Hl1 & Hu1 & Hb1 & Ht1 & Hout1 & Hf1).
  destruct out1 as [[d1|]|e]; [| |done].
  2: { destruct Hout1 as (_ & Hgone & _). rewrite (Hgone _ Hl) in Hd. done. }
  destruct Hout1 as (file1 & t1 & Hl' & _ & -> & Hfiles1 & _).
  rewrite Hl in Hl'. injection Hl' as <-.
  rewrite bind_run.
  pose proof (deleteFile_run s3Key w1) as Hdel.
  destruct (faults w1) as [|[] rest1] eqn:Hfl1.
  2: { destruct Hdel as (e & w2 & -> & _). done. }
  all: destruct Hdel as (w2 & -> & Hs2 & Hf2); rewrite !bind_run.
  all: destruct (update_run fileId (FileUpdates.scanned VirusScanStatus.infected) w2)
    as (out3 & w3 & -> & Hl3 & Hu3 & Hb3 & Ht3 & Hout3 & Hf3).
  all: destruct out3 as [[d3|]|e]; [| |done].
  all: try (destruct Hout3 as (_ & Hgone & _); exfalso;
            rewrite Hs2 in Hgone; cbn in Hgone; rewrite Hfiles1 in Hgone;
            specialize (Hgone _ (lookup_insert_eq _ _ _)); cbn in Hgone; congruence).
  all: destruct Hout3 as (file3 & t3 & Hl3' & _ & -> & Hfiles3 & _).
  all: rewrite Hs2 in Hl3', Hfiles3, Hl3, Hu3, Hb3; cbn in Hl3', Hfiles3, Hl3, Hu3, Hb3.
  all: rewrite Hfiles1 in Hl3', Hfiles3; rewrite lookup_insert_eq in Hl3'.
  all: injection Hl3' as <-; rewrite insert_insert_eq in Hfiles3.
  all: intros [= <-].
  all: assert (Hnow : files (store w3) !! fileId
         = Some (FileUpdates.set (FileUpdates.scanned VirusScanStatus.infected) t3 file))
    by (rewrite Hfiles3; apply lookup_insert_eq).
  all: split_and!; [by exists t3|congruence|congruence|congruence|].
  all: intros request body <-;
    by apply (owner_download_refuses_infected request _ w3 body Hnow).
Qed.

Lemma background_scan_infected_witness :
  bucket (store examples.afterScan) = delete examples.key (bucket examples.stocked)
  /\ users (store examples.afterScan) = users examples.stocked.
Proof.
  destruct (background_scan_infected (H := demo.externals) 5%N examples.key
              (demo.report VirusScanStatus.clean false)
              (demo.world examples.stocked [] []) examples.afterScan
              ltac:(vm_compute; reflexivity) ltac:(vm_compute; reflexivity)
              ltac:(reflexivity)) as (_ & Hb & Hu & _).
  split; [exact Hb|exact Hu].
Defined.

(** X21: a background scan whose draw is clean never touches the bucket,
    the users, the share links or the timers; of the records it changes at
    most the scanned one, setting its status to clean and its
    lastModified. *)
Theorem background_scan_clean fileId s3Key w out w' :
  backgroundScan.callback false fileId s3Key w = (out, w') ->
  bucket (store w') = bucket (store w)
  /\ users (store w') = users (store w)
  /\ shareLinks (store w') = shareLinks (store w)
  /\ timers (store w') = timers (store w)
  /\ (files (store w') = files (store w)
      \/ exists file t,
           files (store w) !! fileId = Some file
           /\ FileRecord.isDeleted file = false
           /\ files (store w')
              = <[fileId := FileUpdates.set (FileUpdates.scanned VirusScanStatus.clean) t file]>
                  (files (store w))).
Proof.
  unfold backgroundScan.callback. rewrite bind_run.
  unfold backgroundScan.scanS3File, tryCatch. cbn [mret M_ret].
  rewrite bind_run.
  destruct (update_run fileId (FileUpdates.scanned (backgroundScan.statusOf clean)) w)
    as (out1 & w1 & -> & Hl1 & Hu1 & Hb1 & Ht1 & Hout1 & Hf1).
  destruct out1 as [[d1|]|e]; intros [= <- <-]; split_and!; try done.
  - destruct Hout1 as (file & t & Hl & Hd & -> & Hfiles & _). right. by exists file, t.
  - destruct Hout1 as (-> & _). by left.
  - destruct Hout1 as (-> & _). by left.
Qed.

Lemma background_scan_clean_witness :
  bucket (store (backgroundScan.callback false 5%N examples.key
                   (demo.world examples.stocked [] [])).2)
  = bucket examples.stocked.
Proof.
  apply (background_scan_clean 5%N examples.key (demo.world examples.stocked [] [])
           (Returned tt)
           (backgroundScan.callback false 5%N examples.key
              (demo.world examples.stocked [] [])).2
           ltac:(vm_compute; reflexivity)).
Defined.

(** X22: for a record that is missing or flagged as deleted the
    background scan changes no collection and no timer, whatever its draw;
    with the draw infected it still deletes the object under the key. *)
Theorem background_scan_of_deleted_record isInfected fileId s3Key w out w' :
  (forall file, files (store w) !! fileId = Some file -> FileRecord.isDeleted file = true) ->
  backgroundScan.callback isInfected fileId s3Key w = (out, w') ->
  records (store w') = records (store w)
  /\ (isInfected = false -> store w' = store w)
  /\ (isInfected = true -> out = Returned tt ->
      bucket (store w') = delete s3Key (bucket (store w))).
Proof.
  intros Hgone. unfold backgroundScan.callback. rewrite bind_run.
  unfold backgroundScan.scanS3File, tryCatch. cbn [mret M_ret].
  rewrite bind_run.
  assert (Hfrozen : forall updates w0, store w0 = store w \/
            store w0 = withBucket (delete s3Key (bucket (store w))) (store w) ->
            exists out w1, database.files.update fileId updates w0 = (out, w1)
              /\ store w1 = store w0 /\ faults w1 = tl (faults w0)
              /\ forall d, out <> Returned (Some d)).
  { intros updates w0 Hs0.
    destruct (update_run fileId updates w0) as (o & w1 & Hrun & _ & _ & _ & _ & Ho & Hf).
    exists o, w1. split; [done|]. destruct o as [[d|]|e].
    - destruct Ho as (file & t & Hl & Hd & _). exfalso.
      assert (files (store w) !! fileId = Some file) as Hl'
        by (destruct Hs0 as [Hs0|Hs0]; rewrite Hs0 in Hl; exact Hl).
      rewrite (Hgone _ Hl') in Hd. done.
    - by destruct Ho as (-> & _).
    - by destruct Ho as (-> & _). }
  destruct isInfected.
  - destruct (Hfrozen (FileUpdates.scanned (backgroundScan.statusOf infected)) w (or_introl eq_refl))
      as (out1 & w1 & -> & Hs1 & Hf1 & Hno1).
    destruct out1 as [[d|]|e]; [by destruct (Hno1 d)| |].
    2: { intros [= <- <-]. rewrite Hs1. done. }
    rewrite bind_run.
    pose proof (deleteFile_run s3Key w1) as Hdel.
    destruct (faults w1) as [|[] rest1] eqn:Hfl1.
    2: { destruct Hdel as (e & w2 & -> & Hs2 & _). intros [= <- <-].
         rewrite Hs2, Hs1. done. }
    all: destruct Hdel as (w2 & -> & Hs2 & Hf2); rewrite !bind_run.
    all: rewrite Hs1 in Hs2.
    all: destruct (Hfrozen (FileUpdates.scanned VirusScanStatus.infected) w2 (or_intror Hs2))
      as (out3 & w3 & -> & Hs3 & Hf3 & Hno3).
    all: destruct out3 as [[d|]|e]; [by destruct (Hno3 d)| |].
    all: intros [= <- <-]; rewrite Hs3, Hs2; done.
  - destruct (Hfrozen (FileUpdates.scanned (backgroundScan.statusOf clean)) w (or_introl eq_refl))
      as (out1 & w1 & -> & Hs1 & Hf1 & Hno1).
    destruct out1 as [[d|]|e]; [by destruct (Hno1 d)| |].
    all: intros [= <- <-]; rewrite Hs1; done.
Qed.

Lemma background_scan_of_deleted_record_witness :
  records (store (backgroundScan.callback true 5%N examples.key examples.afterDelete).2)
  = records (store examples.afterDelete).
Proof.
  apply (background_scan_of_deleted_record true 5%N examples.key examples.afterDelete
           (Returned tt)
           (backgroundScan.callback true 5%N examples.key examples.afterDelete).2).
  - intros file Hl. vm_compute in Hl. injection Hl as <-. reflexivity.
  - vm_compute. reflexivity.
Defined.

(** ** Share links: what the routes write *)

Lemma respects_getStore (R : relation Store) `{!PreOrder R} {B} (k : Store -> M B) :
  (forall s, respects R (k s)) -> respects R (getStore ≫= k).
Proof. intros Hk w out w'. rewrite bind_run. apply Hk. Qed.

Lemma respects_files_findById (R : relation Store) `{!PreOrder R} id :
  respects R (db.files.findById id).
Proof.
  unfold db.files.findById. apply respects_bind; [done|apply respects_gateway; done|].
  intros _. apply respects_getStore; [done|]. intros s. by apply respects_ret.
Qed.

Lemma respects_shareLinks_findById (R : relation Store) `{!PreOrder R} id :
  respects R (db.shareLinks.findById id).
Proof.
  unfold db.shareLinks.findById. apply respects_bind; [done|apply respects_gateway; done|].
  intros _. apply respects_getStore; [done|]. intros s. by apply respects_ret.
Qed.

Lemma respects_expired (R : relation Store) `{!PreOrder R} link :
  respects R (expired link).
Proof.
  unfold expired. destruct (ShareLink.expiresAt link); [|by apply respects_ret].
  apply respects_bind; [done|by apply respects_DateNow|]. intros t. by apply respects_ret.
Qed.

(** X23: resolving a share link, verifying its password, and the owner's
    view and download of a file never write: whatever they answer, the
    store is the one they found. *)
Theorem reading_routes_leave_the_store `{Externals} :
  (forall shareId, respects eq (SharedRoute.GET shareId))
  /\ (forall request, respects eq (SharedVerifyRoute.POST request))
  /\ (forall request, respects eq (FileRoute.GET request))
  /\ (forall request, respects eq (FileDownloadRoute.GET request)).
Proof.
  assert (PreOrder (@eq Store)) as Heq by (split; [done|]; intros ???; congruence).
  split_and!.
  - intros shareId. unfold SharedRoute.GET.
    apply respects_tryCatch; [done| |intros; by apply respects_ret].
    apply respects_bind; [done|by apply respects_shareLinks_findById|].
    intros [link|]; [|by apply respects_ret].
    apply respects_bind; [done|by apply respects_expired|].
    intros []; [by apply respects_ret|].
    apply respects_bind; [done|by apply respects_files_findById|].
    intros [file|]; by apply respects_ret.
  - intros request. unfold SharedVerifyRoute.POST.
    apply respects_tryCatch; [done| |intros; by apply respects_ret].
    apply respects_bind; [done|by apply respects_shareLinks_findById|].
    intros [link|]; [|by apply respects_ret].
    destruct (ShareLink.password link.2) as [[|c h]|]; try by apply respects_ret.
    apply respects_bind; [done| |].
    + unfold SharedVerifyRoute.compare.
      destruct (ShareRequest.password request); [by apply respects_ret|by apply respects_throw].
    + intros []; by apply respects_ret.
  - intros request. unfold FileRoute.GET.
    apply respects_tryCatch; [done| |intros; by apply respects_ret].
    destruct (orElse _ _) as [[|c t]|]; try by apply respects_ret.
    destruct (verifyToken _); [|by apply respects_ret].
    apply respects_bind; [done|by apply respects_files_findById|].
    intros [file|]; [|by apply respects_ret].
    destruct (negb _); by apply respects_ret.
  - intros request. unfold FileDownloadRoute.GET.
    apply respects_tryCatch; [done| |intros; by apply respects_ret].
    destruct (orElse _ _) as [[|c t]|]; try by apply respects_ret.
    destruct (verifyToken _); [|by apply respects_ret].
    apply respects_bind; [done|by apply respects_files_findById|].
    intros [file|]; [|by apply respects_ret].
    destruct (negb _); [by apply respects_ret|].
    destruct (FileRecord.virusScanStatus file.2); try by apply respects_ret.
    all: apply respects_bind; [done|by apply respects_getDownloadUrl|].
    all: intros url; by apply respects_ret.
Qed.


Lemma incrementAccess_run id ip agent w :
  exists out w', db.shareLinks.incrementAccess id ip agent w = (out, w')
    /\ match out with
       | Returned _ =>
           exists accessed updated logged,
             store w' = withShareLinks
               (alter (ShareLink.recordAccess accessed updated logged ip agent) id
                  (shareLinks (store w))) (store w)
             /\ now w <= accessed
       | Threw _ => store w' = store w
       end.
Proof.
  unfold db.shareLinks.incrementAccess. rewrite bind_run.
  destruct (DateNow_run w) as (t1 & w1 & -> & Hs1 & _ & Ht1 & Hn1). rewrite bind_run.
  destruct (DateNow_run w1) as (t2 & w2 & -> & Hs2 & _). rewrite bind_run.
  destruct (DateNow_run w2) as (t3 & w3 & -> & Hs3 & _). rewrite bind_run.
  pose proof (gateway_run (js "shareLinks.updateOne") w3) as Hg.
  destruct (faults w3) as [|[] rest]; destruct Hg as (w4 & -> & Hs4 & _).
  2: { eexists _, _. split; [reflexivity|]. by rewrite Hs4, Hs3, Hs2, Hs1. }
  all: eexists _, _; (split; [reflexivity|]); exists t1, t2, t3; cbn.
  all: rewrite Hs4, Hs3, Hs2, Hs1; done.
Qed.

Lemma decimal_chars z : Forall (fun c => c = 45%N \/ digitUnit c) (decimal z).
Proof.
  unfold decimal, NilZero.string_of_int. destruct (Z.to_int z) as [d|d].
  - eapply Forall_impl; [apply zero_digits_units|]. auto.
  - change (js (String "-" ?r)) with (45%N :: js r).
    apply Forall_cons. split; [by left|].
    eapply Forall_impl; [apply zero_digits_units|]. auto.
Qed.

Lemma stripStart_id value :
  Forall (fun c => httpWhitespace c = false) value -> stripStart value = value.
Proof. destruct 1 as [|c rest Hc _]; [done|]. cbn. by rewrite Hc. Qed.

Lemma headerAccepted_decimal z : headerAccepted (decimal z) = true.
Proof.
  pose proof (decimal_chars z) as Hc.
  assert (Hw : Forall (fun c => httpWhitespace c = false) (decimal z)).
  { eapply Forall_impl; [exact Hc|]. unfold digitUnit, httpWhitespace.
    intros c [->|Hd]; [done|].
    rewrite !orb_false_iff, !N.eqb_neq. lia. }
  unfold headerAccepted, headerValueNormalize.
  rewrite (stripStart_id _ Hw), stripStart_id, rev_involutive
    by (by apply Forall_rev).
  apply andb_true_iff. unfold isByteString, isValidHeaderValue.
  rewrite !forallb_forall. split; intros c Hin%list_elem_of_In.
  - rewrite Forall_forall in Hc. apply N.leb_le.
    destruct (Hc c Hin) as [->|Hd]; [done|]. unfold digitUnit in Hd. lia.
  - rewrite Forall_forall in Hc.
    destruct (Hc c Hin) as [->|Hd]; [done|]. unfold digitUnit in Hd.
    rewrite negb_true_iff, !orb_false_iff, !N.eqb_neq. lia.
Qed.

(** What is left of the download once the file is found: the access is
    counted, and then the response is built or refused. *)
Lemma respond_after_access `{Externals} shareId (file : FileRecord.t) link w :
  shareLinks (store w) !! shareId = Some link ->
  exists out w',
    (db.shareLinks.incrementAccess shareId None None;;
     SharedDownloadRoute.respond (SharedDownloadRoute.served file)) w = (out, w')
    /\ match out with
       | Returned response =>
           response = Ok (SharedDownloadRoute.served file)
           /\ headerAccepted (FileRecord.type file) = true
           /\ headerAccepted (js "attachment; filename=" ++ [34%N]
                              ++ FileRecord.name file ++ [34%N]) = true
           /\ exists accessed updated logged,
                store w' = withShareLinks
                  (<[shareId := ShareLink.recordAccess accessed updated logged None None
                                  link]> (shareLinks (store w))) (store w)
       | Threw _ =>
           store w' = store w
           \/ (headerAccepted (FileRecord.type file) = false
               \/ headerAccepted (js "attachment; filename=" ++ [34%N]
                                  ++ FileRecord.name file ++ [34%N]) = false)
              /\ exists accessed updated logged,
                   store w' = withShareLinks
                     (<[shareId := ShareLink.recordAccess accessed updated logged None None
                                     link]> (shareLinks (store w))) (store w)
       end.
Proof.
  intros Hl. rewrite bind_run.
  destruct (incrementAccess_run shareId None None w) as ([[]|e] & w1 & -> & Hinc).
  2: { eexists _, _. split; [reflexivity|]. by left. }
  destruct Hinc as (accessed & updated & logged & Hs1 & _).
  assert (Hs : store w1 = withShareLinks
            (<[shareId := ShareLink.recordAccess accessed updated logged None None link]>
               (shareLinks (store w))) (store w)).
  { rewrite Hs1. f_equal. apply map_eq. intros i.
    destruct (decide (i = shareId)) as [->|Hne].
    - by rewrite lookup_alter_eq, lookup_insert_eq, Hl.
    - by rewrite lookup_alter_ne, lookup_insert_ne. }
  unfold SharedDownloadRoute.respond, SharedDownloadRoute.served.
  cbn [forallb ServedContent.contentType ServedContent.contentDisposition
       ServedContent.contentLength].
  rewrite headerAccepted_decimal, !andb_true_r.
  destruct (headerAccepted (FileRecord.type file)) eqn:Ht;
    [destruct (headerAccepted (js "attachment; filename=" ++ _)) eqn:Hd|];
    cbn [andb]; eexists _, _; (split; [reflexivity|]).
  - split_and!; try done. by exists accessed, updated, logged.
  - right. split; [by right|]. by exists accessed, updated, logged.
  - right. split; [by left|]. by exists accessed, updated, logged.
Qed.

(** X24: POST /api/shared/{id}/download always answers.  When it serves
    the file, the link is active and allows downloads, the file's type and
    the Content-Disposition made from its name are accepted as header
    values, and the store differs from the one before only in that link:
    accessCount is one higher and accessLog one entry longer.  A rejection
    has status 401, 403, 404, 410 or 500; with a status other than 500 the
    store is unchanged; with 500 it is unchanged too, unless the response
    could not be built because the file's type or name is refused as a
    header value: then the access has already been counted. *)
Theorem shared_download_records_one_access `{Externals} request w :
  exists response w',
    SharedDownloadRoute.POST request w = (Returned response, w')
    /\ match response with
       | Ok content =>
           exists link file accessed updated logged,
             shareLinks (store w) !! ShareRequest.shareId request = Some link
             /\ ShareLink.isActive link = true
             /\ ShareLink.allowDownload link = true
             /\ files (store w) !! ShareLink.fileId link = Some file
             /\ content = SharedDownloadRoute.served file
             /\ headerAccepted (FileRecord.type file) = true
             /\ headerAccepted (js "attachment; filename=" ++ [34%N]
                                ++ FileRecord.name file ++ [34%N]) = true
             /\ store w' = withShareLinks
                  (<[ShareRequest.shareId request :=
                       ShareLink.recordAccess accessed updated logged None None link]>
                     (shareLinks (store w))) (store w)
             /\ ShareLink.accessCount
                  (ShareLink.recordAccess accessed updated logged None None link)
                = ShareLink.accessCount link + 1
             /\ length (ShareLink.accessLog
                  (ShareLink.recordAccess accessed updated logged None None link))
                = S (length (ShareLink.accessLog link))
       | Rejected status _ _ =>
           (status = 401 \/ status = 403 \/ status = 404 \/ status = 410 \/ status = 500)
           /\ (status <> 500 -> store w' = store w)
           /\ (store w' = store w
               \/ exists link file accessed updated logged,
                    shareLinks (store w) !! ShareRequest.shareId request = Some link
                    /\ files (store w) !! ShareLink.fileId link = Some file
                    /\ (headerAccepted (FileRecord.type file) = false
                        \/ headerAccepted (js "attachment; filename=" ++ [34%N]
                                           ++ FileRecord.name file ++ [34%N]) = false)
                    /\ store w' = withShareLinks
                         (<[ShareRequest.shareId request :=
                              ShareLink.recordAccess accessed updated logged None None
                                link]> (shareLinks (store w))) (store w))
       end.
Proof.
  unfold SharedDownloadRoute.POST, tryCatch. rewrite bind_run.
  destruct (shareLinks_findById_run (ShareRequest.shareId request) w)
    as ([[d|]|e] & w1 & -> & Hs1 & _ & _ & Hd).
  2,3: eexists _, _; split; [reflexivity|]; cbn; split_and!; auto.
  destruct Hd as (_ & Hl & Ha).
  destruct (_ && _);
    [eexists _, _; split; [reflexivity|]; cbn; split_and!; auto|].
  destruct (ShareLink.allowDownload d.2) eqn:Hallow; cbn [negb];
    [|eexists _, _; split; [reflexivity|]; cbn; split_and!; auto].
  rewrite bind_run.
  destruct (expired_run d.2 w1) as (b & w2 & -> & Hs2).
  destruct b;
    [eexists _, _; split; [reflexivity|]; cbn; rewrite Hs2, Hs1; split_and!; auto 6|].
  rewrite bind_run.
  destruct (files_findById_run (ShareLink.fileId d.2) w2)
    as ([[f|]|e] & w3 & -> & Hs3 & Hf).
  2,3: eexists _, _; split; [reflexivity|]; cbn; rewrite Hs3, Hs2, Hs1;
    split_and!; auto 6.
  destruct Hf as (_ & Hfile & _). rewrite Hs2, Hs1 in Hfile.
  assert (Hl3 : shareLinks (store w3) !! ShareRequest.shareId request = Some d.2)
    by (by rewrite Hs3, Hs2, Hs1).
  destruct (respond_after_access (ShareRequest.shareId request) f.2 d.2 w3 Hl3)
    as ([response|e] & w4 & -> & Hout); eexists _, _; (split; [reflexivity|]).
  - destruct Hout as (-> & Ht & Hdisp & accessed & updated & logged & Hs4).
    exists d.2, f.2, accessed, updated, logged.
    rewrite Hs4, Hs3, Hs2, Hs1. split_and!; try done.
    cbn. rewrite length_app. cbn. lia.
  - split_and!; [auto 6|done|].
    destruct Hout as [Hs4|(Hbad & accessed & updated & logged & Hs4)].
    + left. by rewrite Hs4, Hs3, Hs2, Hs1.
    + right. exists d.2, f.2, accessed, updated, logged.
      rewrite Hs4, Hs3, Hs2, Hs1. done.
Qed.

(** The second case at work: a report whose name holds code units beyond
    Latin-1 passes validateFile; its download through the share link is
    answered 500, and the link's accessCount has gone from 0 to 1. *)
Example download_refused_after_the_count :
  isValid (fileValidator.validateFile
             {| File.name := examples.title; File.type := js "application/pdf";
                File.size := 40; File.content := [] |}) = true
  /\ (SharedDownloadRoute.POST (H := demo.externals) demo.shareRequest
        (demo.world examples.titled [] [])).1
     = Returned (Rejected 500 (js "Internal server error") None)
  /\ ShareLink.accessCount <$>
       shareLinks (store (SharedDownloadRoute.POST (H := demo.externals) demo.shareRequest
                            (demo.world examples.titled [] [])).2) !! 7%N
     = Some 1.
Proof. vm_compute. repeat split; reflexivity. Qed.

(** X25: whenever the download through a share link is served, verifying
    the same request and resolving the link in the same world succeed as
    well, and resolve reports the type and size that the download serves. *)
Theorem download_implies_verify_and_resolve `{Externals} request w served w' :
  SharedDownloadRoute.POST request w = (Returned (Ok served), w') ->
  (exists w1, SharedVerifyRoute.POST request w = (Returned (Ok true), w1))
  /\ (exists file w2,
        SharedRoute.GET (ShareRequest.shareId request) w = (Returned (Ok file), w2)
        /\ SharedFile.allowDownload file = true
        /\ SharedFile.type file = ServedContent.contentType served
        /\ decimal (SharedFile.size file) = ServedContent.contentLength served).
Proof.
  unfold SharedDownloadRoute.POST, SharedVerifyRoute.POST, SharedRoute.GET, tryCatch.
  rewrite !bind_run.
  destruct (db.shareLinks.findById (ShareRequest.shareId request) w)
    as [[[d|]|e] w1]; [|done..].
  intros Hrun.
  assert (Hrej : forall status error details (w0 : World),
            (mret (Rejected status error details) : M (Response ServedContent.t)) w0
            <> (Returned (Ok served), w'))
    by done.
  assert (Hpw : (truthy (ShareLink.password d.2)
                 && negb (SharedDownloadRoute.passwordAccepted (ShareRequest.password request)
                            (default [] (ShareLink.password d.2)))) = false)
    by (destruct (_ && _); [by destruct (Hrej _ _ _ _ Hrun)|reflexivity]).
  rewrite Hpw in Hrun.
  destruct (ShareLink.allowDownload d.2) eqn:Hallow; cbn [negb] in Hrun;
    [|by destruct (Hrej _ _ _ _ Hrun)].
  rewrite ?bind_run in Hrun. rewrite ?bind_run.
  destruct (expired d.2 w1) as [[[]|e] w2]; [by destruct (Hrej _ _ _ _ Hrun)| |done].
  rewrite ?bind_run in Hrun. rewrite ?bind_run.
  destruct (db.files.findById (ShareLink.fileId d.2) w2) as [[[f|]|e] w3];
    [|by destruct (Hrej _ _ _ _ Hrun)|done].
  rewrite bind_run in Hrun.
  destruct (db.shareLinks.incrementAccess _ _ _ w3) as [[[]|e] w4]; [|done].
  unfold SharedDownloadRoute.respond in Hrun.
  destruct (forallb headerAccepted _); [|done].
  injection Hrun as <- <-. split.
  - destruct (ShareLink.password d.2) as [[|c h]|]; [by eexists| |by eexists].
    cbn in Hpw. unfold SharedDownloadRoute.passwordAccepted in Hpw.
    unfold SharedVerifyRoute.compare.
    destruct (ShareRequest.password request) as [[|c' p]|]; [done| |done].
    apply negb_false_iff in Hpw. rewrite bind_run. cbn. rewrite Hpw. by eexists.
  - eexists _, _. split; [reflexivity|]. done.
Qed.

Lemma download_implies_verify_and_resolve_witness :
  exists w1,
    SharedVerifyRoute.POST (H := demo.externals) demo.shareRequest
      (demo.world examples.stocked [] []) = (Returned (Ok true), w1).
Proof.
  eapply (download_implies_verify_and_resolve (H := demo.externals) demo.shareRequest
            (demo.world examples.stocked [] [])).
  vm_compute. reflexivity.
Defined.


(** ** Sharing a file *)

Lemma digits_fold_acc d acc :
  fold_left (fun n c => 10 * n + (Z.of_N c - 48)) (js (NilEmpty.string_of_uint d))
    (Z.pos acc)
  = Z.pos (Pos.of_uint_acc d acc).
Proof.
  revert acc. unfold js.
  induction d as [|d IH|d IH|d IH|d IH|d IH|d IH|d IH|d IH|d IH|d IH]; intros acc;
    [done|cbn -[Z.mul Z.add Pos.mul Pos.add];
          match goal with
          | |- fold_left _ _ ?x = _ => rewrite <- IH; f_equal; lia
          end..].
Qed.

Lemma digits_fold d :
  fold_left (fun n c => 10 * n + (Z.of_N c - 48)) (js (NilEmpty.string_of_uint d)) 0
  = Z.of_N (Pos.of_uint d).
Proof.
  induction d as [|d IH|d IH|d IH|d IH|d IH|d IH|d IH|d IH|d IH|d IH];
    [done|exact IH|
     cbn [Pos.of_uint Z.of_N]; rewrite <- digits_fold_acc; reflexivity..].
Qed.

Lemma parseInt_decimal n : 0 <= n -> parseInt (decimal n) = Some n.
Proof.
  intros Hn. destruct n as [|p|p]; [reflexivity| |lia].
  unfold decimal. cbn [Z.to_int NilZero.string_of_int].
  pose proof (DecimalPos.Unsigned.of_to p) as Hp.
  assert (Hs : NilZero.string_of_uint (Pos.to_uint p)
               = NilEmpty.string_of_uint (Pos.to_uint p)).
  { destruct (Pos.to_uint p); [discriminate Hp|reflexivity..]. }
  rewrite Hs. unfold parseInt.
  destruct (js (NilEmpty.string_of_uint (Pos.to_uint p))) eqn:Hd.
  - destruct (Pos.to_uint p); try discriminate Hd. discriminate Hp.
  - rewrite <- Hd, digits_fold, Hp. reflexivity.
Qed.

Lemma isDigit_spec c : isDigit c = true <-> digitUnit c.
Proof.
  unfold isDigit, digitUnit. rewrite andb_true_iff, !N.leb_le. done.
Qed.

Lemma filter_all {A} (P : A -> Prop) `{!forall x, Decision (P x)} l :
  Forall P l -> filter P l = l.
Proof.
  induction 1 as [|x l Hx _ IH]; [done|]. by rewrite filter_cons, decide_True, IH.
Qed.

Lemma filter_none {A} (P : A -> Prop) `{!forall x, Decision (P x)} l :
  Forall (fun x => ~ P x) l -> filter P l = [].
Proof.
  induction 1 as [|x l Hx _ IH]; [done|]. by rewrite filter_cons, decide_False, IH.
Qed.

Lemma filter_digits (digits unit : jsstring) :
  Forall digitUnit digits -> Forall (fun c => isDigit c = false) unit ->
  filter (fun c => isDigit c = true) (digits ++ unit) = digits
  /\ filter (fun c => isDigit c = false) (digits ++ unit) = unit.
Proof.
  intros Hd Hu. rewrite !filter_app. split.
  - rewrite (filter_none _ unit), app_nil_r.
    + apply filter_all. eapply Forall_impl; [exact Hd|]. intros c. apply isDigit_spec.
    + eapply Forall_impl; [exact Hu|]. intros c ->. done.
  - rewrite (filter_none _ digits).
    + by apply filter_all.
    + eapply Forall_impl; [exact Hd|]. intros c Hc%isDigit_spec. by rewrite Hc.
Qed.

(** X26: for expiresIn made of the decimal digits of n followed by a unit
    without digits, the share route sets the expiry to the clock's reading
    plus n hours when the unit is "h" and plus n days for any other unit,
    and throws if that time is beyond the range of Date. *)
Theorem share_expiry n unit w :
  0 <= n -> Forall (fun c => isDigit c = false) unit ->
  exists today w',
    DateNow w = (Returned today, w')
    /\ ShareRoute.expiry (Some (decimal n ++ unit)) w
       = (if validTime (today + ShareRoute.milliseconds unit n)
          then (Returned (Some (today + ShareRoute.milliseconds unit n)), w')
          else (Threw (js "Invalid time value"), w'))
    /\ ShareRoute.milliseconds unit n
       = (if bool_decide (unit = js "h") then n * 3600000 else n * 86400000).
Proof.
  intros Hn Hu. destruct (DateNow_run w) as (today & w' & Hnow & _).
  exists today, w'. split; [done|]. split.
  - unfold ShareRoute.expiry.
    destruct (decimal n ++ unit) as [|c e] eqn:He.
    { apply app_eq_nil in He as [He _]. pose proof (parseInt_decimal n Hn) as Hp.
      rewrite He in Hp. discriminate. }
    destruct (bool_decide_reflect (c :: e = js "never")) as [Hnever|_].
    { exfalso. destruct (decimal n) as [|c' r] eqn:Hd.
      - pose proof (parseInt_decimal n Hn) as Hp. rewrite Hd in Hp. discriminate.
      - pose proof (decimal_units n Hn) as Hdu. rewrite Hd in Hdu.
        apply Forall_cons in Hdu as [Hc' _]. rewrite Hnever in He.
        apply (f_equal head) in He. change (Some c' = Some 110%N) in He.
        injection He as ->. unfold digitUnit in Hc'. lia. }
    rewrite <- He.
    destruct (filter_digits (decimal n) unit (decimal_units n Hn) Hu) as [-> ->].
    rewrite (parseInt_decimal n Hn), bind_run, Hnow.
    by destruct (validTime _).
  - unfold ShareRoute.milliseconds. destruct (bool_decide _); lia.
Qed.

Lemma share_expiry_witness :
  exists today w',
    DateNow (demo.world demo.emptyStore [5%N] []) = (Returned today, w')
    /\ ShareRoute.expiry (Some (decimal 24 ++ js "h")) (demo.world demo.emptyStore [5%N] [])
       = (if validTime (today + ShareRoute.milliseconds (js "h") 24)
          then (Returned (Some (today + ShareRoute.milliseconds (js "h") 24)), w')
          else (Threw (js "Invalid time value"), w'))
    /\ ShareRoute.milliseconds (js "h") 24
       = (if bool_decide (js "h" = js "h") then 24 * 3600000 else 24 * 86400000).
Proof.
  apply (share_expiry 24 (js "h") (demo.world demo.emptyStore [5%N] [])).
  - lia.
  - vm_compute. repeat constructor.
Defined.

(** X27: no expiresIn, the empty string and "never" give a link without
    expiry and without reading the clock; any other expiresIn without a
    digit makes the share route throw, the store untouched. *)
Theorem share_expiry_edges (w : World) :
  ShareRoute.expiry None w = (Returned None, w)
  /\ ShareRoute.expiry (Some []) w = (Returned None, w)
  /\ ShareRoute.expiry (Some (js "never")) w = (Returned None, w)
  /\ forall expiresIn,
       expiresIn <> [] -> expiresIn <> js "never" ->
       Forall (fun c => isDigit c = false) expiresIn ->
       exists w', ShareRoute.expiry (Some expiresIn) w = (Threw (js "Invalid time value"), w')
                  /\ store w' = store w.
Proof.
  split_and!; try reflexivity.
  intros [|c e] Hne Hnever Hnd; [done|]. unfold ShareRoute.expiry.
  rewrite bool_decide_eq_false_2 by done.
  rewrite (filter_none _ (c :: e)).
  - rewrite bind_run. destruct (DateNow_run w) as (today & w' & -> & Hs & _).
    by exists w'.
  - eapply Forall_impl; [exact Hnd|]. intros x ->. done.
Qed.

Lemma shareLinks_create_run data w :
  exists out w', database.shareLinks.create data w = (out, w')
    /\ match out with
       | Returned d =>
           exists t,
             d = (fresh (dom (shareLinks (store w))), database.shareLinks.newLink data t)
             /\ store w' = withShareLinks (<[d.1 := d.2]> (shareLinks (store w))) (store w)
             /\ now w <= t
       | Threw _ => store w' = store w
       end.
Proof.
  unfold database.shareLinks.create. rewrite bind_run.
  destruct (DateNow_run w) as (t & w0 & -> & Hs0 & _ & Ht & _). rewrite bind_run.
  pose proof (gateway_run (js "shareLinks.insertOne") w0) as Hg.
  destruct (faults w0) as [|[] rest]; destruct Hg as (w1 & -> & Hs1 & _).
  2: { eexists _, _. split; [reflexivity|]. by rewrite Hs1, Hs0. }
  all: eexists _, _; (split; [reflexivity|]); exists t; cbn.
  all: rewrite Hs1, Hs0; done.
Qed.



Lemma expiry_run expiresIn w :
  exists out w', ShareRoute.expiry expiresIn w = (out, w') /\ store w' = store w
    /\ match out with
       | Returned (Some t) => now w <= now w' /\ validTime t = true
       | _ => True
       end.
Proof.
  unfold ShareRoute.expiry. destruct expiresIn as [[|c e]|]; try by eexists _, _.
  destruct (bool_decide _); [by eexists _, _|]. rewrite bind_run.
  destruct (DateNow_run w) as (today & w' & -> & Hs & _ & Ht & Hn).
  destruct (parseInt _) as [duration|]; [|by eexists _, _].
  destruct (validTime _) eqn:Hv; eexists _, _; (split; [reflexivity|]); split; try done.
  split; [lia|done].
Qed.

Lemma files_findById_clock id w :
  exists out w', db.files.findById id w = (out, w') /\ now w' = now w /\ ticks w' = ticks w.
Proof.
  unfold db.files.findById. rewrite bind_run.
  pose proof (gateway_run (js "files.findOne") w) as Hg.
  destruct (faults w) as [|[] rest]; destruct Hg as (w1 & -> & _ & _ & Hn & Ht);
    by eexists _, _.
Qed.

Lemma share_POST_run `{Externals} `{Bcrypt} request w :
  exists response w',
    ShareRoute.POST request w = (Returned response, w')
    /\ users (store w') = users (store w)
    /\ bucket (store w') = bucket (store w)
    /\ timers (store w') = timers (store w)
    /\ match response with
       | Ok created =>
           exists payload file expiresAt t t',
             let shareId := fresh (dom (shareLinks (store w))) in
             let link := database.shareLinks.newLink (shareData request payload expiresAt) t in
             caller (ShareRoute.cookie request) (ShareRoute.authorization request)
             = Some payload
             /\ files (store w) !! ShareRoute.id request = Some file
             /\ FileRecord.isDeleted file = false
             /\ FileRecord.userId file = JWTPayload.userId payload
             /\ shareLinks (store w') = <[shareId := link]> (shareLinks (store w))
             /\ files (store w')
                = <[ShareRoute.id request :=
                      FileUpdates.set
                        (FileUpdates.shared
                           {| ShareSettings.shareId := oidString shareId;
                              ShareSettings.password := ShareLink.password link;
                              ShareSettings.expiresAt := expiresAt;
                              ShareSettings.allowDownload := ShareLink.allowDownload link;
                              ShareSettings.allowPreview := ShareLink.allowPreview link |})
                        t' file]> (files (store w))
             /\ created
                = {| ShareCreated.shareUrl :=
                       ShareRoute.origin request ++ js "/shared/" ++ oidString shareId;
                     ShareCreated.shareId := oidString shareId;
                     ShareCreated.expiresAt := toISOString <$> expiresAt |}
             /\ (exists w1 w2,
                   now w1 = now w /\ ticks w1 = ticks w
                   /\ ShareRoute.expiry (ShareRoute.expiresIn request) w1
                      = (Returned expiresAt, w2))
       | Rejected status _ _ =>
           (status = 401 \/ status = 403 \/ status = 404 \/ status = 500)
           /\ files (store w') = files (store w)
           /\ (status <> 500 -> store w' = store w)
       end.
Proof.
  unfold ShareRoute.POST, caller.
  destruct (orElse _ _) as [[|c t]|]; unfold tryCatch at 1.
  1,3: eexists _, _; split; [reflexivity|]; cbn; split_and!; auto.
  destruct (verifyToken (c :: t)) as [payload|].
  2: eexists _, _; split; [reflexivity|]; cbn; split_and!; auto.
  rewrite bind_run.
  destruct (files_findById_clock (ShareRoute.id request) w) as (o' & w1' & Hrun' & Hn1 & Ht1).
  destruct (files_findById_run (ShareRoute.id request) w)
    as ([[d|]|e] & w1 & Hrun & Hs1 & Hd); rewrite Hrun.
  2,3: eexists _, _; split; [reflexivity|]; cbn; rewrite Hs1; split_and!; auto.
  rewrite Hrun in Hrun'. injection Hrun' as <- <-.
  destruct Hd as (Hid & Hl & Hlive).
  destruct (decide (FileRecord.userId d.2 = JWTPayload.userId payload)) as [Ho|Ho].
  2: { rewrite bool_decide_eq_false_2 by done. cbn [negb].
       eexists _, _. split; [reflexivity|]. cbn. rewrite Hs1. split_and!; auto. }
  rewrite bool_decide_eq_true_2 by done. cbn [negb]. rewrite bind_run.
  destruct (expiry_run (ShareRoute.expiresIn request) w1) as (oe & w2 & Hexp & Hs2 & _).
  rewrite Hexp.
  destruct oe as [expiresAt|e].
  2: { eexists _, _. split; [reflexivity|]. cbn. rewrite Hs2, Hs1. split_and!; auto. }
  rewrite bind_run. fold (shareData request payload expiresAt).
  destruct (shareLinks_create_run (shareData request payload expiresAt) w2)
    as ([link|e] & w3 & -> & Hs3).
  2: { eexists _, _. split; [reflexivity|]. cbn. rewrite Hs3, Hs2, Hs1.
       split_and!; auto. }
  destruct Hs3 as (t3 & -> & Hs3 & _). cbn [fst snd] in *. rewrite bind_run.
  match goal with
  | |- context [database.files.update ?i ?u w3] =>
      destruct (update_run i u w3) as (ou & w4 & -> & Hl4 & Hu4 & Hb4 & Ht4 & Hou & _)
  end.
  rewrite Hs3 in Hl4, Hu4, Hb4, Ht4, Hou. cbn in Hl4, Hu4, Hb4, Ht4, Hou.
  rewrite Hs2, Hs1 in *.
  destruct ou as [[u|]|e].
  - destruct Hou as (file & t4 & Hl' & _ & -> & Hf4 & _).
    rewrite Hl in Hl'. injection Hl' as <-.
    eexists _, _. split; [reflexivity|]. cbn. split_and!; try done.
    exists payload, d.2, expiresAt, t3, t4. cbv zeta. split_and!; try done.
    by exists w1, w2.
  - destruct Hou as (_ & Hgone & _). rewrite (Hgone _ Hl) in Hlive. done.
  - destruct Hou as (Hs4 & _). eexists _, _. split; [reflexivity|]. cbn.
    rewrite Hs4. cbn. split_and!; auto. done.
Qed.

(** X28: when POST /api/files/{id}/share answers with a link, the caller
    owns the file and it is not deleted; exactly one share link is added,
    under a fresh id, active, with accessCount 0 and an empty log, with the
    hash of the password if one was given, and allowDownload and
    allowPreview defaulting to true; the file is marked as shared with the
    same settings; users, bucket and timers are untouched; the answer
    names that id. *)
Theorem share_route_creates_link `{Externals} `{Bcrypt} request w created w' :
  ShareRoute.POST request w = (Returned (Ok created), w') ->
  exists payload file expiresAt t t',
    let shareId := fresh (dom (shareLinks (store w))) in
    let link := database.shareLinks.newLink (shareData request payload expiresAt) t in
    caller (ShareRoute.cookie request) (ShareRoute.authorization request) = Some payload
    /\ files (store w) !! ShareRoute.id request = Some file
    /\ FileRecord.isDeleted file = false
    /\ FileRecord.userId file = JWTPayload.userId payload
    /\ shareLinks (store w) !! shareId = None
    /\ shareLinks (store w') = <[shareId := link]> (shareLinks (store w))
    /\ ShareLink.accessCount link = 0 /\ ShareLink.accessLog link = []
    /\ ShareLink.isActive link = true
    /\ files (store w')
       = <[ShareRoute.id request :=
             FileUpdates.set
               (FileUpdates.shared
                  {| ShareSettings.shareId := oidString shareId;
                     ShareSettings.password := ShareLink.password link;
                     ShareSettings.expiresAt := expiresAt;
                     ShareSettings.allowDownload := ShareLink.allowDownload link;
                     ShareSettings.allowPreview := ShareLink.allowPreview link |})
               t' file]> (files (store w))
    /\ users (store w') = users (store w)
    /\ bucket (store w') = bucket (store w)
    /\ timers (store w') = timers (store w)
    /\ created
       = {| ShareCreated.shareUrl :=
              ShareRoute.origin request ++ js "/shared/" ++ oidString shareId;
            ShareCreated.shareId := oidString shareId;
            ShareCreated.expiresAt := toISOString <$> expiresAt |}
    /\ (exists w1 w2,
          now w1 = now w /\ ticks w1 = ticks w
          /\ ShareRoute.expiry (ShareRoute.expiresIn request) w1 = (Returned expiresAt, w2)).
Proof.
  intros Hrun.
  destruct (share_POST_run request w) as (response & w0 & Hrun' & Hu & Hb & Ht & Hok).
  rewrite Hrun in Hrun'. injection Hrun' as <- <-.
  destruct Hok as (payload & file & expiresAt & t & t' & Hok). cbv zeta in Hok.
  destruct Hok as (Hc & Hl & Hd & Ho & Hlinks & Hfiles & Hcreated & Hexp).
  exists payload, file, expiresAt, t, t'. cbv zeta.
  split_and!; try done.
  apply not_elem_of_dom, is_fresh.
Qed.

Lemma share_route_creates_link_witness :
  exists link,
    shareLinks (store examples.afterShare) !! fresh (dom (shareLinks examples.stocked))
    = Some link
    /\ ShareLink.accessCount link = 0
    /\ users (store examples.afterShare) = users examples.stocked.
Proof.
  destruct (share_route_creates_link (H := demo.externals) (H0 := examples.hashing)
              examples.shareCreation (demo.world examples.stocked [] [])
              _ examples.afterShare ltac:(vm_compute; reflexivity))
    as (payload & file & expiresAt & t & t' & Hok). cbv zeta in Hok.
  destruct Hok as (_ & _ & _ & _ & _ & Hlinks & Hcount & _ & _ & _ & Hu & _).
  eexists. split; [|split; [exact Hcount|exact Hu]].
  rewrite Hlinks. apply lookup_insert_eq.
Defined.

(** X29: a rejection by the share route has status 401, 403, 404 or 500
    and never changes a record, a user or the bucket; with a status other
    than 500 the whole store is unchanged. *)
Theorem share_route_rejections `{Externals} `{Bcrypt} request w status error details w' :
  ShareRoute.POST request w = (Returned (Rejected status error details), w') ->
  (status = 401 \/ status = 403 \/ status = 404 \/ status = 500)
  /\ files (store w') = files (store w)
  /\ users (store w') = users (store w)
  /\ bucket (store w') = bucket (store w)
  /\ (status <> 500 -> store w' = store w).
Proof.
  intros Hrun.
  destruct (share_POST_run request w) as (response & w0 & Hrun' & Hu & Hb & Ht & Hrej).
  rewrite Hrun in Hrun'. injection Hrun' as <- <-.
  destruct Hrej as (Hst & Hf & Hs). done.
Qed.

Lemma share_route_rejections_witness :
  store (ShareRoute.POST (H := demo.externals) (H0 := examples.hashing)
           examples.shareCreation examples.afterDelete).2
  = store examples.afterDelete.
Proof.
  apply (share_route_rejections (H := demo.externals) (H0 := examples.hashing)
           examples.shareCreation examples.afterDelete 404 (js "File not found") None
           (ShareRoute.POST (H := demo.externals) (H0 := examples.hashing)
              examples.shareCreation examples.afterDelete).2
           ltac:(vm_compute; reflexivity)).
  discriminate.
Defined.

(** X30: the link the share route has created resolves: as long as the
    database answers and the link has not expired, GET /api/shared/{id} for
    the id the route answered yields the shared file with its name and
    size, the allowDownload and allowPreview of the request (true by
    default), and asks for a password only if one was given. *)
Theorem created_link_resolves `{Externals} `{Bcrypt} request w created w' w2 :
  ShareRoute.POST request w = (Returned (Ok created), w') ->
  store w2 = store w' -> faults w2 = [] ->
  (forall link e,
     shareLinks (store w') !! fresh (dom (shareLinks (store w))) = Some link ->
     ShareLink.expiresAt link = Some e -> ticks w2 = [] /\ now w2 <= e) ->
  exists shared file w3,
    ShareCreated.shareId created = oidString (fresh (dom (shareLinks (store w))))
    /\ SharedRoute.GET (fresh (dom (shareLinks (store w)))) w2 = (Returned (Ok shared), w3)
    /\ files (store w) !! ShareRoute.id request = Some file
    /\ SharedFile.id shared = ShareRoute.id request
    /\ SharedFile.name shared = FileRecord.name file
    /\ SharedFile.size shared = FileRecord.size file
    /\ SharedFile.allowDownload shared = default true (ShareRoute.allowDownload request)
    /\ SharedFile.allowPreview shared = default true (ShareRoute.allowPreview request)
    /\ (SharedFile.requiresPassword shared = true -> truthy (ShareRoute.password request) = true).
Proof.
  intros Hrun Hs2 Hf2 Hfuture.
  destruct (share_POST_run request w) as (response & w0 & Hrun' & Hu & Hb & Ht & Hok).
  rewrite Hrun in Hrun'. injection Hrun' as <- <-.
  destruct Hok as (payload & file & expiresAt & t & t' & Hok). cbv zeta in Hok.
  destruct Hok as (Hc & Hl & Hd & Ho & Hlinks & Hfiles & Hcreated & Hexp).
  set (shareId := fresh (dom (shareLinks (store w)))) in *.
  set (link := database.shareLinks.newLink (shareData request payload expiresAt) t) in *.
  assert (Hlk : shareLinks (store w') !! shareId = Some link)
    by (rewrite Hlinks; apply lookup_insert_eq).
  unfold SharedRoute.GET, tryCatch. rewrite bind_run.
  unfold db.shareLinks.findById. rewrite bind_run. unfold gateway. rewrite Hf2.
  rewrite bind_run. unfold getStore. cbn [mret M_ret]. rewrite Hs2, Hlk.
  change (ShareLink.isActive link) with true. cbn [fst snd]. rewrite bind_run.
  assert (Hnot : exists w3, expired link w2 = (Returned false, w3)
                            /\ store w3 = store w2 /\ faults w3 = []).
  { unfold expired. destruct (ShareLink.expiresAt link) as [e|] eqn:He.
    - destruct (Hfuture link e Hlk He) as [Htk Hnow].
      rewrite bind_run. unfold DateNow. rewrite Htk. cbn [mret M_ret].
      rewrite (proj2 (Z.ltb_ge e (now w2))) by lia. by exists w2.
    - by exists w2. }
  destruct Hnot as (w3 & -> & Hs3 & Hf3). rewrite bind_run.
  unfold db.files.findById. rewrite bind_run. unfold gateway. rewrite Hf3.
  rewrite bind_run. unfold getStore. cbn [mret M_ret].
  change (ShareLink.fileId link) with (ShareRoute.id request).
  rewrite Hs3, Hs2, Hfiles, lookup_insert_eq.
  cbn [FileRecord.isDeleted FileUpdates.set]. rewrite Hd.
  eexists _, file, _. split; [by rewrite Hcreated|]. split; [reflexivity|].
  cbn. split_and!; try done.
  destruct (truthy (ShareRoute.password request)); done.
Qed.

Lemma created_link_resolves_witness :
  exists shared w3,
    SharedRoute.GET (fresh (dom (shareLinks examples.stocked)))
      (demo.world (store examples.afterShare) [] []) = (Returned (Ok shared), w3)
    /\ SharedFile.id shared = 5%N.
Proof.
  destruct (created_link_resolves (H := demo.externals) (H0 := examples.hashing)
              examples.shareCreation (demo.world examples.stocked [] [])
              _ examples.afterShare (demo.world (store examples.afterShare) [] [])
              ltac:(vm_compute; reflexivity) eq_refl eq_refl)
    as (shared & file & w3 & _ & Hrun & _ & Hid & _).
  - intros link e Hl He. vm_compute in Hl. injection Hl as <-.
    vm_compute in He. injection He as <-. split; [reflexivity|]. vm_compute. discriminate.
  - exists shared, w3. split; [exact Hrun|exact Hid].
Defined.
